(** * Parallel BiFlow coordination: a shallow embedding

    The development follows [binet/parallel/parallelbiflow.py] (task
    callables, result containers and the [ParallelBiFlow] orchestrator) and
    [mdp/nodes/expansion_nodes.py] (the polynomial expansion nodes).

    Python objects that are mutated in place are modelled by explicit state
    passing: every method is a function from the object's state to a result
    and the object's new state.  A raised exception is a result of its own,
    and the state reached when it was raised is kept, as in Python.  Loops
    that Python does not bound ([while True], the phase loop) take a fuel
    argument; running out of fuel is a third kind of result, different from
    returning and from raising.  What the code prints when [verbose] is set
    is left out. *)

From Stdlib Require Import String DecimalString.
From Stdlib Require Import List Bool Arith ZArith Lia.
From Stdlib Require Import Permutation Sorted.
Import ListNotations.
Open Scope string_scope.
Open Scope list_scope.
Open Scope nat_scope.

Set Implicit Arguments.
Set Warnings "-register-all".

(** ** Python values *)

(** The values that travel through the coordination code.  Data chunks [x]
    and execution outputs [y] are two-dimensional arrays (a list of rows);
    a message is a [dict]; the routing protocol packs values in tuples. *)
Inductive pyval : Type :=
| PyNone
| PyArray (rows : list (list Z))
| PyDict (items : list (string * pyval))
| PyTuple (fields : list pyval).

Definition is_None (v : pyval) : bool :=
  match v with PyNone => true | _ => false end.

(** What [train] and [stop_training] of a unit hand back under the routing
    protocol: nothing, a dict, or a tuple.  The code tells the three apart
    with [is None], [isinstance(result, dict)] and [len(result)].  A value
    of another type is outside the protocol and has no place here. *)
Inductive outcome : Type :=
| NoneResult
| DictResult (msg : list (string * pyval))
| TupleResult (fields : list pyval).

Definition is_None_or_dict (r : outcome) : bool :=
  match r with
  | NoneResult | DictResult _ => true
  | TupleResult _ => false
  end.

(** ** Exceptions *)

(** [BiFlowException] is raised with a text to which [str(result)] may be
    appended; the appended value is kept as a field of its own. *)
Inductive exn : Type :=
| BiFlowException (text : string) (last_result : option outcome)
| ParallelBiFlowException (text : string)
| FlowException (text : string)
| PyException (text : string)
| TrainingPhaseNotParallelException
| NoTaskException (text : string)
| StopIteration
| IndexError
| AttributeError
| TypeError
| ValueError.

(** ** Results and the state-and-exception monad *)

Inductive Res (A : Type) : Type :=
| Ok (a : A)
| Raise (e : exn)
| OutOfFuel.

Arguments Ok {A} a.
Arguments Raise {A} e.
Arguments OutOfFuel {A}.

Definition M (S A : Type) : Type := S -> Res A * S.

Definition ret {S A : Type} (a : A) : M S A := fun s => (Ok a, s).

Definition bind {S A B : Type} (m : M S A) (k : A -> M S B) : M S B :=
  fun s =>
    match m s with
    | (Ok a, s') => k a s'
    | (Raise e, s') => (Raise e, s')
    | (OutOfFuel, s') => (OutOfFuel, s')
    end.

Definition raise {S A : Type} (e : exn) : M S A := fun s => (Raise e, s).
Definition out_of_fuel {S A : Type} : M S A := fun s => (OutOfFuel, s).
Definition get {S : Type} : M S S := fun s => (Ok s, s).
Definition gets {S A : Type} (f : S -> A) : M S A := fun s => (Ok (f s), s).
Definition put {S : Type} (s : S) : M S unit := fun _ => (Ok tt, s).
Definition modify {S : Type} (f : S -> S) : M S unit := fun s => (Ok tt, f s).

(** A method of an object that returns a value and cannot raise. *)
Definition method {S A : Type} (f : S -> A * S) : M S A :=
  fun s => match f s with (a, s') => (Ok a, s') end.

(** [try: body except E: handler], for the exceptions [catches] selects. *)
Definition try_except {S A : Type} (catches : exn -> bool)
           (body : M S A) (handler : exn -> M S A) : M S A :=
  fun s =>
    match body s with
    | (Raise e, s') => if catches e then handler e s' else (Raise e, s')
    | r => r
    end.

(** [try: body finally: cleanup].  The cleanup runs whatever the body did;
    an exception of the cleanup replaces the body's result. *)
Definition try_finally {S A : Type} (body : M S A) (cleanup : M S unit)
  : M S A :=
  fun s =>
    match body s with
    | (r, s') =>
        match cleanup s' with
        | (Ok _, s'') => (r, s'')
        | (Raise e, s'') => (Raise e, s'')
        | (OutOfFuel, s'') => (OutOfFuel, s'')
        end
    end.

(** Run a computation on a component of the state. *)
Definition zoom {S T A : Type} (proj : S -> T) (upd : T -> S -> S)
           (m : M T A) : M S A :=
  fun s => match m (proj s) with (r, t') => (r, upd t' s) end.

Declare Scope py_scope.
Delimit Scope py_scope with py.
Notation "x <- m ;; k" := (bind m (fun x => k))
  (at level 100, m at next level, right associativity) : py_scope.
Notation "m ;; k" := (bind m (fun _ => k))
  (at level 100, right associativity) : py_scope.
Open Scope py_scope.

(** [for item in items: body item] *)
Fixpoint for_each {S A : Type} (items : list A) (body : A -> M S unit)
  : M S unit :=
  match items with
  | [] => ret tt
  | item :: rest => body item ;; for_each rest body
  end.

Definition when {S : Type} (c : bool) (m : M S unit) : M S unit :=
  if c then m else ret tt.

Definition string_of_nat (n : nat) : string :=
  NilEmpty.string_of_uint (Nat.to_uint n).

(** ** The unit contract *)

(** A [BiFlowNode] wraps the whole flow.  Its algorithms live outside this
    module; the orchestrator only relies on the operations below.  Methods
    that change the unit return its new state.  [fork] answers [None] where
    the unit raises [TrainingPhaseNotParallelException].  [flow_len],
    [flow_is_training] and [flow_get_current_train_phase] read the node list
    of the wrapped flow ([len(flow)], [flow[i].is_training()],
    [flow[i].get_current_train_phase()]). *)
Class BiFlowNode (Node : Type) : Type := {
  train : pyval -> pyval -> Node -> outcome * Node;
  stop_training : pyval -> Node -> outcome * Node;
  bi_reset : Node -> Node;
  purge_nodes : Node -> Node;
  fork : Node -> option Node;
  join : Node -> Node -> Node;
  copy : Node -> Node;
  is_bi_training : Node -> bool;
  flow_execute : pyval -> pyval -> pyval -> Node -> pyval * Node;
  flow_len : Node -> nat;
  flow_is_training : Node -> nat -> bool;
  flow_get_current_train_phase : Node -> nat -> nat
}.

(** ** Train task *)

Module BiFlowTrainCallable.
Section WithNode.
Context {Node : Type} `{BiFlowNode Node}.

(** The object: the wrapped unit and the purge flag. *)
Record t : Type := new { _biflownode : Node; _purge_nodes : bool }.

Definition err_target_not_found : string :=
  "Target node not found in flow during training, last result: ".

(** The [while True] loop of [__call__], on the unit's state. *)
Fixpoint train_loop (fuel : nat) (x msg : pyval) : M Node unit :=
  match fuel with
  | 0 => out_of_fuel
  | S fuel' =>
      result <- method (train x msg) ;;
      match result with
      | NoneResult | DictResult _ => ret tt
      | TupleResult fields =>
          if length fields =? 4 then
            match firstn 2 fields with
            | [x'; msg'] => train_loop fuel' x' msg'
            | _ => raise ValueError
            end
          else raise (BiFlowException err_target_not_found (Some result))
      end
  end.

(** [__call__(self, data)]: returns the unit it holds. *)
Definition __call__ (fuel : nat) (purge : bool) (data : pyval * pyval)
  : M Node Node :=
  let (x, msg) := data in
  train_loop fuel x msg ;;
  modify bi_reset ;;
  when purge (modify purge_nodes) ;;
  get.

Definition call (fuel : nat) (data : pyval * pyval) (self : t)
  : Res Node * t :=
  zoom _biflownode (fun n s => new n (_purge_nodes s))
       (__call__ fuel (_purge_nodes self) data) self.

Definition fork_callable (self : t) : option t :=
  match fork (_biflownode self) with
  | Some n => Some (new n (_purge_nodes self))
  | None => None
  end.
End WithNode.
End BiFlowTrainCallable.

(** Container for the trained unit of one phase: the first result becomes
    the accumulator, later results are joined into it.  [join other self]
    is [self.join(other)]. *)
Module BiFlowTrainResultContainer.
Section WithNode.
Context {Node : Type} `{BiFlowNode Node}.

Record t : Type := new { _biflownode : option Node }.

Definition __init__ : t := new None.

Definition add_result (result : Node) (task_index : nat) (self : t) : t :=
  match _biflownode self with
  | None => new (Some result)
  | Some acc => new (Some (join result acc))
  end.

Definition get_results (self : t) : list (option Node) * t :=
  ([_biflownode self], new None).
End WithNode.
End BiFlowTrainResultContainer.

(** ** Execute task *)

Module BiFlowExecuteCallable.
Section WithNode.
Context {Node : Type} `{BiFlowNode Node}.

(** [__call__(self, data)] with [data = (x, msg, target)]: the execution
    result, and the unit itself when it is still training bidirectionally. *)
Definition __call__ (purge : bool) (data : pyval * pyval * pyval)
  : M Node (pyval * option Node) :=
  let '(x, msg, target) := data in
  result <- method (flow_execute x msg target) ;;
  modify bi_reset ;;
  training <- gets is_bi_training ;;
  if training then
    when purge (modify purge_nodes) ;;
    self <- get ;;
    ret (result, Some self)
  else ret (result, None).
End WithNode.
End BiFlowExecuteCallable.

(** Modelled from the spec: the order-preserving container
    [parallel.OrderedResultContainer], the parent class of
    [OrderedBiExecuteResultContainer], is not part of this module.  Following
    "add(result, index) stores at index" and "drain() returns results in
    submission order", it keeps each result with its task index and, when
    drained, hands the results back sorted by index and forgets them. *)
Module OrderedResultContainer.
Section WithResult.
Variable R : Type.

Definition add_result (result : R) (task_index : nat)
           (_results : list (R * nat)) : list (R * nat) :=
  _results ++ [(result, task_index)].

Fixpoint insert_by_index (p : R * nat) (sorted : list (R * nat))
  : list (R * nat) :=
  match sorted with
  | [] => [p]
  | q :: rest =>
      if snd p <? snd q then p :: q :: rest
      else q :: insert_by_index p rest
  end.

Definition sort_by_index (l : list (R * nat)) : list (R * nat) :=
  fold_left (fun sorted p => insert_by_index p sorted) l [].

Definition get_results (_results : list (R * nat))
  : list R * list (R * nat) :=
  (map fst (sort_by_index _results), []).

(** Submission order: by task index, weakly and strictly. *)
Definition index_le (p q : R * nat) : Prop := snd p <= snd q.
Definition index_lt (p q : R * nat) : Prop := snd p < snd q.
End WithResult.
End OrderedResultContainer.

Module OrderedBiExecuteResultContainer.
Section WithNode.
Context {Node : Type} `{BiFlowNode Node}.

Record t : Type := new {
  _results : list (pyval * nat);
  _biflownode : option Node
}.

Definition __init__ : t := new [] None.

(** [add_result(self, result, task_index)]: the forked unit is taken off
    the result and joined into the accumulator. *)
Definition add_result (result : pyval * option Node) (task_index : nat)
           (self : t) : t :=
  let (excecute_result, forked_biflownode) := result in
  let results' :=
    OrderedResultContainer.add_result excecute_result task_index
                                      (_results self) in
  match forked_biflownode with
  | Some forked =>
      match _biflownode self with
      | None => new results' (Some forked)
      | Some acc => new results' (Some (join forked acc))
      end
  | None => new results' (_biflownode self)
  end.

(** [get_results(self)]: the accumulator goes with the first result,
    [None] with the others; [zip] stops at the shorter list. *)
Definition get_results (self : t) : list (pyval * option Node) * t :=
  let (excecute_results, results') :=
    OrderedResultContainer.get_results (_results self) in
  let biflownode_results :=
    [_biflownode self] ++ repeat None (length excecute_results - 1) in
  (combine excecute_results biflownode_results,
   new results' (_biflownode self)).
End WithNode.
End OrderedBiExecuteResultContainer.

(** ** The orchestrator *)

(** [numx.concatenate] on a Python list of two-dimensional arrays: the rows
    of all arrays, in the order of the list.  numpy refuses an empty list. *)
Fixpoint array_rows (ys : list pyval) : option (list (list Z)) :=
  match ys with
  | [] => Some []
  | PyArray rows :: rest =>
      match array_rows rest with
      | Some rows' => Some (rows ++ rows')
      | None => None
      end
  | _ :: _ => None
  end.

Definition numx_concatenate (ys : list pyval) : Res pyval :=
  match ys with
  | [] => Raise ValueError
  | _ => match array_rows ys with
         | Some rows => Ok (PyArray rows)
         | None => Raise ValueError
         end
  end.

Module ParallelBiFlow.
Section WithNode.
Context {Node : Type} `{BiFlowNode Node}.

(** A callable class is what Python calls as [cls(biflownode,
    purge_nodes=...)] to get a callable, which is then called on a data
    chunk and works on the unit it was built with.  The default classes
    are [BiFlowTrainCallable] and [BiFlowExecuteCallable]. *)
Definition train_callable_class : Type :=
  nat -> bool -> pyval * pyval -> M Node Node.
Definition execute_callable_class : Type :=
  bool -> pyval * pyval * pyval -> M Node (pyval * option Node).

Inductive task_data : Type :=
| TrainData (x msg : pyval)
| ExecuteData (x msg target : pyval).

Inductive task_callable : Type :=
| TrainCallable (cls : train_callable_class) (biflownode : Node)
                (purge_nodes : bool)
| ExecuteCallable (cls : execute_callable_class) (biflownode : Node)
                  (purge_nodes : bool).

(** A task is [(data_chunk, callable)]; the callable is [None] for every
    task but the first of a phase. *)
Definition task : Type := task_data * option task_callable.

(** What a task gives back: the trained unit (train callable), or the
    execution result with the unit or [None] (execute callable). *)
Inductive task_result : Type :=
| TrainResult (biflownode : Node)
| ExecuteResult (result : pyval) (forked_biflownode : option Node).

(** The attributes of a [ParallelBiFlow].  [self.flow] and
    [self._flownode] (built as [BiFlowNode(BiFlow(self.flow))], and copied
    back with [self.flow = self._flownode._flow.flow]) refer to the same
    node objects; they are one field here.  An iterator over a list is the
    list of the items it has not produced yet. *)
Record t : Type := mk {
  _flownode : Node;
  _train_data_iterables : list (list pyval);
  _train_msg_iterables : list (list pyval);
  _stop_messages : list pyval;
  _train_data_iterator : option (list pyval);
  _train_msg_iterator : option (list pyval);
  _exec_data_iterator : option (list pyval);
  _exec_msg_iterator : option (list pyval);
  _exec_target_iterator : option (list pyval);
  _i_train_node : option nat;
  _next_task : option task;
  _train_callable_class : option train_callable_class;
  _execute_callable_class : option execute_callable_class
}.

(** [__init__(self, flow)] *)
Definition __init__ (flow : Node) : t :=
  mk flow [] [] [] None None None None None None None None None.

Definition set_flownode (v : Node) (s : t) : t :=
  mk v (_train_data_iterables s) (_train_msg_iterables s) (_stop_messages s)
     (_train_data_iterator s) (_train_msg_iterator s)
     (_exec_data_iterator s) (_exec_msg_iterator s)
     (_exec_target_iterator s) (_i_train_node s) (_next_task s)
     (_train_callable_class s) (_execute_callable_class s).
Definition set_train_iterables (d m : list (list pyval)) (s : t) : t :=
  mk (_flownode s) d m (_stop_messages s)
     (_train_data_iterator s) (_train_msg_iterator s)
     (_exec_data_iterator s) (_exec_msg_iterator s)
     (_exec_target_iterator s) (_i_train_node s) (_next_task s)
     (_train_callable_class s) (_execute_callable_class s).
Definition set_stop_messages (v : list pyval) (s : t) : t :=
  mk (_flownode s) (_train_data_iterables s) (_train_msg_iterables s) v
     (_train_data_iterator s) (_train_msg_iterator s)
     (_exec_data_iterator s) (_exec_msg_iterator s)
     (_exec_target_iterator s) (_i_train_node s) (_next_task s)
     (_train_callable_class s) (_execute_callable_class s).
Definition set_train_iterators (d m : option (list pyval)) (s : t) : t :=
  mk (_flownode s) (_train_data_iterables s) (_train_msg_iterables s)
     (_stop_messages s) d m
     (_exec_data_iterator s) (_exec_msg_iterator s)
     (_exec_target_iterator s) (_i_train_node s) (_next_task s)
     (_train_callable_class s) (_execute_callable_class s).
Definition set_exec_iterators (d m g : option (list pyval)) (s : t) : t :=
  mk (_flownode s) (_train_data_iterables s) (_train_msg_iterables s)
     (_stop_messages s) (_train_data_iterator s) (_train_msg_iterator s)
     d m g (_i_train_node s) (_next_task s)
     (_train_callable_class s) (_execute_callable_class s).
Definition set_i_train_node (v : option nat) (s : t) : t :=
  mk (_flownode s) (_train_data_iterables s) (_train_msg_iterables s)
     (_stop_messages s) (_train_data_iterator s) (_train_msg_iterator s)
     (_exec_data_iterator s) (_exec_msg_iterator s)
     (_exec_target_iterator s) v (_next_task s)
     (_train_callable_class s) (_execute_callable_class s).
Definition set_next_task (v : option task) (s : t) : t :=
  mk (_flownode s) (_train_data_iterables s) (_train_msg_iterables s)
     (_stop_messages s) (_train_data_iterator s) (_train_msg_iterator s)
     (_exec_data_iterator s) (_exec_msg_iterator s)
     (_exec_target_iterator s) (_i_train_node s) v
     (_train_callable_class s) (_execute_callable_class s).
Definition set_train_callable_class (v : option train_callable_class)
           (s : t) : t :=
  mk (_flownode s) (_train_data_iterables s) (_train_msg_iterables s)
     (_stop_messages s) (_train_data_iterator s) (_train_msg_iterator s)
     (_exec_data_iterator s) (_exec_msg_iterator s)
     (_exec_target_iterator s) (_i_train_node s) (_next_task s)
     v (_execute_callable_class s).
Definition set_execute_callable_class (v : option execute_callable_class)
           (s : t) : t :=
  mk (_flownode s) (_train_data_iterables s) (_train_msg_iterables s)
     (_stop_messages s) (_train_data_iterator s) (_train_msg_iterator s)
     (_exec_data_iterator s) (_exec_msg_iterator s)
     (_exec_target_iterator s) (_i_train_node s) (_next_task s)
     (_train_callable_class s) v.

(** Run a method of the wrapped unit on [self._flownode]. *)
Definition on_flownode {A : Type} (m : M Node A) : M t A :=
  zoom _flownode set_flownode m.

(** [seq[i]], which raises [IndexError] out of range. *)
Definition getitem {S A : Type} (seq : list A) (i : nat) : M S A :=
  match nth_error seq i with
  | Some a => ret a
  | None => raise IndexError
  end.

(** [self.flow[i].is_training()] *)
Definition flow_item_is_training (i : nat) : M t bool :=
  node <- gets _flownode ;;
  if i <? flow_len node then ret (flow_is_training node i)
  else raise IndexError.

(** Modelled from the spec: the properties [is_parallel_training],
    [is_parallel_executing] and [task_available] and the method [get_task]
    belong to the parent class [parallel.ParallelFlow], which is not part
    of this module.  Training is underway while the phase cursor is set
    ("nil signals all units trained"), execution while the execution data
    iterator is held, and a task is available while the one-task buffer
    [_next_task] is filled; [get_task] hands out the buffered task and
    refills the buffer with the next task of the active phase. *)
Definition is_parallel_training (s : t) : bool :=
  match _i_train_node s with Some _ => true | None => false end.

Definition is_parallel_executing (s : t) : bool :=
  match _exec_data_iterator s with Some _ => true | None => false end.

Definition task_available (s : t) : bool :=
  match _next_task s with Some _ => true | None => false end.

(** Modelled from the spec: [BiFlow._bi_reset] (parent class, not part of
    this module) "resets bidirectional buffers" of the nodes of the flow. *)
Definition _bi_reset : M t unit := on_flownode (modify bi_reset).

(** Modelled from the spec: [Flow._stop_training_hook] (parent class, not
    part of this module) is the place where a checkpoint overlay inserts
    its call; the base orchestrator does nothing there. *)
Definition _stop_training_hook : M t unit := ret tt.

(** Modelled from the spec: [BiFlow._sanitize_iterables] and
    [BiFlow._sanitize_training_iterables] (parent class, not part of this
    module) "prepare an iterator pair (data, message)"; the iterables here
    are lists already, and are passed on as they are. *)
Definition _sanitize_iterables (iterable msg_iterable : list pyval)
  : list pyval * list pyval := (iterable, msg_iterable).

(** [iterator.next()] *)
Definition next (iterator : option (list pyval))
  : Res pyval * option (list pyval) :=
  match iterator with
  | Some (item :: rest) => (Ok item, Some rest)
  | Some [] => (Raise StopIteration, Some [])
  | None => (Raise AttributeError, None)
  end.

Definition is_StopIteration (e : exn) : bool :=
  match e with StopIteration => true | _ => false end.

Definition is_TrainingPhaseNotParallelException (e : exn) : bool :=
  match e with TrainingPhaseNotParallelException => true | _ => false end.

(** [_create_train_task(self)]: [None] when an iterator is at its end. *)
Definition _create_train_task : M t (option task) :=
  try_except is_StopIteration
    (x <- zoom _train_data_iterator
               (fun d s => set_train_iterators d (_train_msg_iterator s) s)
               next ;;
     msg <- zoom _train_msg_iterator
                 (fun m s => set_train_iterators (_train_data_iterator s) m s)
                 next ;;
     ret (Some (TrainData x msg, None)))
    (fun _ => ret None).

(** [_create_execute_task(self)] *)
Definition _create_execute_task : M t (option task) :=
  try_except is_StopIteration
    (x <- zoom _exec_data_iterator
               (fun d s => set_exec_iterators d (_exec_msg_iterator s)
                                              (_exec_target_iterator s) s)
               next ;;
     msg <- zoom _exec_msg_iterator
                 (fun m s => set_exec_iterators (_exec_data_iterator s) m
                                                (_exec_target_iterator s) s)
                 next ;;
     target <- zoom _exec_target_iterator
                    (fun g s => set_exec_iterators (_exec_data_iterator s)
                                                   (_exec_msg_iterator s) g s)
                    next ;;
     ret (Some (ExecuteData x msg target, None)))
    (fun _ => ret None).

Definition get_task : M t task :=
  next_task <- gets _next_task ;;
  match next_task with
  | Some task =>
      training <- gets is_parallel_training ;;
      executing <- gets is_parallel_executing ;;
      (if training then
         new_task <- _create_train_task ;; modify (set_next_task new_task)
       else if executing then
         new_task <- _create_execute_task ;; modify (set_next_task new_task)
       else raise (NoTaskException "no data available for execution task")) ;;
      ret task
  | None => raise (NoTaskException "no more tasks available")
  end.

Definition err_stop_message : string :=
  "Target node not found in flow during stop_message propagation, last result: ".

Definition err_not_repeatable (node_no : nat) : string :=
  String.append "The training data iteration for node no. "
    (String.append (string_of_nat node_no)
       " could not be repeated for the second training phase, you probably provided an iterator instead of an iterable.").

Definition err_iterator_empty (node_no : nat) : string :=
  String.append "The training data iterator for node no. "
    (String.append (string_of_nat node_no) " is empty.").

(** [self._i_train_node] where the code uses it as an index; [None] is
    not an index. *)
Definition i_train_node : M t nat :=
  cursor <- gets _i_train_node ;;
  match cursor with
  | Some i => ret i
  | None => raise TypeError
  end.

(** [self._flownode.fork()] *)
Definition fork_flownode : M t Node :=
  node <- gets _flownode ;;
  match fork node with
  | Some forked => ret forked
  | None => raise TrainingPhaseNotParallelException
  end.

(** [result = self._flownode.stop_training(self._stop_messages[i])] with
    the check of the result that follows it. *)
Definition stop_training_checked : M t unit :=
  i <- i_train_node ;;
  stop_messages <- gets _stop_messages ;;
  stop_message <- getitem stop_messages i ;;
  result <- on_flownode (method (stop_training stop_message)) ;;
  match result with
  | NoneResult | DictResult _ => ret tt
  | TupleResult _ => raise (BiFlowException err_stop_message (Some result))
  end.

(** [_local_train_phase(self, iterable, msg_iterable)]: the callable is
    built on [self._flownode] itself, not on a fork, without purging. *)
Definition _local_train_phase (fuel : nat) (iterable msg_iterable : list pyval)
  : M t unit :=
  cls <- gets _train_callable_class ;;
  match cls with
  | None => raise TypeError
  | Some task_callable =>
      for_each (combine iterable msg_iterable)
               (fun data => on_flownode (task_callable fuel false data) ;;
                            ret tt) ;;
      _stop_training_hook ;;
      stop_training_checked ;;
      _bi_reset
  end.

(** The body of the [try] in [_next_train_phase]: the fork succeeded (or
    raised), the iterators are opened and the first task is buffered. *)
Definition prepare_parallel_phase (iterable msg_iterable : list pyval)
  : M t unit :=
  fork_flownode ;;
  modify (set_train_iterators (Some iterable) (Some msg_iterable)) ;;
  first_task <- _create_train_task ;;
  match first_task with
  | None =>
      i <- i_train_node ;;
      node <- gets _flownode ;;
      if flow_get_current_train_phase node i =? 1
      then raise (FlowException (err_not_repeatable (i + 1)))
      else raise (FlowException (err_iterator_empty (i + 1)))
  | Some (task_data_chunk, _) =>
      (* [task_data_chunk = first_task[0]] is the tuple [(x, msg)]: the
         test [task_data_chunk is None] of the source never succeeds *)
      forked <- fork_flownode ;;
      cls <- gets _train_callable_class ;;
      match cls with
      | None => raise TypeError
      | Some cls =>
          modify (set_next_task
                    (Some (task_data_chunk,
                           Some (TrainCallable cls forked true))))
      end
  end.

(** [_next_train_phase(self)]: one unit of fuel for every turn of the
    [while] loop.  The [else] of the loop runs when the cursor has left
    the flow. *)
Fixpoint _next_train_phase (fuel : nat) : M t unit :=
  match fuel with
  | 0 => out_of_fuel
  | S fuel' =>
      i <- i_train_node ;;
      node <- gets _flownode ;;
      if i <? flow_len node then
        if negb (flow_is_training node i) then
          modify (set_i_train_node (Some (i + 1))) ;;
          _next_train_phase fuel'
        else
          data_iterables <- gets _train_data_iterables ;;
          iterable <- getitem data_iterables i ;;
          msg_iterables <- gets _train_msg_iterables ;;
          msg_iterable <- getitem msg_iterables i ;;
          let (iterable, msg_iterable) :=
            _sanitize_iterables iterable msg_iterable in
          found <- try_except is_TrainingPhaseNotParallelException
                     (prepare_parallel_phase iterable msg_iterable ;;
                      ret true)
                     (fun _ =>
                        _local_train_phase fuel' iterable msg_iterable ;;
                        i' <- i_train_node ;;
                        training <- flow_item_is_training i' ;;
                        when (negb training)
                             (modify (set_i_train_node (Some (i' + 1)))) ;;
                        ret false) ;;
          if found : bool then ret tt else _next_train_phase fuel'
      else
        modify (set_i_train_node None)
  end.

(** [setup_parallel_training(self, data_iterables, msg_iterables,
    stop_messages, train_callable_class)]; the iterables come sanitized. *)
Definition setup_parallel_training (fuel : nat)
           (data_iterables msg_iterables : list (list pyval))
           (stop_messages : option (list pyval))
           (train_callable_class : train_callable_class) : M t unit :=
  _bi_reset ;;
  training <- gets is_parallel_training ;;
  if training then
    raise (ParallelBiFlowException "Parallel training is already underway.")
  else
    modify (set_train_callable_class (Some train_callable_class)) ;;
    modify (set_train_iterables data_iterables msg_iterables) ;;
    modify (set_stop_messages
              (match stop_messages with
               | Some messages => messages
               | None => repeat PyNone (length data_iterables)
               end)) ;;
    modify (set_i_train_node (Some 0)) ;;
    _next_train_phase fuel.

(** Parts of the parent classes and of [binet.biflow] that this module
    calls and that live outside it: the sequential [BiFlow.train] and
    [BiFlow.execute], and the message a [MessageResultContainer] returns
    after the given messages were added to it, in that order. *)
Variable BiFlow_train :
  list (list pyval) -> list (list pyval) -> option (list pyval) -> M t unit.
Variable BiFlow_execute :
  list pyval -> list pyval -> list pyval -> M t pyval.
Variable MessageResultContainer_get_message : list pyval -> pyval.

Definition err_some_y_None : string :=
  "Some but not all y return values were None.".

(** The [for result_tuple in results] loop of the execution branch of
    [use_results], with its local variables [y_results] (a list, or
    [None]) and [msg_results] (the messages added so far). *)
Fixpoint consolidate (results : list task_result)
         (y_results : option (list pyval)) (msg_results : list pyval)
  : M t (option (list pyval) * list pyval) :=
  match results with
  | [] => ret (y_results, msg_results)
  | TrainResult _ :: _ => raise TypeError
  | ExecuteResult result forked_biflownode :: rest =>
      let (y, msg_results') :=
        match result with
        | PyTuple [y; msg] => (y, msg_results ++ [msg])
        | _ => (result, msg_results)
        end in
      y_results' <-
        (if negb (is_None y) then
           match y_results with
           | Some ys => ret (Some (ys ++ [y]))
           | None => raise (BiFlowException err_some_y_None None)
           end
         else ret None) ;;
      match forked_biflownode with
      | Some forked => on_flownode (modify (join forked))
      | None => ret tt
      end ;;
      consolidate rest y_results' msg_results'
  end.

(** [use_results(self, results)]: [None] after a training phase, the
    tuple [(y, msg)] after an execution. *)
Definition use_results (fuel : nat) (results : list task_result)
  : M t pyval :=
  training <- gets is_parallel_training ;;
  executing <- gets is_parallel_executing ;;
  if training then
    for_each results
             (fun result =>
                match result with
                | TrainResult forked => on_flownode (modify (join forked))
                | ExecuteResult _ _ => raise TypeError
                end) ;;
    _stop_training_hook ;;
    stop_training_checked ;;
    on_flownode (modify bi_reset) ;;
    i <- i_train_node ;;
    still_training <- flow_item_is_training i ;;
    when (negb still_training) (modify (set_i_train_node (Some (i + 1)))) ;;
    _next_train_phase fuel ;;
    ret PyNone
  else if executing then
    modify (set_exec_iterators None None None) ;;
    acc <- consolidate results (Some []) [] ;;
    let (y_results, msg_results) := acc in
    match y_results with
    | Some ys =>
        y <- (fun s => (numx_concatenate ys, s)) ;;
        ret (PyTuple [y; MessageResultContainer_get_message msg_results])
    | None =>
        ret (PyTuple [PyNone;
                      MessageResultContainer_get_message msg_results])
    end
  else
    raise (BiFlowException "It seems that there are no results to retrieve."
                           None).

(** [setup_parallel_execution(self, iterable, msg_iterable,
    target_iterable, execute_callable_class)] *)
Definition setup_parallel_execution
           (iterable msg_iterable target_iterable : list pyval)
           (execute_callable_class : execute_callable_class) : M t unit :=
  _bi_reset ;;
  training <- gets is_parallel_training ;;
  if training then
    raise (ParallelBiFlowException "Parallel training is underway.")
  else
    node <- gets _flownode ;;
    task_flownode <- (if is_bi_training node then fork_flownode
                      else ret (copy node)) ;;
    modify (set_execute_callable_class (Some execute_callable_class)) ;;
    modify (set_exec_iterators (Some iterable) (Some msg_iterable)
                               (Some target_iterable)) ;;
    first_task <- _create_execute_task ;;
    match first_task with
    | None => raise (FlowException "The execute data iterable is empty.")
    | Some (task_data_chunk, _) =>
        (* the tuple [(x, msg, target)]: [task_data_chunk is None] of the
           source never succeeds *)
        modify (set_next_task
                  (Some (task_data_chunk,
                         Some (ExecuteCallable execute_callable_class
                                               task_flownode true))))
    end.

(** *** Schedulers *)

(** The worker pools are objects outside the flow: [Pool] is the state of
    all of them, a [Handle] refers to one.  Which kind of result container
    a scheduler carries can be read and replaced. *)
Inductive container_kind : Type :=
| TrainResultContainer
| OrderedBiExecuteContainer
| OtherContainer.

Definition container_kind_eqb (a b : container_kind) : bool :=
  match a, b with
  | TrainResultContainer, TrainResultContainer => true
  | OrderedBiExecuteContainer, OrderedBiExecuteContainer => true
  | OtherContainer, OtherContainer => true
  | _, _ => false
  end.

Class Scheduler (Pool Handle : Type) : Type := {
  add_task : Handle -> task -> Pool -> Pool;
  get_results : Handle -> Pool -> list task_result * Pool;
  shutdown : Handle -> Pool -> Pool;
  result_container : Handle -> Pool -> container_kind;
  set_result_container : Handle -> container_kind -> Pool -> Pool
}.

Context {Pool Handle : Type} `{Scheduler Pool Handle}.

(** The [scheduler] argument of [train]: [None], a scheduler, or an
    iterable with a scheduler (or [None]) for each training phase. *)
Inductive scheduler_arg : Type :=
| NoScheduler
| OneScheduler (scheduler : Handle)
| SchedulerIterable (schedulers : list (option Handle)).

(** The local variable [scheduler]: [None], a scheduler, or still the
    iterable that was passed in. *)
Inductive scheduler_ref : Type :=
| RefNone
| RefScheduler (h : Handle)
| RefIterable.

(** The flow, the pools, and the local variables of [train] that its
    [finally] clause reads. *)
Record frame : Type := mk_frame {
  self : t;
  pool : Pool;
  scheduler : scheduler_ref;
  schedulers : option (list (option Handle));
  last_trained_node : option nat
}.

Definition on_self {A : Type} (m : M t A) : M frame A :=
  zoom self (fun s f => mk_frame s (pool f) (scheduler f) (schedulers f)
                                 (last_trained_node f)) m.
Definition on_pool (g : Pool -> Pool) : M frame unit :=
  modify (fun f => mk_frame (self f) (g (pool f)) (scheduler f)
                            (schedulers f) (last_trained_node f)).
Definition set_scheduler (v : scheduler_ref) (f : frame) : frame :=
  mk_frame (self f) (pool f) v (schedulers f) (last_trained_node f).
Definition set_schedulers (v : option (list (option Handle))) (f : frame)
  : frame :=
  mk_frame (self f) (pool f) (scheduler f) v (last_trained_node f).
Definition set_last_trained_node (v : option nat) (f : frame) : frame :=
  mk_frame (self f) (pool f) (scheduler f) (schedulers f) v.

(** [scheduler = schedulers.next()] *)
Definition next_scheduler : M frame unit :=
  remaining <- gets schedulers ;;
  match remaining with
  | Some (s :: rest) =>
      modify (set_schedulers (Some rest)) ;;
      modify (set_scheduler (match s with
                             | Some h => RefScheduler h
                             | None => RefNone
                             end))
  | Some [] => raise StopIteration
  | None => raise AttributeError
  end.

(** [if scheduler is not None: scheduler.shutdown()] *)
Definition shutdown_scheduler : M frame unit :=
  current <- gets scheduler ;;
  match current with
  | RefScheduler h => on_pool (shutdown h)
  | RefIterable => raise AttributeError
  | RefNone => ret tt
  end.

(** [for _ in range(n)]: shut the current scheduler down, take the next. *)
Fixpoint dispose_schedulers (n : nat) : M frame unit :=
  match n with
  | 0 => ret tt
  | S n' => shutdown_scheduler ;; next_scheduler ;; dispose_schedulers n'
  end.

(** The check that the scheduler carries the right kind of container. *)
Definition check_result_container (wanted : container_kind)
           (overwrite_result_container : bool) : M frame unit :=
  current <- gets scheduler ;;
  p <- gets pool ;;
  match current with
  | RefScheduler h =>
      when (overwrite_result_container
            && negb (container_kind_eqb (result_container h p) wanted))
           (on_pool (set_result_container h wanted))
  | RefIterable => when overwrite_result_container (raise AttributeError)
  | RefNone => ret tt
  end.

(** [while self.task_available: task = self.get_task();
    scheduler.add_task( *task)] *)
Fixpoint submit_tasks (fuel : nat) : M frame unit :=
  match fuel with
  | 0 => out_of_fuel
  | S fuel' =>
      available <- on_self (gets task_available) ;;
      if available then
        task <- on_self get_task ;;
        current <- gets scheduler ;;
        match current with
        | RefScheduler h => on_pool (add_task h task) ;; submit_tasks fuel'
        | _ => raise AttributeError
        end
      else ret tt
  end.

(** [results = scheduler.get_results()] *)
Definition scheduler_get_results : M frame (list task_result) :=
  current <- gets scheduler ;;
  match current with
  | RefScheduler h =>
      p <- gets pool ;;
      let (results, p') := get_results h p in
      on_pool (fun _ => p') ;; ret results
  | _ => raise AttributeError
  end.

(** Python 2 orders [None] below every number. *)
Definition py_gt (a b : option nat) : bool :=
  match a, b with
  | Some x, Some y => y <? x
  | Some _, None => true
  | None, _ => false
  end.

Definition err_underway : string := "Parallel training is underway.".

Definition err_train_class_without_scheduler : string :=
  "A train_callable_class was specified but no scheduler was given, so the train_callable_class has no effect.".

Definition err_execute_class_without_scheduler : string :=
  "A execute_callable_class was specified but no scheduler was given, so the execute_callable_class has no effect.".

Definition err_no_results : string :=
  "Could not get any training tasks or results for the current training phase.".

(** The [while self.is_parallel_training] loop of [train]: one unit of
    fuel for every phase. *)
Fixpoint train_phases (fuel : nat) (overwrite_result_container : bool)
  : M frame unit :=
  match fuel with
  | 0 => out_of_fuel
  | S fuel' =>
      training <- on_self (gets is_parallel_training) ;;
      if training then
        submit_tasks fuel' ;;
        results <- scheduler_get_results ;;
        match results with
        | [] => raise (PyException err_no_results)
        | _ => on_self (use_results fuel' results) ;; ret tt
        end ;;
        remaining <- gets schedulers ;;
        cursor <- on_self (gets _i_train_node) ;;
        last <- gets last_trained_node ;;
        match remaining with
        | Some _ =>
            if py_gt cursor last then
              match cursor, last with
              | Some i, Some j => dispose_schedulers (i - j)
              | _, _ => raise TypeError
              end ;;
              modify (set_last_trained_node cursor) ;;
              check_result_container TrainResultContainer
                                     overwrite_result_container
            else ret tt
        | None => ret tt
        end ;;
        train_phases fuel' overwrite_result_container
      else ret tt
  end.

(** The [try] block of the parallel branch of [train]. *)
Definition train_parallel (fuel : nat)
           (data_iterables msg_iterables : list (list pyval))
           (stop_messages : option (list pyval))
           (scheduler_given : scheduler_arg)
           (train_callable_class : train_callable_class)
           (overwrite_result_container : bool) : M frame unit :=
  on_self (setup_parallel_training fuel data_iterables msg_iterables
                                   stop_messages train_callable_class) ;;
  match scheduler_given with
  | SchedulerIterable hs =>
      modify (set_schedulers (Some hs)) ;;
      next_scheduler ;;
      cursor <- on_self (gets _i_train_node) ;;
      match cursor with
      | Some i => if 0 <? i then dispose_schedulers i else ret tt
      | None =>
          node <- on_self (gets _flownode) ;;
          dispose_schedulers (flow_len node - 1)
      end ;;
      modify (set_last_trained_node cursor)
  | _ => modify (set_schedulers None)
  end ;;
  check_result_container TrainResultContainer overwrite_result_container ;;
  train_phases fuel overwrite_result_container.

(** The [finally] clause of [train]. *)
Definition train_finally : M frame unit :=
  on_self (modify (set_train_iterators None None)) ;;
  remaining <- gets schedulers ;;
  match remaining with
  | Some _ => shutdown_scheduler
  | None => ret tt
  end.

(** Run a method body with its local variables; the caller sees the flow
    and the pools. *)
Definition with_frame {A : Type} (scheduler0 : scheduler_ref)
           (m : M frame A) : M (t * Pool) A :=
  fun w =>
    match m (mk_frame (fst w) (snd w) scheduler0 None None) with
    | (r, f) => (r, (self f, pool f))
    end.

Definition on_flow {A : Type} (m : M t A) : M (t * Pool) A :=
  zoom fst (fun s w => (s, snd w)) m.

(** [train(self, data_iterables, msg_iterables, stop_messages, scheduler,
    train_callable_class, overwrite_result_container)].  The decorator
    [with_extension("parallel")] switches a node extension on around the
    call and is not part of the flow's state. *)
Definition train (fuel : nat)
           (data_iterables msg_iterables : list (list pyval))
           (stop_messages : option (list pyval))
           (scheduler_given : scheduler_arg)
           (train_callable_class : option train_callable_class)
           (overwrite_result_container : bool) : M (t * Pool) unit :=
  training <- on_flow (gets is_parallel_training) ;;
  if training then
    raise (ParallelBiFlowException err_underway)
  else
    match scheduler_given with
    | NoScheduler =>
        match train_callable_class with
        | Some _ =>
            raise (ParallelBiFlowException err_train_class_without_scheduler)
        | None =>
            on_flow (BiFlow_train data_iterables msg_iterables stop_messages)
        end
    | _ =>
        let cls := match train_callable_class with
                   | Some cls => cls
                   | None => BiFlowTrainCallable.__call__
                   end in
        with_frame (match scheduler_given with
                    | OneScheduler h => RefScheduler h
                    | _ => RefIterable
                    end)
                   (try_finally
                      (train_parallel fuel data_iterables msg_iterables
                                      stop_messages scheduler_given cls
                                      overwrite_result_container)
                      train_finally)
    end.

(** [execute(self, iterable, msg_iterable, target_iterable, scheduler,
    execute_callable_class, overwrite_result_container)] *)
Definition execute (fuel : nat)
           (iterable msg_iterable target_iterable : list pyval)
           (scheduler_given : option Handle)
           (execute_callable_class : option execute_callable_class)
           (overwrite_result_container : bool) : M (t * Pool) pyval :=
  training <- on_flow (gets is_parallel_training) ;;
  if training then
    raise (ParallelBiFlowException err_underway)
  else
    match scheduler_given with
    | None =>
        match execute_callable_class with
        | Some _ =>
            raise (ParallelBiFlowException
                     err_execute_class_without_scheduler)
        | None =>
            on_flow (BiFlow_execute iterable msg_iterable target_iterable)
        end
    | Some h =>
        let cls := match execute_callable_class with
                   | Some cls => cls
                   | None => BiFlowExecuteCallable.__call__
                   end in
        with_frame (RefScheduler h)
          (check_result_container OrderedBiExecuteContainer
                                  overwrite_result_container ;;
           try_finally
             (on_self (setup_parallel_execution iterable msg_iterable
                                                target_iterable cls) ;;
              submit_tasks fuel ;;
              results <- scheduler_get_results ;;
              on_self (use_results fuel results))
             (on_self (modify (set_exec_iterators None None None))))
    end.
End WithNode.
End ParallelBiFlow.

(** ** Expansion nodes *)

Module Expansion.
Section WithElements.
(** The element type of the arrays with its zero and product (any dtype),
    and [mdp.utils.comb], the binomial coefficient, which comes from
    outside this module. *)
Variable R : Type.
Variable rzero : R.
Variable rmul : R -> R -> R.
Variable comb : nat -> nat -> nat.

(** A two-dimensional array of shape [(length rows, shape1)]. *)
Record ndarray : Type := mk_array { shape1 : nat; rows : list (list R) }.

Definition shape0 (a : ndarray) : nat := length (rows a).

(** [nmonomials(degree, nvariables)] *)
Definition nmonomials (degree nvariables : nat) : nat :=
  comb (nvariables + degree - 1) degree.

(** [expanded_dim(degree, nvariables)]; the result can be [-1]. *)
Definition expanded_dim (degree nvariables : nat) : Z :=
  (Z.of_nat (comb (nvariables + degree) degree) - 1)%Z.

Inductive node_class : Type :=
| PolynomialExpansionNode_class
| QuadraticExpansionNode_class.

(** The attributes of an expansion node and the class it was built from. *)
Record node : Type := mk_node {
  __class__ : node_class;
  _degree : nat;
  _input_dim : option nat;
  _output_dim : option Z;
  _dtype : option string
}.

(** [PolynomialExpansionNode.expanded_dim(self, dim)]; the quadratic
    class inherits it. *)
Definition expanded_dim_method (dim : nat) (self : node) : Z :=
  match __class__ self with
  | PolynomialExpansionNode_class
  | QuadraticExpansionNode_class => expanded_dim (_degree self) dim
  end.

Definition is_trainable (self : node) : bool := false.
Definition is_invertible (self : node) : bool := false.

(** [_ExpansionNode._set_input_dim(self, n)] *)
Definition _set_input_dim (n : nat) (self : node) : node :=
  mk_node (__class__ self) (_degree self) (Some n)
          (Some (expanded_dim_method n self)) (_dtype self).

(** Modelled from the spec: the constructor of [mdp.Node] is not part of
    this module; the spec treats the units as external collaborators.  It
    stores the dtype and, when an input dimension is given, sets it
    through [_set_input_dim]. *)
Definition Node___init__ (input_dim : option nat) (dtype : option string)
           (self : node) : node :=
  let self' := mk_node (__class__ self) (_degree self) None None dtype in
  match input_dim with
  | Some n => _set_input_dim n self'
  | None => self'
  end.

(** [PolynomialExpansionNode.__init__(self, degree, input_dim, dtype)],
    run on a fresh object of class [cls]. *)
Definition PolynomialExpansionNode___init__ (cls : node_class)
           (degree : nat) (input_dim : option nat) (dtype : option string)
  : node :=
  Node___init__ input_dim dtype (mk_node cls degree None None None).

Definition PolynomialExpansionNode (degree : nat) (input_dim : option nat)
           (dtype : option string) : node :=
  PolynomialExpansionNode___init__ PolynomialExpansionNode_class
                                   degree input_dim dtype.

(** [QuadraticExpansionNode.__init__(self, input_dim, dtype)] calls the
    parent constructor with degree [2]. *)
Definition QuadraticExpansionNode (input_dim : option nat)
           (dtype : option string) : node :=
  PolynomialExpansionNode___init__ QuadraticExpansionNode_class
                                   2 input_dim dtype.

(** *** Array helpers *)

(** [a[start:stop]] on the first axis; slices clip. *)
Definition slice {A : Type} (start stop : nat) (l : list A) : list A :=
  firstn (stop - start) (skipn start l).

(** [a[start:start + length new] = new]: the shapes must agree. *)
Definition assign_rows {S : Type} (start : nat) (new : list (list R))
           (a : list (list R)) : M S (list (list R)) :=
  if start + length new <=? length a
  then ret (firstn start a ++ new ++ skipn (start + length new) a)
  else raise ValueError.

Definition getitem_nat {S : Type} (l : list nat) (i : nat) : M S nat :=
  match nth_error l i with
  | Some v => ret v
  | None => raise IndexError
  end.

(** [x[:, j]] *)
Fixpoint column {S : Type} (j : nat) (xs : list (list R)) : M S (list R) :=
  match xs with
  | [] => ret []
  | row :: rest =>
      match nth_error row j with
      | Some v => col <- column j rest ;; ret (v :: col)
      | None => raise IndexError
      end
  end.

(** [x.T] for [x] of shape [(length xs, n)] *)
Fixpoint transpose {S : Type} (n : nat) (xs : list (list R))
  : M S (list (list R)) :=
  match n with
  | 0 => ret []
  | S n' =>
      front <- transpose n' xs ;;
      col <- column n' xs ;;
      ret (front ++ [col])
  end.

Fixpoint zip_mul (col row : list R) : list R :=
  match col, row with
  | c :: col', r :: row' => rmul c r :: zip_mul col' row'
  | _, _ => []
  end.

(** [next_lens[:-1].cumsum(axis=0)] *)
Fixpoint cumsum (acc : nat) (l : list nat) : list nat :=
  match l with
  | [] => []
  | h :: rest => (acc + h) :: cumsum (acc + h) rest
  end.

Fixpoint set_nth (i v : nat) (l : list nat) : list nat :=
  match l, i with
  | [], _ => []
  | _ :: rest, 0 => v :: rest
  | h :: rest, S i' => h :: set_nth i' v rest
  end.

(** The local variables the loops of [_execute] update. *)
Record locals : Type := mk_locals {
  dexp : list (list R);
  k : nat;
  next_lens : list nat
}.

(** [for j in range(dim)] *)
Fixpoint inner_loop {S : Type} (js : list nat) (x : ndarray)
         (prec : list (list R)) (lens : list nat) (l : locals)
  : M S locals :=
  match js with
  | [] => ret l
  | j :: rest =>
      start <- getitem_nat lens j ;;
      let factor := skipn start prec in
      let len_ := length factor in
      xj <- column j (rows x) ;;
      dexp' <- assign_rows (k l) (map (zip_mul xj) factor) (dexp l) ;;
      (if j + 1 <? length (next_lens l) then ret tt else raise IndexError) ;;
      inner_loop rest x prec lens
                 (mk_locals dexp' (k l + len_)
                            (set_nth (j + 1) len_ (next_lens l)))
  end.

(** [for i in range(2, degree+1)] *)
Fixpoint outer_loop {S : Type} (degrees : list nat) (x : ndarray) (dim : nat)
         (prec_end : nat) (l : locals) : M S locals :=
  match degrees with
  | [] => ret l
  | i :: rest =>
      let prec_start := prec_end in
      let prec_end' := prec_end + nmonomials (i - 1) dim in
      let prec := slice prec_start prec_end' (dexp l) in
      let lens := cumsum 0 (removelast (next_lens l)) in
      l' <- inner_loop (seq 0 dim) x prec lens
                       (mk_locals (dexp l) (k l) (repeat 0 (dim + 1))) ;;
      outer_loop rest x dim prec_end' l'
  end.

(** The body of [_execute] once [degree], [dim] and the output dimension
    were read from [self]; it works on arrays only. *)
Definition expand (degree dim : nat) (output_dim : Z) (x : ndarray)
  : M unit ndarray :=
  let n := shape1 x in
  if (output_dim <? 0)%Z then raise ValueError
  else
    let zeros := repeat (repeat rzero (shape0 x)) (Z.to_nat output_dim) in
    xT <- transpose n (rows x) ;;
    dexp0 <- assign_rows 0 xT zeros ;;
    l <- outer_loop (seq 2 (degree - 1)) x dim 0
                    (mk_locals dexp0 n (0 :: repeat 1 dim)) ;;
    dexpT <- transpose (shape0 x) (dexp l) ;;
    ret (mk_array (Z.to_nat output_dim) dexpT).

(** [PolynomialExpansionNode._execute(self, x)]; the quadratic class
    inherits it.  The node itself is left as it is. *)
Definition _execute (x : ndarray) : M node ndarray :=
  fun self =>
    match __class__ self with
    | PolynomialExpansionNode_class
    | QuadraticExpansionNode_class =>
        match _input_dim self, _output_dim self with
        | Some dim, Some output_dim =>
            (fst (expand (_degree self) dim output_dim x tt), self)
        | _, _ => (Raise TypeError, self)
        end
    end.
End WithElements.

(** The binomial coefficient, to run the nodes on examples. *)
Fixpoint binomial (n k : nat) : nat :=
  match n, k with
  | _, 0 => 1
  | 0, S _ => 0
  | S n', S k' => binomial n' k' + binomial n' k
  end.
End Expansion.

(** ** The callable's loop, as the unit contract words it *)

(** The outcomes of [train] by name: [Continue] (nothing was returned) and
    [Complete] (a mapping) end the loop, a [Redirect] (a 4-tuple) re-enters
    with its first two fields, any other shape is a routing failure that
    carries the value. *)
Module TrainCallableSpec.
Section WithNode.
Context {Node : Type} `{BiFlowNode Node}.

Inductive loop : pyval -> pyval -> Node -> Res unit * Node -> Prop :=
| loop_continue : forall x msg node node',
    train x msg node = (NoneResult, node') ->
    loop x msg node (Ok tt, node')
| loop_complete : forall x msg node summary node',
    train x msg node = (DictResult summary, node') ->
    loop x msg node (Ok tt, node')
| loop_redirect : forall x msg node next_x next_msg aux1 aux2 node' r,
    train x msg node = (TupleResult [next_x; next_msg; aux1; aux2], node') ->
    loop next_x next_msg node' r ->
    loop x msg node r
| loop_malformed : forall x msg node fields node',
    train x msg node = (TupleResult fields, node') ->
    length fields <> 4 ->
    loop x msg node
         (Raise (BiFlowException BiFlowTrainCallable.err_target_not_found
                                 (Some (TupleResult fields))), node').

(** After the loop: reset, purge when enabled, return the snapshot. *)
Definition finish (purge : bool) (node : Node) : Node :=
  if purge then purge_nodes (bi_reset node) else bi_reset node.

Inductive call (purge : bool) : pyval * pyval -> Node -> Res Node * Node -> Prop :=
| call_returns : forall x msg node node',
    loop x msg node (Ok tt, node') ->
    call purge (x, msg) node (Ok (finish purge node'), finish purge node')
| call_raises : forall x msg node e node',
    loop x msg node (Raise e, node') ->
    call purge (x, msg) node (Raise e, node').
End WithNode.
End TrainCallableSpec.

(** ** What draining the order-preserving container should give *)

Module DrainSpec.
Section WithNode.
Context {Node : Type} `{BiFlowNode Node}.

(** A result as it arrives: the callable's pair and the task index. *)
Definition arrival : Type := (pyval * option Node) * nat.

Definition indexed_result (a : arrival) : pyval * nat := (fst (fst a), snd a).

(** The forked snapshots that are not [None], in arrival order. *)
Definition forked_units (arrivals : list arrival) : list Node :=
  flat_map (fun a => match snd (fst a) with
                     | Some forked => [forked]
                     | None => []
                     end) arrivals.

(** Their join: the first one is the accumulator, every later one is
    joined into it; [None] when there is none. *)
Definition join_all (forks : list Node) : option Node :=
  match forks with
  | [] => None
  | first :: rest => Some (fold_left (fun acc forked => join forked acc)
                                     rest first)
  end.

(** The snapshot list for [n] results: the merged snapshot in the first
    slot, [None] in every later one. *)
Definition snapshot_slots (merged : option Node) (n : nat)
  : list (option Node) :=
  match n with
  | 0 => []
  | S later => merged :: repeat None later
  end.

(** The container after the results arrived in the given order. *)
Definition add_all (arrivals : list arrival)
           (c : OrderedBiExecuteResultContainer.t)
  : OrderedBiExecuteResultContainer.t :=
  fold_left (fun c a => OrderedBiExecuteResultContainer.add_result
                          (fst a) (snd a) c) arrivals c.

Definition drain (arrivals : list arrival) : list (pyval * option Node) :=
  fst (OrderedBiExecuteResultContainer.get_results
         (add_all arrivals OrderedBiExecuteResultContainer.__init__)).
End WithNode.
End DrainSpec.

(** ** What closing a training phase should do *)

Module PhaseSpec.
Section WithNode.
Context {Node : Type} `{BiFlowNode Node}.

(** Joining the returned forked units into the canonical unit, one after
    the other. *)
Definition join_forks (forks : list Node) (canonical : Node) : Node :=
  fold_left (fun node forked => join forked node) forks canonical.

(** The cursor after a phase of the unit at [i]: it advances when the unit
    reports that its training is finished, and only then. *)
Definition cursor_after (node : Node) (i : nat) : nat :=
  if flow_is_training node i then i else i + 1.

(** Training a unit locally over the full iterator: the callable is run on
    every [(x, msg)] pair in turn, on the unit itself and without purging. *)
Fixpoint train_locally (cls : @ParallelBiFlow.train_callable_class Node)
         (fuel : nat) (pairs : list (pyval * pyval)) : M Node unit :=
  match pairs with
  | [] => ret tt
  | data :: rest => cls fuel false data ;; train_locally cls fuel rest
  end.

(** A callable class that does not raise the fork error itself. *)
Definition raises_no_fork_error
           (cls : @ParallelBiFlow.train_callable_class Node) : Prop :=
  forall fuel purge data node,
    fst (cls fuel purge data node) <> Raise TrainingPhaseNotParallelException.

(** For the argument that the fork error stays inside the orchestrator:
    a method is [contained] for a callable class [c] when, run on a flow
    that holds [c], it leaves [c] in place and does not end in the fork
    error; it [keeps_class] when it leaves [c] in place. *)
Definition keeps_class {A : Type}
           (c : option (@ParallelBiFlow.train_callable_class Node))
           (m : M (ParallelBiFlow.t (Node := Node)) A) : Prop :=
  forall s,
    ParallelBiFlow._train_callable_class s = c ->
    ParallelBiFlow._train_callable_class (snd (m s)) = c.

Definition contained {A : Type}
           (c : option (@ParallelBiFlow.train_callable_class Node))
           (m : M (ParallelBiFlow.t (Node := Node)) A) : Prop :=
  forall s,
    ParallelBiFlow._train_callable_class s = c ->
    ParallelBiFlow._train_callable_class (snd (m s)) = c
    /\ fst (m s) <> Raise TrainingPhaseNotParallelException.
End WithNode.
End PhaseSpec.

(** ** What reassembling execution results should give *)

Module ExecuteSpec.
Section WithNode.
Context {Node : Type} `{BiFlowNode Node}.

(** The [y] and the message of one task's execution result: a 2-tuple is
    [(y, msg)], anything else is [y] alone. *)
Definition y_of (result : pyval) : pyval :=
  match result with
  | PyTuple [y; _] => y
  | _ => result
  end.

Definition msg_of (result : pyval) : list pyval :=
  match result with
  | PyTuple [_; msg] => [msg]
  | _ => []
  end.

(** The results as the container hands them over, in submission order. *)
Definition exec_results (rs : list (pyval * option Node))
  : list (ParallelBiFlow.task_result (Node := Node)) :=
  map (fun r => ParallelBiFlow.ExecuteResult (fst r) (snd r)) rs.

(** Joining the forked units that came back. *)
Definition join_returned (rs : list (pyval * option Node)) (canonical : Node)
  : Node :=
  fold_left (fun node r => match snd r with
                           | Some forked => join forked node
                           | None => node
                           end) rs canonical.

(** A flow in the middle of a parallel execution: the iterators are held. *)
Definition executing (flow : Node) : ParallelBiFlow.t (Node := Node) :=
  ParallelBiFlow.set_exec_iterators (Some []) (Some []) (Some [])
                                    (ParallelBiFlow.__init__ flow).
End WithNode.
End ExecuteSpec.

(** ** A small flow of counting units *)

(** A stand-in for the external units, to run the orchestrator on: every
    unit counts the chunks it was trained on and has a number of training
    phases left.  The message decides what [train] hands back, so that every
    branch of the routing protocol can be reached. *)
Module Counting.

Record counting_unit : Type := mk_unit {
  phases_left : nat;
  current_phase : nat;
  forkable : bool
}.

Record flow : Type := mk_flow {
  units : list counting_unit;
  samples : nat;
  resets : nat;
  purged : bool;
  stop_log : list pyval
}.

Definition counting_train (x msg : pyval) (f : flow) : outcome * flow :=
  let f' := mk_flow (units f) (S (samples f)) (resets f) (purged f)
                    (stop_log f) in
  match msg with
  | PyTuple fields => (TupleResult fields, f')
  | PyDict items => (DictResult items, f')
  | _ => (NoneResult, f')
  end.

Fixpoint close_phase (us : list counting_unit) : list counting_unit :=
  match us with
  | [] => []
  | u :: rest =>
      match phases_left u with
      | 0 => u :: close_phase rest
      | S n => mk_unit n (S (current_phase u)) (forkable u) :: rest
      end
  end.

Definition counting_stop_training (msg : pyval) (f : flow) : outcome * flow :=
  let f' := mk_flow (close_phase (units f)) (samples f) (resets f) (purged f)
                    (stop_log f ++ [msg]) in
  match msg with
  | PyTuple fields => (TupleResult fields, f')
  | PyDict items => (DictResult items, f')
  | _ => (NoneResult, f')
  end.

Fixpoint first_training (us : list counting_unit) : option counting_unit :=
  match us with
  | [] => None
  | u :: rest =>
      match phases_left u with
      | 0 => first_training rest
      | S _ => Some u
      end
  end.

Definition counting_fork (f : flow) : option flow :=
  match first_training (units f) with
  | Some u =>
      if forkable u
      then Some (mk_flow (units f) 0 (resets f) (purged f) (stop_log f))
      else None
  | None => Some (mk_flow (units f) 0 (resets f) (purged f) (stop_log f))
  end.

Definition counting_join (other self : flow) : flow :=
  mk_flow (units self) (samples self + samples other) (resets self)
          (purged self) (stop_log self).

Definition unit_at (f : flow) (i : nat) : counting_unit :=
  nth i (units f) (mk_unit 0 0 true).

#[global] Instance counting_node : BiFlowNode flow := {
  train := counting_train;
  stop_training := counting_stop_training;
  bi_reset := fun f => mk_flow (units f) (samples f) (S (resets f))
                               (purged f) (stop_log f);
  purge_nodes := fun f => mk_flow (units f) (samples f) (resets f) true
                                  (stop_log f);
  fork := counting_fork;
  join := counting_join;
  copy := fun f => f;
  is_bi_training := fun _ => false;
  flow_execute := fun x msg target f => (x, f);
  flow_len := fun f => length (units f);
  flow_is_training := fun f i => 0 <? phases_left (unit_at f i);
  flow_get_current_train_phase := fun f i => current_phase (unit_at f i)
}.

(** A pool with one scheduler that runs every task as it is added, with
    fuel [16], and keeps the results; a lossy pool forgets them. *)
Record pool : Type := mk_pool {
  cached : option (ParallelBiFlow.task_callable (Node := flow));
  buffer : list (ParallelBiFlow.task_result (Node := flow));
  lossy : bool;
  container : ParallelBiFlow.container_kind
}.

Definition run_task (task : ParallelBiFlow.task (Node := flow)) (p : pool)
  : pool :=
  let callable := match snd task with
                  | Some c => Some c
                  | None => cached p
                  end in
  let results :=
    match fst task, callable with
    | ParallelBiFlow.TrainData x msg,
      Some (ParallelBiFlow.TrainCallable cls node purge) =>
        match cls 16 purge (x, msg) node with
        | (Ok trained, _) => [ParallelBiFlow.TrainResult trained]
        | _ => []
        end
    | ParallelBiFlow.ExecuteData x msg target,
      Some (ParallelBiFlow.ExecuteCallable cls node purge) =>
        match cls purge (x, msg, target) node with
        | (Ok (y, forked), _) => [ParallelBiFlow.ExecuteResult y forked]
        | _ => []
        end
    | _, _ => []
    end in
  mk_pool callable (if lossy p then [] else buffer p ++ results)
          (lossy p) (container p).

#[global] Instance counting_scheduler : ParallelBiFlow.Scheduler (Node := flow) pool unit := {
  ParallelBiFlow.add_task := fun _ task p => run_task task p;
  ParallelBiFlow.get_results := fun _ p =>
    (buffer p, mk_pool (cached p) [] (lossy p) (container p));
  ParallelBiFlow.shutdown := fun _ p => p;
  ParallelBiFlow.result_container := fun _ p => container p;
  ParallelBiFlow.set_result_container := fun _ kind p =>
    mk_pool (cached p) (buffer p) (lossy p) kind
}.

(** Three results that arrive out of order, two of them with a snapshot. *)
Definition example_arrivals : list (DrainSpec.arrival (Node := flow)) :=
  [((PyArray [[20%Z]], Some (mk_flow [] 3 0 true [])), 2);
   ((PyArray [[0%Z]], None), 0);
   ((PyArray [[10%Z]], Some (mk_flow [] 4 0 true [])), 1)].

(** A flow whose first unit is trained and whose second unit has one
    phase left, in the middle of a parallel training. *)
Definition example_flow : flow :=
  mk_flow [mk_unit 0 1 true; mk_unit 1 0 true] 0 0 false [].

Definition example_state : ParallelBiFlow.t (Node := flow) :=
  ParallelBiFlow.set_train_callable_class
    (Some BiFlowTrainCallable.__call__)
    (ParallelBiFlow.set_train_iterables
       [[]; [PyArray [[1%Z]]; PyArray [[2%Z]]]]
       [[]; [PyNone; PyNone]]
       (ParallelBiFlow.set_stop_messages
          [PyNone; PyDict []]
          (ParallelBiFlow.set_i_train_node
             (Some 1) (ParallelBiFlow.__init__ example_flow)))).

Definition example_forks : list flow :=
  [mk_flow [mk_unit 0 1 true; mk_unit 1 0 true] 2 0 true [];
   mk_flow [mk_unit 0 1 true; mk_unit 1 0 true] 3 0 true []].

(** The same, with a second unit that cannot be forked. *)
Definition unforkable_state : ParallelBiFlow.t (Node := flow) :=
  ParallelBiFlow.set_flownode
    (mk_flow [mk_unit 0 1 true; mk_unit 1 0 false] 0 0 false [])
    example_state.

(** A flow with one unit in its training phase number [phase] (counted
    from [0]) whose data iterable has nothing left to give. *)
Definition exhausted_state (phase : nat) : ParallelBiFlow.t (Node := flow) :=
  ParallelBiFlow.set_train_callable_class
    (Some BiFlowTrainCallable.__call__)
    (ParallelBiFlow.set_train_iterables
       [[]] [[PyNone]]
       (ParallelBiFlow.set_stop_messages
          [PyNone]
          (ParallelBiFlow.set_i_train_node
             (Some 0)
             (ParallelBiFlow.__init__
                (mk_flow [mk_unit 1 phase true] 0 0 false []))))).

(** A flow of one unit with two training phases, three data chunks, a
    working pool and a pool that loses its results. *)
Definition fresh_flow : flow :=
  mk_flow [mk_unit 2 0 true] 0 0 false [].

Definition chunks : list (list pyval) :=
  [[PyArray [[1%Z]]; PyArray [[2%Z]]; PyArray [[3%Z]]]].

Definition no_messages : list (list pyval) := [[PyNone; PyNone; PyNone]].

Definition working_pool : pool :=
  mk_pool None [] false ParallelBiFlow.OtherContainer.

Definition lossy_pool : pool :=
  mk_pool None [] true ParallelBiFlow.OtherContainer.

(** The flow after [setup_parallel_training], ready to hand out tasks. *)
Definition ready_state : ParallelBiFlow.t (Node := flow) :=
  snd (ParallelBiFlow.setup_parallel_training
         4 chunks no_messages None BiFlowTrainCallable.__call__
         (ParallelBiFlow.__init__ fresh_flow)).

Definition ready_frame : ParallelBiFlow.frame (Node := flow) :=
  ParallelBiFlow.mk_frame ready_state lossy_pool
                          (ParallelBiFlow.RefScheduler tt) None None.

(** The sequential parent-class methods are not exercised by the examples. *)
Definition counting_BiFlow_train (d m : list (list pyval)) (st : option (list pyval))
  : M (ParallelBiFlow.t (Node := flow)) unit := ret tt.
Definition counting_BiFlow_execute (x m g : list pyval)
  : M (ParallelBiFlow.t (Node := flow)) pyval := ret PyNone.
Definition counting_get_message (msgs : list pyval) : pyval :=
  match msgs with [] => PyNone | _ => PyTuple msgs end.

End Counting.

(** ** Further notions for the properties of the containers *)

Module TrainDrainSpec.
Section WithNode.
Context {Node : Type} `{BiFlowNode Node}.

(** The training container after the results (each with its task index)
    arrived in the given order. *)
Definition add_all (results : list (Node * nat))
           (c : BiFlowTrainResultContainer.t)
  : BiFlowTrainResultContainer.t :=
  fold_left (fun c r => BiFlowTrainResultContainer.add_result
                          (fst r) (snd r) c) results c.
End WithNode.
End TrainDrainSpec.

(** ** Further notions for the properties of the orchestrator *)

Module PhaseInvariant.
Section WithNode.
Context {Node : Type} `{BiFlowNode Node}.

(** What holds of a flow when the search for the next phase has returned:
    either the training is finished (no cursor), or the cursor is on a unit
    of the flow that is training and can be forked, the first chunk of its
    iterables is buffered as a task that carries a new callable on a fork
    of the flow (with purging), and the iterators hold the other chunks. *)
Definition ready (s : ParallelBiFlow.t (Node := Node)) : Prop :=
  match ParallelBiFlow._i_train_node s with
  | None => True
  | Some i =>
      i < flow_len (ParallelBiFlow._flownode s)
      /\ flow_is_training (ParallelBiFlow._flownode s) i = true
      /\ exists x msg xs msgs cls forked,
          nth_error (ParallelBiFlow._train_data_iterables s) i
          = Some (x :: xs)
          /\ nth_error (ParallelBiFlow._train_msg_iterables s) i
             = Some (msg :: msgs)
          /\ ParallelBiFlow._train_data_iterator s = Some xs
          /\ ParallelBiFlow._train_msg_iterator s = Some msgs
          /\ fork (ParallelBiFlow._flownode s) = Some forked
          /\ ParallelBiFlow._train_callable_class s = Some cls
          /\ ParallelBiFlow._next_task s
             = Some (ParallelBiFlow.TrainData x msg,
                     Some (ParallelBiFlow.TrainCallable cls forked true))
  end.

(** The tasks of a training phase: the buffered first task, then one task
    without callable for every further pair of a data chunk and a message,
    as long as both iterators give one. *)
Definition train_tasks (first : ParallelBiFlow.task (Node := Node))
           (xs msgs : list pyval) : list (ParallelBiFlow.task (Node := Node)) :=
  first :: map (fun p => (ParallelBiFlow.TrainData (fst p) (snd p), None))
               (combine xs msgs).

(** The tasks of a parallel execution: the buffered first task, then one
    task without callable for every further triple of a data chunk, a
    message and a target, as long as the three iterators give one. *)
Definition execute_tasks (first : ParallelBiFlow.task (Node := Node))
           (xs msgs targets : list pyval)
  : list (ParallelBiFlow.task (Node := Node)) :=
  first :: map (fun p => (ParallelBiFlow.ExecuteData
                            (fst p) (fst (snd p)) (snd (snd p)), None))
               (combine xs (combine msgs targets)).
End WithNode.
End PhaseInvariant.

(** ** Schedulers that differ in [shutdown] only *)

Module SchedulerSpec.
Section WithNode.
Context {Node Pool Handle : Type}.

(** The schedulers [sched] with another [shutdown] method. *)
Definition with_shutdown (shutdown' : Handle -> Pool -> Pool)
           (sched : @ParallelBiFlow.Scheduler Node Pool Handle)
  : @ParallelBiFlow.Scheduler Node Pool Handle :=
  @ParallelBiFlow.Build_Scheduler
    Node Pool Handle
    (@ParallelBiFlow.add_task Node Pool Handle sched)
    (@ParallelBiFlow.get_results Node Pool Handle sched)
    shutdown'
    (@ParallelBiFlow.result_container Node Pool Handle sched)
    (@ParallelBiFlow.set_result_container Node Pool Handle sched).

(** A step of [train] that leaves the iterator over the schedulers as it
    found it. *)
Definition keeps_schedulers {A : Type}
           (m : M (@ParallelBiFlow.frame Node Pool Handle) A) : Prop :=
  forall f, ParallelBiFlow.schedulers (snd (m f))
            = ParallelBiFlow.schedulers f.
End WithNode.
End SchedulerSpec.

(** ** What the expansion computes, row by row *)

Module ExpansionSpec.
Section WithElements.
Variable R : Type.
Variable rzero : R.
Variable rmul : R -> R -> R.

(** An array whose rows all have [shape1] elements. *)
Definition well_shaped (x : Expansion.ndarray R) : Prop :=
  Forall (fun row => length row = Expansion.shape1 x) (Expansion.rows x).

(** The quadratic monomials of one row [r] of data: for every [j] in turn,
    the products [r_j * r_k] for [k] from [j] on. *)
Definition quadratic_terms (row : list R) : list R :=
  flat_map (fun j => map (rmul (nth j row rzero)) (skipn j row))
           (seq 0 (length row)).
End WithElements.
End ExpansionSpec.

(** ** Further states and results of the counting flow *)

Module CountingStates.

(** A flow whose two units have no training phase left, with the cursor on
    the first. *)
Definition trained_state : ParallelBiFlow.t (Node := Counting.flow) :=
  ParallelBiFlow.set_i_train_node
    (Some 0)
    (ParallelBiFlow.__init__
       (Counting.mk_flow [Counting.mk_unit 0 1 true; Counting.mk_unit 0 2 true]
                         0 0 false [])).

(** A flow in the middle of a parallel execution. *)
Definition executing_state : ParallelBiFlow.t (Node := Counting.flow) :=
  ExecuteSpec.executing Counting.fresh_flow.

(** A forked unit that comes back with a result. *)
Definition returned_fork : Counting.flow :=
  Counting.mk_flow [Counting.mk_unit 2 0 true] 3 0 true [].

(** Two results whose [y] is an array, the second with a message and a
    forked unit; and two results whose [y] is [None]. *)
Definition present_results : list (pyval * option Counting.flow) :=
  [(PyArray [[1]; [2]]%Z, None);
   (PyTuple [PyArray [[3%Z]]; PyDict []], Some returned_fork)].

Definition absent_results : list (pyval * option Counting.flow) :=
  [(PyNone, None); (PyTuple [PyNone; PyDict []], Some returned_fork)].

(** The flow after [setup_parallel_execution] on two chunks, ready to hand
    out tasks to a working pool. *)
Definition execution_ready_frame : ParallelBiFlow.frame (Node := Counting.flow) :=
  ParallelBiFlow.mk_frame
    (snd (ParallelBiFlow.setup_parallel_execution
            [PyArray [[1%Z]]; PyArray [[2%Z]]] [PyNone; PyNone]
            [PyNone; PyNone] BiFlowExecuteCallable.__call__
            (ParallelBiFlow.__init__ Counting.fresh_flow)))
    Counting.working_pool (ParallelBiFlow.RefScheduler tt) None None.

(** Two rows of three integers. *)
Definition example_array : Expansion.ndarray Z :=
  Expansion.mk_array 3 [[2; 3; 5]; [1; 0; 7]]%Z.
End CountingStates.

Ltac unfold_monad :=
  unfold bind, ret, raise, out_of_fuel, method, modify, get, gets, put, when,
         zoom, try_except, try_finally in *.

(** * Properties *)

(** ** The train callable *)

Section TrainCallableFacts.
Context {Node : Type} `{BiFlowNode Node}.

Lemma train_loop_sound (fuel : nat) :
  forall x msg node r,
    BiFlowTrainCallable.train_loop fuel x msg node = r ->
    fst r <> OutOfFuel ->
    TrainCallableSpec.loop x msg node r.
Proof.
  induction fuel as [|fuel IH]; intros x msg node r Hrun Hr; simpl in Hrun.
  - subst r. unfold_monad. simpl in Hr. congruence.
  - unfold_monad.
    destruct (train x msg node) as [result node'] eqn:Htrain.
    destruct result as [|summary|fields].
    + subst r. now apply TrainCallableSpec.loop_continue.
    + subst r. now apply TrainCallableSpec.loop_complete with summary.
    + destruct (length fields =? 4) eqn:Hlen.
      * apply Nat.eqb_eq in Hlen.
        destruct fields as [|a [|b [|c [|d [|e rest]]]]]; try discriminate.
        simpl in Hrun.
        eapply TrainCallableSpec.loop_redirect; [exact Htrain|].
        now apply IH.
      * apply Nat.eqb_neq in Hlen. subst r.
        now apply TrainCallableSpec.loop_malformed.
Qed.

Lemma train_loop_complete :
  forall x msg node r,
    TrainCallableSpec.loop x msg node r ->
    exists fuel, forall extra,
      BiFlowTrainCallable.train_loop (fuel + extra) x msg node = r.
Proof.
  intros x msg node r Hloop.
  induction Hloop as [x msg node node' Htrain
                     |x msg node summary node' Htrain
                     |x msg node nx nm a1 a2 node' r Htrain Hrest IH
                     |x msg node fields node' Htrain Hlen].
  - exists 1. intros extra. simpl. unfold_monad. now rewrite Htrain.
  - exists 1. intros extra. simpl. unfold_monad. now rewrite Htrain.
  - destruct IH as [fuel IH]. exists (S fuel). intros extra. simpl.
    unfold_monad. rewrite Htrain. simpl. apply IH.
  - exists 1. intros extra. simpl. unfold_monad. rewrite Htrain.
    apply Nat.eqb_neq in Hlen. now rewrite Hlen.
Qed.

(** The rest of [__call__] once the loop has returned. *)
Lemma call_after_loop (fuel : nat) (purge : bool) (x msg : pyval) (node : Node) :
  BiFlowTrainCallable.__call__ fuel purge (x, msg) node =
  match BiFlowTrainCallable.train_loop fuel x msg node with
  | (Ok _, node') =>
      (Ok (TrainCallableSpec.finish purge node'),
       TrainCallableSpec.finish purge node')
  | (Raise e, node') => (Raise e, node')
  | (OutOfFuel, node') => (OutOfFuel, node')
  end.
Proof.
  unfold BiFlowTrainCallable.__call__, TrainCallableSpec.finish.
  unfold_monad.
  destruct (BiFlowTrainCallable.train_loop fuel x msg node) as [[[]|e|] node'];
    try reflexivity.
  destruct purge; reflexivity.
Qed.

(** C1.  For every task input pair [(x, msg)] the training callable runs the
    unit's [train] in a loop as the contract words it: an outcome that is
    [None] or a dict ends the loop, a 4-tuple re-enters [train] with its
    first two fields only, any other tuple raises [BiFlowException] with the
    offending value; after the loop the unit is reset, purged when purging
    is enabled, and returned.  Whatever the callable returns or raises is
    what the contract prescribes, and whatever the contract prescribes the
    callable returns or raises once it has enough fuel. *)
Theorem C1_train_callable_follows_contract :
  forall (purge : bool) (data : pyval * pyval) (node : Node)
         (r : Res Node * Node),
    ((exists fuel,
         BiFlowTrainCallable.__call__ fuel purge data node = r
         /\ fst r <> OutOfFuel)
     -> TrainCallableSpec.call purge data node r)
    /\ (TrainCallableSpec.call purge data node r
        -> fst r <> OutOfFuel
           /\ exists fuel, forall extra,
               BiFlowTrainCallable.__call__ (fuel + extra) purge data node = r).
Proof.
  intros purge [x msg] node r. split.
  - intros [fuel [Hrun Hr]].
    rewrite call_after_loop in Hrun.
    destruct (BiFlowTrainCallable.train_loop fuel x msg node)
      as [[[]|e|] node'] eqn:Hloop; subst r.
    + apply TrainCallableSpec.call_returns.
      eapply train_loop_sound; [exact Hloop|]. simpl. congruence.
    + apply TrainCallableSpec.call_raises.
      eapply train_loop_sound; [exact Hloop|]. simpl. congruence.
    + simpl in Hr. congruence.
  - intros Hcall.
    inversion Hcall as [x' msg' n' node' Hloop|x' msg' n' e node' Hloop];
      subst; (split; [simpl; congruence|]);
      destruct (train_loop_complete Hloop) as [fuel Hfuel];
      exists fuel; intros extra; rewrite call_after_loop, Hfuel; reflexivity.
Qed.
End TrainCallableFacts.

(** ** The order-preserving result container *)

Section SortFacts.
Variable R : Type.

Local Abbreviation index_le := (@OrderedResultContainer.index_le R).
Local Abbreviation index_lt := (@OrderedResultContainer.index_lt R).

Lemma insert_by_index_perm (p : R * nat) (l : list (R * nat)) :
  Permutation (OrderedResultContainer.insert_by_index p l) (p :: l).
Proof.
  induction l as [|q l IH]; simpl.
  - apply Permutation_refl.
  - destruct (snd p <? snd q).
    + apply Permutation_refl.
    + apply perm_trans with (q :: p :: l).
      * now apply perm_skip.
      * apply perm_swap.
Qed.

Lemma insert_by_index_sorted (p : R * nat) (l : list (R * nat)) :
  StronglySorted index_le l ->
  StronglySorted index_le (OrderedResultContainer.insert_by_index p l).
Proof.
  induction 1 as [|q l Hsorted IH Hall]; simpl.
  - constructor; constructor.
  - destruct (snd p <? snd q) eqn:Hcmp.
    + apply Nat.ltb_lt in Hcmp.
      constructor.
      * now constructor.
      * constructor.
        -- unfold index_le. lia.
        -- eapply Forall_impl; [|exact Hall].
           unfold index_le. intros r Hr. lia.
    + apply Nat.ltb_ge in Hcmp.
      constructor; [exact IH|].
      eapply Permutation_Forall.
      * apply Permutation_sym, insert_by_index_perm.
      * constructor; [exact Hcmp|exact Hall].
Qed.

Lemma fold_insert_perm (l acc : list (R * nat)) :
  Permutation
    (fold_left (fun sorted p => OrderedResultContainer.insert_by_index p sorted)
               l acc)
    (acc ++ l).
Proof.
  revert acc. induction l as [|p l IH]; intros acc; simpl.
  - rewrite app_nil_r. apply Permutation_refl.
  - eapply perm_trans; [apply IH|].
    eapply perm_trans.
    + apply Permutation_app_tail, insert_by_index_perm.
    + simpl. apply Permutation_middle.
Qed.

Lemma fold_insert_sorted (l acc : list (R * nat)) :
  StronglySorted index_le acc ->
  StronglySorted index_le
    (fold_left (fun sorted p => OrderedResultContainer.insert_by_index p sorted)
               l acc).
Proof.
  revert acc. induction l as [|p l IH]; intros acc Hacc; simpl.
  - exact Hacc.
  - apply IH. now apply insert_by_index_sorted.
Qed.

Lemma sort_by_index_perm (l : list (R * nat)) :
  Permutation (OrderedResultContainer.sort_by_index l) l.
Proof. apply (fold_insert_perm l []). Qed.

Lemma sort_by_index_sorted (l : list (R * nat)) :
  StronglySorted index_le (OrderedResultContainer.sort_by_index l).
Proof. apply fold_insert_sorted. constructor. Qed.

(** With distinct indices a list sorted by [<=] is sorted by [<]. *)
Lemma sorted_distinct_strict (l : list (R * nat)) :
  NoDup (map snd l) ->
  StronglySorted index_le l ->
  StronglySorted index_lt l.
Proof.
  intros Hnodup Hsorted.
  induction Hsorted as [|q l Hsorted IH Hall]; [constructor|].
  simpl in Hnodup. inversion Hnodup as [|k ks Hnotin Hrest]; subst.
  constructor; [now apply IH|].
  rewrite Forall_forall in *. intros r Hr.
  specialize (Hall r Hr). unfold index_le, index_lt in *.
  assert (snd q <> snd r).
  { intros Heq. apply Hnotin. rewrite Heq. now apply in_map. }
  lia.
Qed.

(** Two strictly sorted lists with the same elements are the same list. *)
Lemma strictly_sorted_unique (l1 : list (R * nat)) :
  forall l2,
    StronglySorted index_lt l1 ->
    StronglySorted index_lt l2 ->
    Permutation l1 l2 ->
    l1 = l2.
Proof.
  induction l1 as [|a l1 IH]; intros l2 H1 H2 Hperm.
  - now apply Permutation_nil in Hperm.
  - destruct l2 as [|b l2].
    + apply Permutation_sym, Permutation_nil in Hperm. discriminate.
    + inversion H1 as [|? ? H1' Ha]; subst.
      inversion H2 as [|? ? H2' Hb]; subst.
      rewrite Forall_forall in Ha, Hb.
      assert (Hab : a = b).
      { assert (Hin_a : In a (b :: l2))
          by (eapply Permutation_in; [exact Hperm|now left]).
        assert (Hin_b : In b (a :: l1))
          by (eapply Permutation_in;
              [apply Permutation_sym; exact Hperm|now left]).
        destruct Hin_a as [Heq|Hin_a]; [now symmetry|].
        destruct Hin_b as [Heq|Hin_b]; [exact Heq|].
        specialize (Ha b Hin_b). specialize (Hb a Hin_a).
        unfold index_lt in *. lia. }
      subst b. f_equal.
      apply IH; try assumption.
      now apply Permutation_cons_inv with a.
Qed.

Lemma sort_by_index_order_free (l l' : list (R * nat)) :
  NoDup (map snd l) ->
  Permutation l l' ->
  OrderedResultContainer.sort_by_index l
  = OrderedResultContainer.sort_by_index l'.
Proof.
  intros Hnodup Hperm.
  assert (Hsame : Permutation (OrderedResultContainer.sort_by_index l)
                              (OrderedResultContainer.sort_by_index l')).
  { eapply perm_trans; [apply sort_by_index_perm|].
    eapply perm_trans; [exact Hperm|].
    apply Permutation_sym, sort_by_index_perm. }
  apply strictly_sorted_unique; [| |exact Hsame].
  - apply sorted_distinct_strict; [|apply sort_by_index_sorted].
    eapply Permutation_NoDup; [|exact Hnodup].
    apply Permutation_map, Permutation_sym, sort_by_index_perm.
  - apply sorted_distinct_strict; [|apply sort_by_index_sorted].
    eapply Permutation_NoDup; [|exact Hnodup].
    apply Permutation_map.
    eapply perm_trans; [exact Hperm|].
    apply Permutation_sym, sort_by_index_perm.
Qed.
End SortFacts.

Section DrainFacts.
Context {Node : Type} `{BiFlowNode Node}.

Lemma add_all_results (arrivals : list DrainSpec.arrival) :
  forall c,
    OrderedBiExecuteResultContainer._results (DrainSpec.add_all arrivals c)
    = OrderedBiExecuteResultContainer._results c
      ++ map DrainSpec.indexed_result arrivals.
Proof.
  induction arrivals as [|[[y forked] i] arrivals IH]; intros c; simpl.
  - now rewrite app_nil_r.
  - unfold DrainSpec.add_all in *. simpl. rewrite IH.
    unfold OrderedResultContainer.add_result.
    destruct forked as [forked|];
      [destruct (OrderedBiExecuteResultContainer._biflownode c)|];
      simpl; now rewrite <- app_assoc.
Qed.

(** One step of the companion accumulator. *)
Local Abbreviation accumulate :=
  (fun (acc : option Node) (forked : Node) =>
     match acc with
     | None => Some forked
     | Some a => Some (join forked a)
     end).

Lemma add_all_biflownode (arrivals : list DrainSpec.arrival) :
  forall c,
    OrderedBiExecuteResultContainer._biflownode (DrainSpec.add_all arrivals c)
    = fold_left accumulate (DrainSpec.forked_units arrivals)
                (OrderedBiExecuteResultContainer._biflownode c).
Proof.
  induction arrivals as [|[[y forked] i] arrivals IH]; intros c; simpl.
  - reflexivity.
  - unfold DrainSpec.add_all in *. simpl. rewrite IH.
    destruct forked as [forked|]; simpl;
      [destruct (OrderedBiExecuteResultContainer._biflownode c)|];
      reflexivity.
Qed.

Lemma accumulate_from_some (forks : list Node) :
  forall acc,
    fold_left accumulate forks (Some acc)
    = Some (fold_left (fun a forked => join forked a) forks acc).
Proof.
  induction forks as [|f forks IH]; intros acc; simpl; [reflexivity|apply IH].
Qed.

Lemma accumulate_is_join_all (forks : list Node) :
  fold_left accumulate forks None = DrainSpec.join_all forks.
Proof.
  destruct forks as [|f forks]; simpl; [reflexivity|].
  apply accumulate_from_some.
Qed.

Lemma map_fst_combine {A B : Type} (l1 : list A) :
  forall l2 : list B,
    length l1 <= length l2 -> map fst (combine l1 l2) = l1.
Proof.
  induction l1 as [|a l1 IH]; intros [|b l2] Hlen; simpl in *;
    try reflexivity; try lia.
  f_equal. apply IH. lia.
Qed.

Lemma map_snd_combine {A B : Type} (l1 : list A) :
  forall l2 : list B,
    map snd (combine l1 l2) = firstn (length l1) l2.
Proof.
  induction l1 as [|a l1 IH]; intros [|b l2]; simpl; try reflexivity.
  f_equal. apply IH.
Qed.

Lemma firstn_repeat {A : Type} (a : A) (n : nat) :
  firstn n (repeat a n) = repeat a n.
Proof. induction n; simpl; [reflexivity|now f_equal]. Qed.

Lemma drain_results (arrivals : list DrainSpec.arrival) :
  map fst (DrainSpec.drain arrivals)
  = map fst (OrderedResultContainer.sort_by_index
               (map DrainSpec.indexed_result arrivals)).
Proof.
  unfold DrainSpec.drain, OrderedBiExecuteResultContainer.get_results,
         OrderedResultContainer.get_results.
  simpl. rewrite add_all_results. simpl.
  apply map_fst_combine. simpl. rewrite repeat_length. lia.
Qed.

Lemma drain_snapshots (arrivals : list DrainSpec.arrival) :
  map snd (DrainSpec.drain arrivals)
  = DrainSpec.snapshot_slots
      (DrainSpec.join_all (DrainSpec.forked_units arrivals))
      (length arrivals).
Proof.
  unfold DrainSpec.drain, OrderedBiExecuteResultContainer.get_results,
         OrderedResultContainer.get_results.
  simpl. rewrite add_all_results, add_all_biflownode. simpl.
  rewrite map_snd_combine, accumulate_is_join_all.
  rewrite length_map.
  rewrite (Permutation_length (sort_by_index_perm _)), length_map.
  destruct arrivals as [|a arrivals]; simpl; [reflexivity|].
  now rewrite Nat.sub_0_r, firstn_repeat.
Qed.

(** Draining leaves the companion accumulator in place: a container that
    is drained a second time still holds the snapshot of the first round. *)
Remark drain_keeps_accumulator
       (c : OrderedBiExecuteResultContainer.t (Node := Node)) :
  OrderedBiExecuteResultContainer._biflownode
    (snd (OrderedBiExecuteResultContainer.get_results c))
  = OrderedBiExecuteResultContainer._biflownode c.
Proof. reflexivity. Qed.

(** C2.  For results added to a new order-preserving container with distinct
    submission indices, in any arrival order, draining returns the execute
    results sorted by submission index, zipped with a snapshot list whose
    first slot holds the join of the forked snapshots that are not [None]
    (in arrival order) and whose later slots are [None]; the execute results
    that come out do not depend on the arrival order. *)
Theorem C2_drain_restores_submission_order :
  forall arrivals : list DrainSpec.arrival,
    NoDup (map snd arrivals) ->
    (exists sorted : list (pyval * nat),
        Permutation sorted (map DrainSpec.indexed_result arrivals)
        /\ StronglySorted (@OrderedResultContainer.index_lt pyval) sorted
        /\ map fst (DrainSpec.drain arrivals) = map fst sorted)
    /\ map snd (DrainSpec.drain arrivals)
       = DrainSpec.snapshot_slots
           (DrainSpec.join_all (DrainSpec.forked_units arrivals))
           (length arrivals)
    /\ (forall arrivals' : list DrainSpec.arrival,
           Permutation arrivals arrivals' ->
           map fst (DrainSpec.drain arrivals')
           = map fst (DrainSpec.drain arrivals)).
Proof.
  intros arrivals Hnodup.
  assert (Hkeys : map snd (map DrainSpec.indexed_result arrivals)
                  = map snd arrivals).
  { rewrite map_map. apply map_ext. now intros [[y forked] i]. }
  split; [|split].
  - exists (OrderedResultContainer.sort_by_index
              (map DrainSpec.indexed_result arrivals)).
    split; [apply sort_by_index_perm|].
    split; [|apply drain_results].
    apply sorted_distinct_strict; [|apply sort_by_index_sorted].
    eapply Permutation_NoDup.
    + apply Permutation_map, Permutation_sym, sort_by_index_perm.
    + now rewrite Hkeys.
  - apply drain_snapshots.
  - intros arrivals' Hperm. rewrite !drain_results. f_equal.
    symmetry. apply sort_by_index_order_free.
    + now rewrite Hkeys.
    + now apply Permutation_map.
Qed.
End DrainFacts.

Lemma C2_witness :
  NoDup (map snd Counting.example_arrivals)
  /\ map snd (DrainSpec.drain Counting.example_arrivals)
     = DrainSpec.snapshot_slots
         (DrainSpec.join_all (DrainSpec.forked_units Counting.example_arrivals))
         (length Counting.example_arrivals).
Proof.
  assert (Hnodup : NoDup (map snd Counting.example_arrivals)).
  { simpl. repeat constructor; simpl; intuition discriminate. }
  split; [exact Hnodup|].
  exact (proj1 (proj2 (C2_drain_restores_submission_order
                         Counting.example_arrivals Hnodup))).
Defined.

(** The example drained: submission order restored, one merged snapshot. *)
Example drain_example :
  DrainSpec.drain Counting.example_arrivals
  = [(PyArray [[0%Z]], Some (Counting.mk_flow [] 7 0 true []));
     (PyArray [[10%Z]], None);
     (PyArray [[20%Z]], None)].
Proof. reflexivity. Qed.

(** ** Closing a parallel training phase *)

Section PhaseFacts.
Context {Node : Type} `{BiFlowNode Node}.
Variable get_message : list pyval -> pyval.

Local Abbreviation flow_state := (ParallelBiFlow.t (Node := Node)).

Lemma set_flownode_same (s : flow_state) :
  ParallelBiFlow.set_flownode (ParallelBiFlow._flownode s) s = s.
Proof. now destruct s. Qed.

Lemma for_each_join (forks : list Node) :
  forall s : flow_state,
    for_each (map (@ParallelBiFlow.TrainResult Node) forks)
             (fun result =>
                match result with
                | ParallelBiFlow.TrainResult forked =>
                    ParallelBiFlow.on_flownode (modify (join forked))
                | ParallelBiFlow.ExecuteResult _ _ => raise TypeError
                end) s
    = (Ok tt, ParallelBiFlow.set_flownode
                (PhaseSpec.join_forks forks (ParallelBiFlow._flownode s)) s).
Proof.
  induction forks as [|forked forks IH]; intros s; simpl.
  - unfold ret. now rewrite set_flownode_same.
  - unfold bind at 1. unfold ParallelBiFlow.on_flownode at 1.
    unfold zoom, modify. rewrite IH. reflexivity.
Qed.

(** C3.  When the results of a parallel training phase are consumed, every
    returned forked unit is joined into the canonical unit, then
    [stop_training] is called with the stop message of that phase; a result
    that is present and not a dict fails the run with [BiFlowException]
    carrying the value; otherwise the bidirectional buffers are reset, the
    cursor advances if and only if the unit reports its training finished,
    and the next phase is looked for. *)
Theorem C3_use_results_closes_phase :
  forall (fuel : nat) (s : flow_state) (forks : list Node) (i : nat)
         (stop_message : pyval),
    ParallelBiFlow._i_train_node s = Some i ->
    nth_error (ParallelBiFlow._stop_messages s) i = Some stop_message ->
    let joined := PhaseSpec.join_forks forks (ParallelBiFlow._flownode s) in
    let summary := fst (stop_training stop_message joined) in
    let stopped := snd (stop_training stop_message joined) in
    let reset := bi_reset stopped in
    i < flow_len reset ->
    ParallelBiFlow.use_results get_message fuel
      (map (@ParallelBiFlow.TrainResult Node) forks) s
    = match summary with
      | TupleResult _ =>
          (Raise (BiFlowException ParallelBiFlow.err_stop_message
                                  (Some summary)),
           ParallelBiFlow.set_flownode stopped s)
      | _ =>
          (ParallelBiFlow._next_train_phase fuel ;; ret PyNone)
            (ParallelBiFlow.set_i_train_node
               (Some (PhaseSpec.cursor_after reset i))
               (ParallelBiFlow.set_flownode reset s))
      end.
Proof.
  intros fuel s forks i stop_message Hcursor Hmsg joined summary stopped
         reset Hlen.
  unfold ParallelBiFlow.use_results.
  unfold bind at 1. unfold gets at 1.
  unfold bind at 1. unfold gets at 1.
  unfold ParallelBiFlow.is_parallel_training at 1. rewrite Hcursor.
  unfold bind at 1. rewrite for_each_join. fold joined.
  subst summary stopped reset.
  destruct (stop_training stop_message joined) as [result node'] eqn:Hstop.
  clearbody joined.
  apply Nat.ltb_lt in Hlen.
  destruct s; simpl in *; subst.
  unfold ParallelBiFlow._stop_training_hook,
    ParallelBiFlow.stop_training_checked, ParallelBiFlow.i_train_node,
    ParallelBiFlow.getitem, ParallelBiFlow.on_flownode,
    ParallelBiFlow.flow_item_is_training, PhaseSpec.cursor_after.
  unfold_monad. cbn -[Nat.ltb]. rewrite Hmsg. cbn -[Nat.ltb].
  rewrite Hstop.
  destruct result as [|summary|fields]; cbn -[Nat.ltb]; try reflexivity;
    rewrite Hlen; destruct (flow_is_training (bi_reset node') i);
    reflexivity.
Qed.
End PhaseFacts.

Lemma C3_witness :
  ParallelBiFlow._i_train_node Counting.example_state = Some 1
  /\ nth_error (ParallelBiFlow._stop_messages Counting.example_state) 1
     = Some (PyDict [])
  /\ ParallelBiFlow.use_results Counting.counting_get_message 3
       (map (@ParallelBiFlow.TrainResult Counting.flow) Counting.example_forks)
       Counting.example_state
     = (Ok PyNone,
        ParallelBiFlow.set_i_train_node None
          (ParallelBiFlow.set_flownode
             (Counting.mk_flow [Counting.mk_unit 0 1 true; Counting.mk_unit 0 1 true]
                          5 1 false [PyDict []])
             Counting.example_state)).
Proof.
  split; [reflexivity|]. split; [reflexivity|].
  rewrite (@C3_use_results_closes_phase Counting.flow _ Counting.counting_get_message 3
             Counting.example_state Counting.example_forks 1 (PyDict [])
             eq_refl eq_refl).
  - reflexivity.
  - simpl. lia.
Defined.

(** ** Local fallback when a unit cannot be forked *)

Section FallbackFacts.
Context {Node : Type} `{BiFlowNode Node}.

Local Abbreviation flow_state := (ParallelBiFlow.t (Node := Node)).
Local Abbreviation fork_error := TrainingPhaseNotParallelException.
Local Abbreviation class_of :=
  (ParallelBiFlow._train_callable_class (Node := Node)).

Lemma train_loop_no_fork_error (fuel : nat) :
  forall x msg (node : Node),
    fst (BiFlowTrainCallable.train_loop fuel x msg node) <> Raise fork_error.
Proof.
  induction fuel as [|fuel IH]; intros x msg node; simpl.
  - unfold_monad. simpl. congruence.
  - unfold_monad. destruct (train x msg node) as [[|summary|fields] node'];
      simpl; try congruence.
    destruct (length fields =? 4); simpl; [|congruence].
    destruct fields as [|a [|b [|c rest]]]; simpl;
      solve [congruence|apply IH].
Qed.

Lemma default_class_no_fork_error :
  PhaseSpec.raises_no_fork_error (Node := Node) BiFlowTrainCallable.__call__.
Proof.
  intros fuel purge [x msg] node. rewrite call_after_loop.
  pose proof (train_loop_no_fork_error fuel x msg node) as Hloop.
  destruct (BiFlowTrainCallable.train_loop fuel x msg node) as [[[]|e|] node'];
    simpl in *; congruence.
Qed.

Lemma for_each_train_locally cls (fuel : nat) (pairs : list (pyval * pyval)) :
  forall s : flow_state,
    for_each pairs
             (fun data => ParallelBiFlow.on_flownode (cls fuel false data) ;;
                          ret tt) s
    = let (r, node') :=
        PhaseSpec.train_locally cls fuel pairs (ParallelBiFlow._flownode s) in
      (r, ParallelBiFlow.set_flownode node' s).
Proof.
  induction pairs as [|data pairs IH]; intros s; simpl.
  - unfold ret. now rewrite set_flownode_same.
  - unfold bind at 1. unfold bind at 1.
    unfold ParallelBiFlow.on_flownode at 1. unfold zoom.
    unfold bind at 2.
    destruct (cls fuel false data (ParallelBiFlow._flownode s))
      as [[trained|e|] node']; try reflexivity.
    unfold ret at 1. rewrite IH. reflexivity.
Qed.

(** *** Containment of the fork error, method by method *)

Section Containment.
Variable c : option (@ParallelBiFlow.train_callable_class Node).
Hypothesis c_safe : forall cls, c = Some cls -> PhaseSpec.raises_no_fork_error cls.

Local Abbreviation contained := (PhaseSpec.contained c).
Local Abbreviation keeps_class := (PhaseSpec.keeps_class c).

Lemma contained_keeps {A : Type} (m : M flow_state A) :
  contained m -> keeps_class m.
Proof. intros Hm s Hs. apply (Hm s Hs). Qed.

Lemma contained_ret {A : Type} (a : A) : contained (ret a).
Proof. intros s Hs. split; [exact Hs|discriminate]. Qed.

Lemma contained_raise {A : Type} (e : exn) :
  e <> fork_error -> contained (@raise flow_state A e).
Proof. intros He s Hs. split; [exact Hs|]. simpl. congruence. Qed.

Lemma contained_gets {A : Type} (f : flow_state -> A) : contained (gets f).
Proof. intros s Hs. split; [exact Hs|discriminate]. Qed.

Lemma contained_modify (f : flow_state -> flow_state) :
  (forall s, class_of (f s) = class_of s) -> contained (modify f).
Proof. intros Hf s Hs. split; [simpl; now rewrite Hf|discriminate]. Qed.

Lemma contained_bind {A B : Type} (m : M flow_state A)
      (k : A -> M flow_state B) :
  contained m -> (forall a, contained (k a)) -> contained (bind m k).
Proof.
  intros Hm Hk s Hs. unfold bind.
  destruct (Hm s Hs) as [Hclass Hres].
  destruct (m s) as [[a|e|] s']; simpl in *.
  - now apply Hk.
  - split; [exact Hclass|]. intros Heq. apply Hres. congruence.
  - split; [exact Hclass|discriminate].
Qed.

Lemma contained_gets_class {B : Type}
      (k : option ParallelBiFlow.train_callable_class -> M flow_state B) :
  contained (k c) ->
  contained (bind (gets class_of) k).
Proof. intros Hk s Hs. unfold bind, gets. rewrite Hs. now apply Hk. Qed.

Lemma contained_on_flownode {A : Type} (m : M Node A) :
  (forall node, fst (m node) <> Raise fork_error) ->
  contained (ParallelBiFlow.on_flownode m).
Proof.
  intros Hm s Hs. unfold ParallelBiFlow.on_flownode, zoom.
  specialize (Hm (ParallelBiFlow._flownode s)).
  destruct (m (ParallelBiFlow._flownode s)) as [r node']. simpl in *.
  split; [|exact Hm]. now destruct s.
Qed.

Lemma contained_getitem {A : Type} (l : list A) (i : nat) :
  contained (ParallelBiFlow.getitem l i).
Proof.
  unfold ParallelBiFlow.getitem. destruct (nth_error l i).
  - apply contained_ret.
  - apply contained_raise. discriminate.
Qed.

Lemma contained_for_each {A : Type} (items : list A)
      (body : A -> M flow_state unit) :
  (forall item, contained (body item)) -> contained (for_each items body).
Proof.
  intros Hbody. induction items as [|item items IH]; simpl.
  - apply contained_ret.
  - apply contained_bind; [apply Hbody|intros _; exact IH].
Qed.

Lemma contained_when (b : bool) (m : M flow_state unit) :
  contained m -> contained (when b m).
Proof. intros Hm. destruct b; [exact Hm|apply contained_ret]. Qed.

(** [try: body except TrainingPhaseNotParallelException: handler] contains
    the fork error of its body. *)
Lemma contained_try_except {A : Type} (body : M flow_state A)
      (handler : exn -> M flow_state A) :
  keeps_class body ->
  (forall e, contained (handler e)) ->
  contained (try_except ParallelBiFlow.is_TrainingPhaseNotParallelException
                        body handler).
Proof.
  intros Hbody Hhandler s Hs. unfold try_except.
  specialize (Hbody s Hs).
  destruct (body s) as [[a|e|] s']; simpl in *.
  - split; [exact Hbody|discriminate].
  - destruct e; simpl; try (split; [exact Hbody|discriminate]).
    now apply Hhandler.
  - split; [exact Hbody|discriminate].
Qed.

Lemma keeps_class_bind {A B : Type} (m : M flow_state A)
      (k : A -> M flow_state B) :
  keeps_class m -> (forall a, keeps_class (k a)) -> keeps_class (bind m k).
Proof.
  intros Hm Hk s Hs. unfold bind. specialize (Hm s Hs).
  destruct (m s) as [[a|e|] s']; simpl in *; try exact Hm.
  now apply Hk.
Qed.

Lemma keeps_class_raise {A : Type} (e : exn) :
  keeps_class (@raise flow_state A e).
Proof. intros s Hs. exact Hs. Qed.

Lemma keeps_class_fork_flownode : keeps_class ParallelBiFlow.fork_flownode.
Proof.
  intros s Hs. unfold ParallelBiFlow.fork_flownode. unfold_monad.
  destruct (fork (ParallelBiFlow._flownode s)); exact Hs.
Qed.

Lemma keeps_class_create_train_task :
  keeps_class ParallelBiFlow._create_train_task.
Proof.
  intros s Hs. unfold ParallelBiFlow._create_train_task,
                 ParallelBiFlow.next.
  unfold_monad. destruct s as [? ? ? ? d m ? ? ? ? ? ? ?]. simpl in *.
  destruct d as [[|x d]|]; simpl; try exact Hs;
    destruct m as [[|y m]|]; simpl; exact Hs.
Qed.

Lemma contained_i_train_node : contained ParallelBiFlow.i_train_node.
Proof.
  unfold ParallelBiFlow.i_train_node.
  apply contained_bind; [apply contained_gets|intros [i|]].
  - apply contained_ret.
  - apply contained_raise. discriminate.
Qed.

Lemma keeps_class_prepare (iterable msg_iterable : list pyval) :
  keeps_class (ParallelBiFlow.prepare_parallel_phase iterable msg_iterable).
Proof.
  unfold ParallelBiFlow.prepare_parallel_phase.
  apply keeps_class_bind; [apply keeps_class_fork_flownode|intros _].
  apply keeps_class_bind;
    [apply contained_keeps, contained_modify; now intros []|intros _].
  apply keeps_class_bind; [apply keeps_class_create_train_task|].
  intros [[chunk callable]|].
  - apply keeps_class_bind; [apply keeps_class_fork_flownode|intros forked].
    apply keeps_class_bind; [apply contained_keeps, contained_gets|].
    intros [cls|]; [|apply keeps_class_raise].
    apply contained_keeps, contained_modify. now intros [].
  - apply keeps_class_bind;
      [apply contained_keeps, contained_i_train_node|intros i].
    apply keeps_class_bind; [apply contained_keeps, contained_gets|].
    intros node. destruct (_ =? 1); apply keeps_class_raise.
Qed.

Lemma contained_stop_training_checked :
  contained ParallelBiFlow.stop_training_checked.
Proof.
  unfold ParallelBiFlow.stop_training_checked.
  apply contained_bind; [apply contained_i_train_node|intros i].
  apply contained_bind; [apply contained_gets|intros messages].
  apply contained_bind; [apply contained_getitem|intros message].
  apply contained_bind.
  - apply contained_on_flownode. intros node. unfold method.
    destruct (stop_training message node). discriminate.
  - intros [|summary|fields]; try apply contained_ret.
    apply contained_raise. discriminate.
Qed.

Lemma contained_bi_reset : contained ParallelBiFlow._bi_reset.
Proof.
  unfold ParallelBiFlow._bi_reset. apply contained_on_flownode.
  intros node. discriminate.
Qed.

Lemma contained_local_train_phase (fuel : nat)
      (iterable msg_iterable : list pyval) :
  contained (ParallelBiFlow._local_train_phase fuel iterable msg_iterable).
Proof.
  unfold ParallelBiFlow._local_train_phase.
  apply contained_gets_class.
  generalize c_safe. generalize c at 1 3. intros k k_safe.
  destruct k as [cls|]; [|apply contained_raise; discriminate].
  apply contained_bind.
  - apply contained_for_each. intros data.
    apply contained_bind; [|intros _; apply contained_ret].
    apply contained_on_flownode. intros node. now apply (k_safe cls eq_refl).
  - intros _. apply contained_bind; [apply contained_ret|intros _].
    apply contained_bind; [apply contained_stop_training_checked|intros _].
    apply contained_bi_reset.
Qed.

Lemma contained_flow_item_is_training (i : nat) :
  contained (ParallelBiFlow.flow_item_is_training i).
Proof.
  unfold ParallelBiFlow.flow_item_is_training.
  apply contained_bind; [apply contained_gets|intros node].
  destruct (i <? flow_len node);
    [apply contained_ret|apply contained_raise; discriminate].
Qed.

Lemma contained_next_train_phase (fuel : nat) :
  contained (ParallelBiFlow._next_train_phase fuel).
Proof.
  induction fuel as [|fuel IH]; simpl.
  - intros s Hs. split; [exact Hs|discriminate].
  - apply contained_bind; [apply contained_i_train_node|intros i].
    apply contained_bind; [apply contained_gets|intros node].
    destruct (i <? flow_len node); [|apply contained_modify; now intros []].
    destruct (negb (flow_is_training node i)).
    + apply contained_bind; [|intros _; exact IH].
      apply contained_modify. now intros [].
    + apply contained_bind; [apply contained_gets|intros data_iterables].
      apply contained_bind; [apply contained_getitem|intros iterable].
      apply contained_bind; [apply contained_gets|intros msg_iterables].
      apply contained_bind; [apply contained_getitem|intros msg_iterable].
      simpl. apply contained_bind.
      * apply contained_try_except.
        -- apply keeps_class_bind; [apply keeps_class_prepare|intros _].
           apply contained_keeps, contained_ret.
        -- intros e.
           apply contained_bind;
             [apply contained_local_train_phase|intros _].
           apply contained_bind; [apply contained_i_train_node|intros i'].
           apply contained_bind;
             [apply contained_flow_item_is_training|intros training].
           apply contained_bind; [|intros _; apply contained_ret].
           apply contained_when, contained_modify. now intros [].
      * intros [|]; [apply contained_ret|exact IH].
Qed.
End Containment.

(** What a local training phase does, in one equation. *)
Lemma local_train_phase_eq (fuel : nat) (iterable msg_iterable : list pyval)
      (s : flow_state) (i : nat) (stop_message : pyval) cls :
  ParallelBiFlow._i_train_node s = Some i ->
  nth_error (ParallelBiFlow._stop_messages s) i = Some stop_message ->
  ParallelBiFlow._train_callable_class s = Some cls ->
  ParallelBiFlow._local_train_phase fuel iterable msg_iterable s
  = match PhaseSpec.train_locally cls fuel (combine iterable msg_iterable)
                                  (ParallelBiFlow._flownode s) with
    | (Ok _, trained) =>
        match stop_training stop_message trained with
        | (TupleResult fields, stopped) =>
            (Raise (BiFlowException ParallelBiFlow.err_stop_message
                                    (Some (TupleResult fields))),
             ParallelBiFlow.set_flownode stopped s)
        | (_, stopped) =>
            (Ok tt, ParallelBiFlow.set_flownode (bi_reset stopped) s)
        end
    | (Raise e, node') => (Raise e, ParallelBiFlow.set_flownode node' s)
    | (OutOfFuel, node') => (OutOfFuel, ParallelBiFlow.set_flownode node' s)
    end.
Proof.
  intros Hcursor Hmsg Hcls.
  unfold ParallelBiFlow._local_train_phase.
  unfold bind at 1. unfold gets at 1. rewrite Hcls.
  unfold bind at 1. rewrite for_each_train_locally.
  destruct (PhaseSpec.train_locally cls fuel (combine iterable msg_iterable)
                                    (ParallelBiFlow._flownode s))
    as [[[]|e|] trained]; try reflexivity.
  unfold ParallelBiFlow._stop_training_hook,
    ParallelBiFlow.stop_training_checked, ParallelBiFlow.i_train_node,
    ParallelBiFlow.getitem, ParallelBiFlow._bi_reset,
    ParallelBiFlow.on_flownode.
  destruct s; simpl in *; subst.
  unfold_monad. cbn. rewrite Hmsg. cbn.
  destruct (stop_training stop_message trained) as [[|summary|fields] stopped];
    reflexivity.
Qed.

(** C4.  When the fork of a trainable unit fails with
    [TrainingPhaseNotParallelException], the orchestrator trains that unit
    locally over the full iterator, calls [stop_training], resets the
    bidirectional buffers, advances the cursor if the unit reports its
    training finished, and looks for the next phase again, where the fork
    is attempted afresh; the fork error does not reach the caller.  This
    holds for the default callable class and for every class that does not
    raise the fork error of its own accord. *)
Theorem C4_fork_failure_recovered_locally :
  forall (fuel : nat) (s : flow_state) (i : nat)
         (iterable msg_iterable : list pyval) (stop_message : pyval)
         (cls : ParallelBiFlow.train_callable_class),
    ParallelBiFlow._i_train_node s = Some i ->
    i < flow_len (ParallelBiFlow._flownode s) ->
    flow_is_training (ParallelBiFlow._flownode s) i = true ->
    nth_error (ParallelBiFlow._train_data_iterables s) i = Some iterable ->
    nth_error (ParallelBiFlow._train_msg_iterables s) i = Some msg_iterable ->
    nth_error (ParallelBiFlow._stop_messages s) i = Some stop_message ->
    ParallelBiFlow._train_callable_class s = Some cls ->
    PhaseSpec.raises_no_fork_error cls ->
    fork (ParallelBiFlow._flownode s) = None ->
    ParallelBiFlow._next_train_phase (S fuel) s
    = match PhaseSpec.train_locally cls fuel
                                    (combine iterable msg_iterable)
                                    (ParallelBiFlow._flownode s) with
      | (Ok _, trained) =>
          match stop_training stop_message trained with
          | (TupleResult fields, stopped) =>
              (Raise (BiFlowException ParallelBiFlow.err_stop_message
                                      (Some (TupleResult fields))),
               ParallelBiFlow.set_flownode stopped s)
          | (_, stopped) =>
              let reset := bi_reset stopped in
              if i <? flow_len reset then
                ParallelBiFlow._next_train_phase fuel
                  (ParallelBiFlow.set_i_train_node
                     (Some (PhaseSpec.cursor_after reset i))
                     (ParallelBiFlow.set_flownode reset s))
              else (Raise IndexError, ParallelBiFlow.set_flownode reset s)
          end
      | (Raise e, node') => (Raise e, ParallelBiFlow.set_flownode node' s)
      | (OutOfFuel, node') =>
          (OutOfFuel, ParallelBiFlow.set_flownode node' s)
      end
    /\ forall fuel',
        fst (ParallelBiFlow._next_train_phase fuel' s)
        <> Raise TrainingPhaseNotParallelException.
Proof.
  intros fuel s i iterable msg_iterable stop_message cls
         Hcursor Hlen Htraining Hdata Hmsgs Hstop Hcls Hsafe Hfork.
  split.
  - apply Nat.ltb_lt in Hlen.
    cbn [ParallelBiFlow._next_train_phase].
    unfold ParallelBiFlow.i_train_node at 1.
    unfold bind at 1. unfold bind at 1. unfold gets at 1. rewrite Hcursor.
    unfold ret at 1. unfold bind at 1. unfold gets at 1.
    rewrite Hlen, Htraining. cbn [negb].
    unfold bind at 1. unfold gets at 1.
    unfold bind at 1. unfold ParallelBiFlow.getitem at 1. rewrite Hdata.
    unfold ret at 1.
    unfold bind at 1. unfold gets at 1.
    unfold bind at 1. unfold ParallelBiFlow.getitem at 1. rewrite Hmsgs.
    unfold ret at 1. cbn [ParallelBiFlow._sanitize_iterables].
    unfold bind at 1. unfold try_except at 1.
    unfold ParallelBiFlow.prepare_parallel_phase at 1.
    unfold bind at 1. unfold bind at 1.
    unfold ParallelBiFlow.fork_flownode at 1.
    unfold bind at 1. unfold gets at 1. rewrite Hfork.
    unfold raise at 1. cbn [ParallelBiFlow.is_TrainingPhaseNotParallelException].
    unfold bind at 1.
    rewrite (local_train_phase_eq fuel iterable msg_iterable s
                                  Hcursor Hstop Hcls).
    destruct (PhaseSpec.train_locally cls fuel
                (combine iterable msg_iterable) (ParallelBiFlow._flownode s))
      as [[[]|e|] trained]; try reflexivity.
    destruct (stop_training stop_message trained)
      as [summary stopped] eqn:Hstopped.
    unfold ParallelBiFlow.i_train_node, ParallelBiFlow.flow_item_is_training,
      PhaseSpec.cursor_after.
    destruct s; simpl in *; subst.
    destruct summary as [|summary|fields]; try reflexivity;
      unfold_monad; cbn -[Nat.ltb ParallelBiFlow._next_train_phase];
      destruct (i <? flow_len (bi_reset stopped)); try reflexivity;
      destruct (flow_is_training (bi_reset stopped) i); reflexivity.
  - intros fuel'.
    apply (@contained_next_train_phase (Some cls)); [|exact Hcls].
    intros cls' Heq. injection Heq as <-. exact Hsafe.
Qed.
End FallbackFacts.

Lemma C4_witness :
  ParallelBiFlow._i_train_node Counting.unforkable_state = Some 1
  /\ fork (ParallelBiFlow._flownode Counting.unforkable_state) = None
  /\ ParallelBiFlow._next_train_phase 3 Counting.unforkable_state
     = (Ok tt,
        ParallelBiFlow.set_i_train_node None
          (ParallelBiFlow.set_flownode
             (Counting.mk_flow [Counting.mk_unit 0 1 true; Counting.mk_unit 0 1 false]
                          2 3 false [PyDict []])
             Counting.unforkable_state)).
Proof.
  split; [reflexivity|]. split; [reflexivity|].
  assert (Hlen : 1 < flow_len (ParallelBiFlow._flownode
                                  Counting.unforkable_state))
    by (vm_compute; lia).
  rewrite (proj1 (@C4_fork_failure_recovered_locally
                    Counting.flow Counting.counting_node 2 Counting.unforkable_state 1
                    [PyArray [[1%Z]]; PyArray [[2%Z]]] [PyNone; PyNone]
                    (PyDict []) BiFlowTrainCallable.__call__
                    eq_refl Hlen eq_refl eq_refl eq_refl
                    eq_refl eq_refl default_class_no_fork_error eq_refl)).
  reflexivity.
Defined.

(** ** An empty data iterator at the start of a phase *)

Section EmptyIteratorFacts.
Context {Node : Type} `{BiFlowNode Node}.

Local Abbreviation flow_state := (ParallelBiFlow.t (Node := Node)).

Lemma diagnostics_differ (node_no : nat) :
  ParallelBiFlow.err_not_repeatable node_no
  <> ParallelBiFlow.err_iterator_empty node_no.
Proof.
  unfold ParallelBiFlow.err_not_repeatable, ParallelBiFlow.err_iterator_empty.
  simpl. intros Heq. discriminate Heq.
Qed.

(** C6, as the code has it.  When the first training task of a phase cannot
    be built because an iterator yields no item, the run aborts with
    [FlowException]; the text says that the iteration could not be repeated
    exactly when the unit is in its second training phase (phase counter
    [1]), and that the iterator is empty in every other phase, the first as
    well as the third and later ones.  The two texts differ. *)
Theorem C6_empty_iterator_diagnostic :
  forall (fuel : nat) (s : flow_state) (i : nat)
         (iterable msg_iterable : list pyval) (forked : Node),
    ParallelBiFlow._i_train_node s = Some i ->
    i < flow_len (ParallelBiFlow._flownode s) ->
    flow_is_training (ParallelBiFlow._flownode s) i = true ->
    nth_error (ParallelBiFlow._train_data_iterables s) i = Some iterable ->
    nth_error (ParallelBiFlow._train_msg_iterables s) i = Some msg_iterable ->
    fork (ParallelBiFlow._flownode s) = Some forked ->
    iterable = [] \/ msg_iterable = [] ->
    fst (ParallelBiFlow._next_train_phase (S fuel) s)
    = Raise (FlowException
               (if flow_get_current_train_phase (ParallelBiFlow._flownode s) i
                   =? 1
                then ParallelBiFlow.err_not_repeatable (i + 1)
                else ParallelBiFlow.err_iterator_empty (i + 1)))
    /\ ParallelBiFlow.err_not_repeatable (i + 1)
       <> ParallelBiFlow.err_iterator_empty (i + 1).
Proof.
  intros fuel s i iterable msg_iterable forked
         Hcursor Hlen Htraining Hdata Hmsgs Hfork Hempty.
  split; [|apply diagnostics_differ].
  apply Nat.ltb_lt in Hlen.
  cbn [ParallelBiFlow._next_train_phase].
  unfold ParallelBiFlow.i_train_node at 1.
  unfold bind at 1. unfold bind at 1. unfold gets at 1. rewrite Hcursor.
  unfold ret at 1. unfold bind at 1. unfold gets at 1.
  rewrite Hlen, Htraining. cbn [negb].
  unfold bind at 1. unfold gets at 1.
  unfold bind at 1. unfold ParallelBiFlow.getitem at 1. rewrite Hdata.
  unfold ret at 1.
  unfold bind at 1. unfold gets at 1.
  unfold bind at 1. unfold ParallelBiFlow.getitem at 1. rewrite Hmsgs.
  unfold ret at 1. cbn [ParallelBiFlow._sanitize_iterables].
  unfold ParallelBiFlow.prepare_parallel_phase,
    ParallelBiFlow.fork_flownode, ParallelBiFlow._create_train_task,
    ParallelBiFlow.i_train_node, ParallelBiFlow.next.
  destruct s; simpl in *; subst.
  unfold_monad. cbn -[Nat.eqb]. rewrite Hfork. cbn -[Nat.eqb].
  destruct Hempty as [-> | ->].
  - cbn -[Nat.eqb].
    destruct (flow_get_current_train_phase _flownode i =? 1); reflexivity.
  - destruct iterable as [|x rest]; cbn -[Nat.eqb];
      destruct (flow_get_current_train_phase _flownode i =? 1); reflexivity.
Qed.
End EmptyIteratorFacts.

Lemma C6_witness :
  flow_get_current_train_phase
    (ParallelBiFlow._flownode (Counting.exhausted_state 1)) 0 = 1
  /\ fst (ParallelBiFlow._next_train_phase 1 (Counting.exhausted_state 1))
     = Raise (FlowException (ParallelBiFlow.err_not_repeatable 1)).
Proof.
  split; [reflexivity|].
  assert (Hlen : 0 < flow_len (ParallelBiFlow._flownode
                                  (Counting.exhausted_state 1)))
    by (vm_compute; lia).
  exact (proj1 (@C6_empty_iterator_diagnostic
                  Counting.flow Counting.counting_node 0 (Counting.exhausted_state 1) 0
                  [] [PyNone] (Counting.mk_flow [Counting.mk_unit 1 1 true] 0 0 false [])
                  eq_refl Hlen eq_refl eq_refl eq_refl eq_refl
                  (or_introl eq_refl))).
Defined.

(** In the third training phase (phase counter [2]) of a unit, a repeated
    phase, an exhausted data iterator is reported as an empty iterator and
    not as an iteration that could not be repeated. *)
Lemma C6_counterexample :
  flow_get_current_train_phase
    (ParallelBiFlow._flownode (Counting.exhausted_state 2)) 0 = 2
  /\ fst (ParallelBiFlow._next_train_phase 1 (Counting.exhausted_state 2))
     = Raise (FlowException (ParallelBiFlow.err_iterator_empty 1))
  /\ fst (ParallelBiFlow._next_train_phase 1 (Counting.exhausted_state 2))
     <> Raise (FlowException (ParallelBiFlow.err_not_repeatable 1)).
Proof.
  split; [reflexivity|]. split; [reflexivity|].
  vm_compute. intros Heq. discriminate Heq.
Qed.

(** ** Reassembling the results of a parallel execution *)

Section ExecutionFacts.
Context {Node : Type} `{BiFlowNode Node}.
Variable get_message : list pyval -> pyval.

Local Abbreviation flow_state := (ParallelBiFlow.t (Node := Node)).

Lemma consolidate_all_present (rs : list (pyval * option Node)) :
  forall (acc msgs : list pyval) (s : flow_state),
    Forall (fun r => is_None (ExecuteSpec.y_of (fst r)) = false) rs ->
    ParallelBiFlow.consolidate (ExecuteSpec.exec_results rs) (Some acc) msgs s
    = (Ok (Some (acc ++ map (fun r => ExecuteSpec.y_of (fst r)) rs),
           msgs ++ flat_map (fun r => ExecuteSpec.msg_of (fst r)) rs),
       ParallelBiFlow.set_flownode
         (ExecuteSpec.join_returned rs (ParallelBiFlow._flownode s)) s).
Proof.
  induction rs as [|[result forked] rs IH]; intros acc msgs s Hall.
  - simpl. unfold ret. now rewrite !app_nil_r, set_flownode_same.
  - inversion Hall as [|r rs' Hy Hrest]; subst. simpl in Hy.
    cbn [ExecuteSpec.exec_results map ParallelBiFlow.consolidate fst snd].
    assert (Hsplit :
              (match result with
               | PyTuple [y; msg] => (y, msgs ++ [msg])
               | _ => (result, msgs)
               end)
              = (ExecuteSpec.y_of result,
                 msgs ++ ExecuteSpec.msg_of result)).
    { destruct result as [| |?|[|y [|msg [|? ?]]]]; simpl;
        now rewrite ?app_nil_r. }
    rewrite Hsplit. rewrite Hy. cbn [negb].
    unfold bind at 1. unfold ret at 1.
    unfold bind at 1.
    fold (ExecuteSpec.exec_results rs).
    destruct forked as [forked|].
    + unfold ParallelBiFlow.on_flownode, zoom, modify.
      rewrite IH by exact Hrest. simpl.
      rewrite <- !app_assoc. destruct s; reflexivity.
    + unfold ret at 1. rewrite IH by exact Hrest. simpl.
      now rewrite <- !app_assoc.
Qed.

Lemma array_rows_arrays (ys : list (list (list Z))) :
  array_rows (map PyArray ys) = Some (concat ys).
Proof.
  induction ys as [|y ys IH]; simpl; [reflexivity|now rewrite IH].
Qed.

(** When no [y] is [None], the returned [y] is the concatenation of the
    per-task arrays in the order of the results. *)
Lemma use_results_all_present (fuel : nat) (flow : Node)
      (ys : list (list (list Z))) :
  ys <> [] ->
  fst (ParallelBiFlow.use_results get_message fuel
         (ExecuteSpec.exec_results (map (fun y => (PyArray y, None)) ys))
         (ExecuteSpec.executing flow))
  = Ok (PyTuple [PyArray (concat ys); get_message []]).
Proof.
  intros Hys. unfold ParallelBiFlow.use_results.
  unfold bind at 1. unfold gets at 1.
  unfold bind at 1. unfold gets at 1.
  cbn [ExecuteSpec.executing ParallelBiFlow.is_parallel_training
       ParallelBiFlow.is_parallel_executing ParallelBiFlow.__init__
       ParallelBiFlow.set_exec_iterators ParallelBiFlow._i_train_node
       ParallelBiFlow._exec_data_iterator].
  unfold bind at 1. unfold modify at 1.
  unfold bind at 1.
  rewrite consolidate_all_present.
  - rewrite map_map. cbn [fst ExecuteSpec.y_of app].
    rewrite flat_map_concat_map, map_map. cbn [fst ExecuteSpec.msg_of].
    replace (concat (map (fun _ : list (list Z) => @nil pyval) ys))
      with (@nil pyval)
      by (clear Hys; induction ys; simpl; auto).
    unfold bind, ret, numx_concatenate.
    replace (map (fun x => PyArray x) ys) with (map PyArray ys) by reflexivity.
    rewrite array_rows_arrays.
    destruct ys as [|y ys]; [congruence|reflexivity].
  - apply Forall_forall. intros r Hin. apply in_map_iff in Hin.
    destruct Hin as [y [<- _]]. reflexivity.
Qed.

Lemma consolidate_all_None (n : nat) :
  forall (y_results : option (list pyval)) (msgs : list pyval)
         (s : flow_state),
    0 < n ->
    ParallelBiFlow.consolidate
      (repeat (ParallelBiFlow.ExecuteResult PyNone None) n) y_results msgs s
    = (Ok (None, msgs), s).
Proof.
  induction n as [|n IH]; intros y_results msgs s Hn; [lia|].
  simpl. unfold bind at 1. unfold ret at 1. unfold bind at 1. unfold ret at 1.
  destruct n as [|n]; [reflexivity|]. apply IH. lia.
Qed.

(** When every [y] is [None], the returned [y] is [None]. *)
Lemma use_results_all_None (fuel : nat) (flow : Node) (n : nat) :
  0 < n ->
  fst (ParallelBiFlow.use_results get_message fuel
         (repeat (ParallelBiFlow.ExecuteResult PyNone None) n)
         (ExecuteSpec.executing flow))
  = Ok (PyTuple [PyNone; get_message []]).
Proof.
  intros Hn. unfold ParallelBiFlow.use_results.
  unfold bind at 1. unfold gets at 1.
  unfold bind at 1. unfold gets at 1.
  cbn [ExecuteSpec.executing ParallelBiFlow.is_parallel_training
       ParallelBiFlow.is_parallel_executing ParallelBiFlow.__init__
       ParallelBiFlow.set_exec_iterators ParallelBiFlow._i_train_node
       ParallelBiFlow._exec_data_iterator].
  unfold bind at 1. unfold modify at 1.
  unfold bind at 1.
  rewrite consolidate_all_None by exact Hn. reflexivity.
Qed.

(** A [None] that is followed by a [y] that is present is detected. *)
Lemma use_results_None_then_present (fuel : nat) (flow : Node)
      (y : list (list Z)) :
  fst (ParallelBiFlow.use_results get_message fuel
         [ParallelBiFlow.ExecuteResult PyNone None;
          ParallelBiFlow.ExecuteResult (PyArray y) None]
         (ExecuteSpec.executing flow))
  = Raise (BiFlowException ParallelBiFlow.err_some_y_None None).
Proof. reflexivity. Qed.

(** C5, where the code departs from it.  A [y] that is present followed by
    a [None] at the end (some, but not all, of the per-task results are
    [None]) is not detected: the call returns [(None, msg)] and raises
    nothing. *)
Theorem C5_trailing_None_goes_unnoticed :
  forall (fuel : nat) (flow : Node) (y : list (list Z)),
    fst (ParallelBiFlow.use_results get_message fuel
           [ParallelBiFlow.ExecuteResult (PyArray y) None;
            ParallelBiFlow.ExecuteResult PyNone None]
           (ExecuteSpec.executing flow))
    = Ok (PyTuple [PyNone; get_message []]).
Proof. reflexivity. Qed.
End ExecutionFacts.

(** ** Guards of [train] and [execute], and the empty result batch *)

Section TrainFacts.
Context {Node : Type} `{BiFlowNode Node}.
Context {Pool Handle : Type} `{ParallelBiFlow.Scheduler Node Pool Handle}.
Variable BiFlow_train :
  list (list pyval) -> list (list pyval) -> option (list pyval)
  -> M (ParallelBiFlow.t (Node := Node)) unit.
Variable BiFlow_execute :
  list pyval -> list pyval -> list pyval
  -> M (ParallelBiFlow.t (Node := Node)) pyval.
Variable get_message : list pyval -> pyval.

Local Abbreviation flow_state := (ParallelBiFlow.t (Node := Node)).
Local Abbreviation train :=
  (ParallelBiFlow.train BiFlow_train get_message).
Local Abbreviation execute :=
  (ParallelBiFlow.execute BiFlow_execute get_message).

(** The training container never hands out an empty batch: drained before
    any result was added, it returns the list with [None] in it. *)
Remark train_container_batch_not_empty
       (c : BiFlowTrainResultContainer.t (Node := Node)) :
  fst (BiFlowTrainResultContainer.get_results c) <> [].
Proof. discriminate. Qed.

(** C7.  During parallel training, whenever the scheduler returns an empty
    result batch for a phase that is underway (all its tasks were handed
    to the scheduler), the run stops with the exception "Could not get any
    training tasks or results for the current training phase.": the phase
    loop does not go on. *)
Theorem C7_empty_batch_aborts :
  forall (fuel : nat) (overwrite_result_container : bool)
         (f f1 : ParallelBiFlow.frame) (h : Handle) (p' : Pool),
    ParallelBiFlow.is_parallel_training (ParallelBiFlow.self f) = true ->
    ParallelBiFlow.submit_tasks fuel f = (Ok tt, f1) ->
    ParallelBiFlow.scheduler f1 = ParallelBiFlow.RefScheduler h ->
    ParallelBiFlow.get_results h (ParallelBiFlow.pool f1) = ([], p') ->
    ParallelBiFlow.train_phases get_message (S fuel)
                                overwrite_result_container f
    = (Raise (PyException ParallelBiFlow.err_no_results),
       ParallelBiFlow.mk_frame (ParallelBiFlow.self f1) p'
                               (ParallelBiFlow.scheduler f1)
                               (ParallelBiFlow.schedulers f1)
                               (ParallelBiFlow.last_trained_node f1)).
Proof.
  intros fuel ow f f1 h p' Htraining Hsubmit Hsched Hresults.
  destruct f as [s p current remaining last]. simpl in Htraining.
  cbn [ParallelBiFlow.train_phases].
  unfold bind at 1. unfold ParallelBiFlow.on_self at 1. unfold zoom at 1.
  unfold gets at 1. cbn [ParallelBiFlow.self ParallelBiFlow.pool
    ParallelBiFlow.scheduler ParallelBiFlow.schedulers
    ParallelBiFlow.last_trained_node]. rewrite Htraining.
  unfold bind at 1. rewrite Hsubmit.
  unfold bind at 1. unfold bind at 1.
  unfold ParallelBiFlow.scheduler_get_results at 1.
  unfold bind at 1. unfold gets at 1. rewrite Hsched.
  unfold bind at 1. unfold gets at 1. rewrite Hresults.
  unfold bind at 1. unfold ParallelBiFlow.on_pool at 1. unfold modify at 1.
  unfold ret at 1. unfold raise at 1.
  simpl. now rewrite Hsched.
Qed.

(** C8.  A call to [train] or to [execute] made while parallel training is
    underway (the phase cursor is set) is rejected at once with
    [ParallelBiFlowException]; the flow and the pools are as they were. *)
Theorem C8_reentrant_calls_rejected :
  forall (fuel : nat) (data_iterables msg_iterables : list (list pyval))
         (stop_messages : option (list pyval))
         (scheduler : ParallelBiFlow.scheduler_arg)
         (train_callable_class : option ParallelBiFlow.train_callable_class)
         (iterable msg_iterable target_iterable : list pyval)
         (execute_scheduler : option Handle)
         (execute_callable_class :
            option ParallelBiFlow.execute_callable_class)
         (overwrite_result_container : bool)
         (w : flow_state * Pool),
    ParallelBiFlow.is_parallel_training (fst w) = true ->
    train fuel data_iterables msg_iterables stop_messages scheduler
          train_callable_class overwrite_result_container w
    = (Raise (ParallelBiFlowException ParallelBiFlow.err_underway), w)
    /\ execute fuel iterable msg_iterable target_iterable execute_scheduler
               execute_callable_class overwrite_result_container w
       = (Raise (ParallelBiFlowException ParallelBiFlow.err_underway), w).
Proof.
  intros fuel d m st sched tcc it mit tit esched ecc ow [s p] Htraining.
  simpl in Htraining.
  unfold ParallelBiFlow.train, ParallelBiFlow.execute,
    ParallelBiFlow.on_flow.
  unfold_monad. simpl. rewrite Htraining. split; reflexivity.
Qed.

(** C9.  [train] with a [train_callable_class] but no scheduler, and
    [execute] with an [execute_callable_class] but no scheduler, raise
    [ParallelBiFlowException] in every state, and leave the flow and the
    pools as they were: nothing is trained or executed. *)
Theorem C9_callable_class_needs_scheduler :
  forall (fuel : nat) (data_iterables msg_iterables : list (list pyval))
         (stop_messages : option (list pyval))
         (train_callable_class : ParallelBiFlow.train_callable_class)
         (iterable msg_iterable target_iterable : list pyval)
         (execute_callable_class : ParallelBiFlow.execute_callable_class)
         (overwrite_result_container : bool)
         (w : flow_state * Pool),
    train fuel data_iterables msg_iterables stop_messages
          ParallelBiFlow.NoScheduler (Some train_callable_class)
          overwrite_result_container w
    = (Raise (ParallelBiFlowException
                (if ParallelBiFlow.is_parallel_training (fst w)
                 then ParallelBiFlow.err_underway
                 else ParallelBiFlow.err_train_class_without_scheduler)),
       w)
    /\ execute fuel iterable msg_iterable target_iterable None
               (Some execute_callable_class) overwrite_result_container w
       = (Raise (ParallelBiFlowException
                   (if ParallelBiFlow.is_parallel_training (fst w)
                    then ParallelBiFlow.err_underway
                    else ParallelBiFlow.err_execute_class_without_scheduler)),
          w).
Proof.
  intros fuel d m st tcc it mit tit ecc ow [s p].
  unfold ParallelBiFlow.train, ParallelBiFlow.execute,
    ParallelBiFlow.on_flow.
  unfold_monad. simpl.
  destruct (ParallelBiFlow.is_parallel_training s); split; reflexivity.
Qed.
End TrainFacts.

Lemma C7_witness :
  ParallelBiFlow.is_parallel_training
    (ParallelBiFlow.self Counting.ready_frame) = true
  /\ fst (ParallelBiFlow.train_phases Counting.counting_get_message 5 true
                                      Counting.ready_frame)
     = Raise (PyException ParallelBiFlow.err_no_results).
Proof.
  split; [reflexivity|].
  pose (f1 := snd (ParallelBiFlow.submit_tasks 4 Counting.ready_frame)).
  pose (p' := snd (ParallelBiFlow.get_results tt (ParallelBiFlow.pool f1))).
  assert (Hsubmit : ParallelBiFlow.submit_tasks 4 Counting.ready_frame
                    = (Ok tt, f1)) by (vm_compute; reflexivity).
  assert (Hsched : ParallelBiFlow.scheduler f1
                   = ParallelBiFlow.RefScheduler tt)
    by (vm_compute; reflexivity).
  assert (Hresults : ParallelBiFlow.get_results tt (ParallelBiFlow.pool f1)
                     = ([], p')) by (vm_compute; reflexivity).
  rewrite (@C7_empty_batch_aborts
             Counting.flow Counting.counting_node Counting.pool unit Counting.counting_scheduler
             Counting.counting_get_message 4 true Counting.ready_frame f1 tt p'
             eq_refl Hsubmit Hsched Hresults).
  reflexivity.
Defined.

Lemma C8_witness :
  ParallelBiFlow.is_parallel_training Counting.example_state = true
  /\ ParallelBiFlow.train Counting.counting_BiFlow_train Counting.counting_get_message 5
       Counting.chunks Counting.no_messages None (ParallelBiFlow.OneScheduler tt)
       None true (Counting.example_state, Counting.working_pool)
     = (Raise (ParallelBiFlowException ParallelBiFlow.err_underway),
        (Counting.example_state, Counting.working_pool)).
Proof.
  split; [reflexivity|].
  exact (proj1 (@C8_reentrant_calls_rejected
                  Counting.flow Counting.counting_node Counting.pool unit Counting.counting_scheduler
                  Counting.counting_BiFlow_train Counting.counting_BiFlow_execute
                  Counting.counting_get_message 5 Counting.chunks Counting.no_messages None
                  (ParallelBiFlow.OneScheduler tt) None [] [] [] None None
                  true (Counting.example_state, Counting.working_pool) eq_refl)).
Defined.

(** ** The quadratic expansion node *)

Section ExpansionFacts.
Variable R : Type.
Variable rzero : R.
Variable rmul : R -> R -> R.
Variable comb : nat -> nat -> nat.

Local Abbreviation Quadratic := (Expansion.QuadraticExpansionNode comb).
Local Abbreviation Polynomial := (Expansion.PolynomialExpansionNode comb).
Local Abbreviation execute := (Expansion._execute rzero rmul comb).

(** C10.  A [QuadraticExpansionNode] and a [PolynomialExpansionNode] built
    with degree [2] differ in their class only: they hold the same
    attributes, answer every method alike and, for every input array,
    [_execute] gives the same output (or the same exception), also after
    the input dimension was set later. *)
Theorem C10_quadratic_is_polynomial_of_degree_2 :
  forall (input_dim : option nat) (dtype : option string)
         (x : Expansion.ndarray R),
    fst (execute x (Quadratic input_dim dtype))
    = fst (execute x (Polynomial 2 input_dim dtype))
    /\ (forall n : nat,
           fst (execute x (Expansion._set_input_dim comb n
                                                    (Quadratic input_dim dtype)))
           = fst (execute x (Expansion._set_input_dim
                               comb n (Polynomial 2 input_dim dtype))))
    /\ Expansion._degree (Quadratic input_dim dtype) = 2
    /\ Expansion._degree (Polynomial 2 input_dim dtype) = 2
    /\ Expansion._input_dim (Quadratic input_dim dtype)
       = Expansion._input_dim (Polynomial 2 input_dim dtype)
    /\ Expansion._output_dim (Quadratic input_dim dtype)
       = Expansion._output_dim (Polynomial 2 input_dim dtype)
    /\ Expansion._dtype (Quadratic input_dim dtype)
       = Expansion._dtype (Polynomial 2 input_dim dtype)
    /\ (forall dim : nat,
           Expansion.expanded_dim_method comb dim (Quadratic input_dim dtype)
           = Expansion.expanded_dim_method comb dim
                                           (Polynomial 2 input_dim dtype))
    /\ Expansion.is_trainable (Quadratic input_dim dtype)
       = Expansion.is_trainable (Polynomial 2 input_dim dtype)
    /\ Expansion.is_invertible (Quadratic input_dim dtype)
       = Expansion.is_invertible (Polynomial 2 input_dim dtype).
Proof.
  intros input_dim dtype x.
  unfold Expansion.QuadraticExpansionNode, Expansion.PolynomialExpansionNode,
    Expansion.PolynomialExpansionNode___init__, Expansion.Node___init__.
  unfold Expansion._execute, Expansion._set_input_dim,
    Expansion.expanded_dim_method.
  destruct input_dim as [n|]; repeat split; intros;
    cbn [Expansion.__class__ Expansion._degree Expansion._input_dim
         Expansion._output_dim Expansion._dtype];
    reflexivity.
Qed.
End ExpansionFacts.

(** The quadratic expansion of two samples with three variables: the
    variables, then the products [x_i * x_j] for [i <= j]. *)
Example quadratic_expansion_example :
  fst (Expansion._execute 0%Z Z.mul Expansion.binomial
         (Expansion.mk_array 3 [[2; 3; 5]; [1; 0; 7]]%Z)
         (Expansion.QuadraticExpansionNode Expansion.binomial (Some 3) None))
  = Ok (Expansion.mk_array 9 [[2; 3; 5; 4; 6; 10; 9; 15; 25];
                              [1; 0; 7; 1; 0; 7; 0; 0; 49]]%Z).
Proof. vm_compute. reflexivity. Qed.

(** A run of the training callable with one redirection, and a run that
    ends in a routing failure. *)
Example train_callable_redirect_example :
  BiFlowTrainCallable.__call__ 5 true
    (PyArray [[1%Z]], PyTuple [PyArray [[2%Z]]; PyDict []; PyNone; PyNone])
    Counting.fresh_flow
  = (Ok (Counting.mk_flow [Counting.mk_unit 2 0 true] 2 1 true []),
     Counting.mk_flow [Counting.mk_unit 2 0 true] 2 1 true []).
Proof. reflexivity. Qed.

Example train_callable_malformed_example :
  fst (BiFlowTrainCallable.__call__ 5 true
         (PyArray [[1%Z]], PyTuple [PyArray [[2%Z]]; PyNone]) Counting.fresh_flow)
  = Raise (BiFlowException BiFlowTrainCallable.err_target_not_found
             (Some (TupleResult [PyArray [[2%Z]]; PyNone]))).
Proof. reflexivity. Qed.

(** The same training on a pool that loses the results of its tasks. *)
Example lossy_training_example :
  fst (ParallelBiFlow.train Counting.counting_BiFlow_train Counting.counting_get_message 6
         Counting.chunks Counting.no_messages None (ParallelBiFlow.OneScheduler tt)
         None true (ParallelBiFlow.__init__ Counting.fresh_flow, Counting.lossy_pool))
  = Raise (PyException ParallelBiFlow.err_no_results).
Proof. vm_compute. reflexivity. Qed.

(** A whole parallel training of a unit with two phases on three chunks:
    every chunk is seen twice, and the cursor ends unset. *)
Example parallel_training_example :
  let r := ParallelBiFlow.train Counting.counting_BiFlow_train Counting.counting_get_message 6
             Counting.chunks Counting.no_messages None (ParallelBiFlow.OneScheduler tt)
             None true
             (ParallelBiFlow.__init__ Counting.fresh_flow, Counting.working_pool) in
  fst r = Ok tt
  /\ Counting.samples (ParallelBiFlow._flownode (fst (snd r))) = 6
  /\ ParallelBiFlow._i_train_node (fst (snd r)) = None.
Proof. vm_compute. repeat split. Qed.

(** * Further properties *)

(** ** The result containers *)

Section ContainerFacts.
Context {Node : Type} `{BiFlowNode Node}.

Lemma train_add_all_accumulates (results : list (Node * nat)) :
  forall c : BiFlowTrainResultContainer.t,
    BiFlowTrainResultContainer._biflownode (TrainDrainSpec.add_all results c)
    = fold_left (fun (acc : option Node) (forked : Node) =>
                   match acc with
                   | None => Some forked
                   | Some a => Some (join forked a)
                   end)
                (map fst results) (BiFlowTrainResultContainer._biflownode c).
Proof.
  induction results as [|[forked i] results IH]; intros c; simpl.
  - reflexivity.
  - unfold TrainDrainSpec.add_all in *. simpl. rewrite IH.
    unfold BiFlowTrainResultContainer.add_result.
    destruct (BiFlowTrainResultContainer._biflownode c); reflexivity.
Qed.

(** X1.  Draining the training container after any results were added to a
    new one gives a list of exactly one element, the join of all results in
    arrival order ([None] when nothing was added), and leaves the container
    as new: the task indices play no part. *)
Theorem X1_train_container_drains_the_join :
  forall results : list (Node * nat),
    BiFlowTrainResultContainer.get_results
      (TrainDrainSpec.add_all results BiFlowTrainResultContainer.__init__)
    = ([DrainSpec.join_all (map fst results)],
       BiFlowTrainResultContainer.__init__).
Proof.
  intros results. unfold BiFlowTrainResultContainer.get_results.
  rewrite train_add_all_accumulates. simpl.
  now rewrite accumulate_is_join_all.
Qed.


(** X3.  Draining does not clear the snapshot accumulator.  When a container
    that was filled and drained once is filled and drained again, the first
    slot of the second batch holds the join of the forked snapshots of both
    rounds, while the execute results are those of the second round only. *)
Theorem X3_reused_container_keeps_snapshot :
  forall first_round second_round : list DrainSpec.arrival,
    let drained_once :=
      snd (OrderedBiExecuteResultContainer.get_results
             (DrainSpec.add_all first_round
                                OrderedBiExecuteResultContainer.__init__)) in
    let second_batch :=
      fst (OrderedBiExecuteResultContainer.get_results
             (DrainSpec.add_all second_round drained_once)) in
    map snd second_batch
    = DrainSpec.snapshot_slots
        (DrainSpec.join_all
           (DrainSpec.forked_units (first_round ++ second_round)))
        (length second_round)
    /\ map fst second_batch = map fst (DrainSpec.drain second_round).
Proof.
  intros first_round second_round drained_once second_batch.
  subst second_batch drained_once.
  unfold OrderedBiExecuteResultContainer.get_results,
         OrderedResultContainer.get_results.
  cbn [fst snd].
  rewrite !add_all_results, !add_all_biflownode.
  cbn [OrderedBiExecuteResultContainer._results
       OrderedBiExecuteResultContainer._biflownode
       OrderedBiExecuteResultContainer.__init__ app].
  split.
  - rewrite map_snd_combine, length_map.
    rewrite (Permutation_length (sort_by_index_perm _)), length_map.
    rewrite <- fold_left_app.
    unfold DrainSpec.forked_units at 1 2. rewrite <- flat_map_app.
    fold (DrainSpec.forked_units (first_round ++ second_round)).
    rewrite accumulate_is_join_all.
    destruct second_round as [|a rest]; simpl; [reflexivity|].
    now rewrite Nat.sub_0_r, firstn_repeat.
  - rewrite drain_results.
    apply map_fst_combine. simpl. rewrite repeat_length. lia.
Qed.
End ContainerFacts.

(** ** Reassembly of execution results, in general *)

Section ReassemblyFacts.
Context {Node : Type} `{BiFlowNode Node}.
Variable get_message : list pyval -> pyval.

Local Abbreviation flow_state := (ParallelBiFlow.t (Node := Node)).
Local Abbreviation present :=
  (fun r : pyval * option Node => is_None (ExecuteSpec.y_of (fst r)) = false).
Local Abbreviation absent :=
  (fun r : pyval * option Node => is_None (ExecuteSpec.y_of (fst r)) = true).
Local Abbreviation mismatch :=
  (@Raise (option (list pyval) * list pyval)
          (BiFlowException ParallelBiFlow.err_some_y_None None)).

(** One turn of the loop over the results. *)
Lemma consolidate_cons (result : pyval) (forked : option Node)
      (rest : list ParallelBiFlow.task_result)
      (acc : option (list pyval)) (msgs : list pyval) (s : flow_state) :
  ParallelBiFlow.consolidate
    (ParallelBiFlow.ExecuteResult result forked :: rest) acc msgs s
  = let s' := match forked with
              | Some f => ParallelBiFlow.set_flownode
                            (join f (ParallelBiFlow._flownode s)) s
              | None => s
              end in
    if is_None (ExecuteSpec.y_of result) then
      ParallelBiFlow.consolidate rest None
                                 (msgs ++ ExecuteSpec.msg_of result) s'
    else
      match acc with
      | Some ys =>
          ParallelBiFlow.consolidate rest
            (Some (ys ++ [ExecuteSpec.y_of result]))
            (msgs ++ ExecuteSpec.msg_of result) s'
      | None => (mismatch, s)
      end.
Proof.
  cbn [ParallelBiFlow.consolidate].
  assert (Hsplit :
            (match result with
             | PyTuple [y; msg] => (y, msgs ++ [msg])
             | _ => (result, msgs)
             end)
            = (ExecuteSpec.y_of result, msgs ++ ExecuteSpec.msg_of result)).
  { destruct result as [| |?|[|y [|msg [|? ?]]]]; simpl;
      now rewrite ?app_nil_r. }
  rewrite Hsplit.
  destruct (is_None (ExecuteSpec.y_of result)); cbn [negb].
  - unfold bind at 1. unfold ret at 1. unfold bind at 1.
    destruct forked as [f|]; reflexivity.
  - destruct acc as [ys|].
    + unfold bind at 1. unfold ret at 1. unfold bind at 1.
      destruct forked as [f|]; reflexivity.
    + reflexivity.
Qed.

Lemma set_flownode_twice (a b : Node) (s : flow_state) :
  ParallelBiFlow.set_flownode a (ParallelBiFlow.set_flownode b s)
  = ParallelBiFlow.set_flownode a s.
Proof. reflexivity. Qed.

Lemma join_returned_cons (r : pyval * option Node)
      (rs : list (pyval * option Node)) (s : flow_state) :
  ParallelBiFlow.set_flownode
    (ExecuteSpec.join_returned
       rs (ParallelBiFlow._flownode
             match snd r with
             | Some f => ParallelBiFlow.set_flownode
                           (join f (ParallelBiFlow._flownode s)) s
             | None => s
             end))
    match snd r with
    | Some f => ParallelBiFlow.set_flownode
                  (join f (ParallelBiFlow._flownode s)) s
    | None => s
    end
  = ParallelBiFlow.set_flownode
      (ExecuteSpec.join_returned (r :: rs) (ParallelBiFlow._flownode s)) s.
Proof. destruct r as [result [f|]]; destruct s; reflexivity. Qed.


Lemma consolidate_absent (rs : list (pyval * option Node)) :
  forall (msgs : list pyval) (s : flow_state),
    Forall absent rs ->
    ParallelBiFlow.consolidate (ExecuteSpec.exec_results rs) None msgs s
    = (Ok (None, msgs ++ flat_map (fun r => ExecuteSpec.msg_of (fst r)) rs),
       ParallelBiFlow.set_flownode
         (ExecuteSpec.join_returned rs (ParallelBiFlow._flownode s)) s).
Proof.
  induction rs as [|[result forked] rs IH]; intros msgs s Hall.
  - simpl. unfold ret. now rewrite !app_nil_r, set_flownode_same.
  - inversion Hall as [|r rs' Hy Hrest]; subst. cbn [fst] in Hy.
    cbn [ExecuteSpec.exec_results map fst snd].
    rewrite consolidate_cons. cbv zeta. rewrite Hy.
    fold (ExecuteSpec.exec_results rs). rewrite IH by exact Hrest.
    f_equal.
    + cbn [map flat_map fst]. now rewrite <- !app_assoc.
    + apply (join_returned_cons (result, forked)).
Qed.

(** Once a [y] was [None], a later [y] that is present is a mismatch. *)
Lemma consolidate_present_after_None (rs : list (pyval * option Node)) :
  forall (msgs : list pyval) (s : flow_state),
    Exists present rs ->
    fst (ParallelBiFlow.consolidate (ExecuteSpec.exec_results rs) None msgs s)
    = mismatch.
Proof.
  induction rs as [|[result forked] rs IH]; intros msgs s Hex.
  - inversion Hex.
  - cbn [ExecuteSpec.exec_results map fst snd].
    rewrite consolidate_cons. cbv zeta.
    destruct (is_None (ExecuteSpec.y_of result)) eqn:Hy; [|reflexivity].
    apply IH. inversion Hex as [r rs' Hp|r rs' Hp]; subst; [|exact Hp].
    cbn [fst] in Hp. congruence.
Qed.

Lemma consolidate_mismatch (pre : list (pyval * option Node)) :
  forall (acc : option (list pyval)) (msgs : list pyval) (s : flow_state)
         (rn : pyval * option Node) (rest : list (pyval * option Node)),
    absent rn ->
    Exists present rest ->
    fst (ParallelBiFlow.consolidate
           (ExecuteSpec.exec_results (pre ++ rn :: rest)) acc msgs s)
    = mismatch.
Proof.
  induction pre as [|[result forked] pre IH];
    intros acc msgs s [rnone fnone] rest Hn Hex.
  - cbn [app ExecuteSpec.exec_results map fst snd].
    rewrite consolidate_cons. cbv zeta. cbn [fst] in Hn. rewrite Hn.
    now apply consolidate_present_after_None.
  - cbn [app ExecuteSpec.exec_results map fst snd].
    rewrite consolidate_cons. cbv zeta.
    fold (ExecuteSpec.exec_results (pre ++ (rnone, fnone) :: rest)).
    destruct (is_None (ExecuteSpec.y_of result)).
    + now apply IH.
    + destruct acc as [ys|]; [now apply IH|reflexivity].
Qed.

(** The head of [use_results] in a flow that is executing, not training. *)
Lemma use_results_executing (fuel : nat)
      (results : list ParallelBiFlow.task_result) (s : flow_state) :
  ParallelBiFlow.is_parallel_training s = false ->
  ParallelBiFlow.is_parallel_executing s = true ->
  ParallelBiFlow.use_results get_message fuel results s
  = match ParallelBiFlow.consolidate
            results (Some []) []
            (ParallelBiFlow.set_exec_iterators None None None s) with
    | (Ok (Some ys, msgs), s') =>
        match numx_concatenate ys with
        | Ok y => (Ok (PyTuple [y; get_message msgs]), s')
        | Raise e => (Raise e, s')
        | OutOfFuel => (OutOfFuel, s')
        end
    | (Ok (None, msgs), s') => (Ok (PyTuple [PyNone; get_message msgs]), s')
    | (Raise e, s') => (Raise e, s')
    | (OutOfFuel, s') => (OutOfFuel, s')
    end.
Proof.
  intros Htraining Hexecuting. unfold ParallelBiFlow.use_results.
  unfold bind at 1. unfold gets at 1.
  unfold bind at 1. unfold gets at 1.
  rewrite Htraining, Hexecuting.
  unfold bind at 1. unfold modify at 1. unfold bind at 1.
  destruct (ParallelBiFlow.consolidate
              results (Some []) []
              (ParallelBiFlow.set_exec_iterators None None None s))
    as [[[[ys|] msgs]|e|] s']; reflexivity.
Qed.


(** X5.  In a flow that is executing, a task whose [y] is [None] that is
    followed, anywhere later, by a task whose [y] is present makes
    [use_results] raise [BiFlowException] "Some but not all y return values
    were None.", whatever the other results are. *)
Theorem X5_None_before_present_is_rejected :
  forall (fuel : nat) (s : flow_state)
         (pre rest : list (pyval * option Node)) (rn : pyval * option Node),
    ParallelBiFlow.is_parallel_training s = false ->
    ParallelBiFlow.is_parallel_executing s = true ->
    is_None (ExecuteSpec.y_of (fst rn)) = true ->
    Exists (fun r => is_None (ExecuteSpec.y_of (fst r)) = false) rest ->
    fst (ParallelBiFlow.use_results get_message fuel
           (ExecuteSpec.exec_results (pre ++ rn :: rest)) s)
    = Raise (BiFlowException ParallelBiFlow.err_some_y_None None).
Proof.
  intros fuel s pre rest rn Htraining Hexecuting Hn Hex.
  rewrite use_results_executing by assumption.
  pose proof (consolidate_mismatch pre (Some []) []
                (ParallelBiFlow.set_exec_iterators None None None s)
                Hn Hex) as Hmis.
  destruct (ParallelBiFlow.consolidate
              (ExecuteSpec.exec_results (pre ++ rn :: rest)) (Some []) []
              (ParallelBiFlow.set_exec_iterators None None None s))
    as [[[[ys|] msgs]|e|] s']; simpl in Hmis; try discriminate.
  simpl. congruence.
Qed.

(** X6.  In a flow that is executing, when the tasks whose [y] is present
    all come before the tasks whose [y] is [None], and there is at least
    one of the latter, [use_results] raises nothing: it returns [None] for
    [y] (the [y]s collected so far are dropped), with the merged message,
    and still joins every forked unit that came back. *)
Theorem X6_trailing_None_drops_collected_results :
  forall (fuel : nat) (s : flow_state)
         (with_y without_y : list (pyval * option Node)),
    ParallelBiFlow.is_parallel_training s = false ->
    ParallelBiFlow.is_parallel_executing s = true ->
    Forall (fun r => is_None (ExecuteSpec.y_of (fst r)) = false) with_y ->
    Forall (fun r => is_None (ExecuteSpec.y_of (fst r)) = true) without_y ->
    without_y <> [] ->
    ParallelBiFlow.use_results get_message fuel
      (ExecuteSpec.exec_results (with_y ++ without_y)) s
    = (Ok (PyTuple
             [PyNone;
              get_message
                (flat_map (fun r => ExecuteSpec.msg_of (fst r))
                          (with_y ++ without_y))]),
       ParallelBiFlow.set_flownode
         (ExecuteSpec.join_returned (with_y ++ without_y)
                                    (ParallelBiFlow._flownode s))
         (ParallelBiFlow.set_exec_iterators None None None s)).
Proof.
  intros fuel s with_y without_y Htraining Hexecuting Hwith Hwithout Hne.
  rewrite use_results_executing by assumption.
  assert (Hgen : forall (pre : list (pyval * option Node)) acc msgs s0,
             Forall present pre ->
             ParallelBiFlow.consolidate
               (ExecuteSpec.exec_results (pre ++ without_y)) (Some acc) msgs s0
             = (Ok (None,
                    msgs ++ flat_map (fun r => ExecuteSpec.msg_of (fst r))
                                     (pre ++ without_y)),
                ParallelBiFlow.set_flownode
                  (ExecuteSpec.join_returned (pre ++ without_y)
                                             (ParallelBiFlow._flownode s0))
                  s0)).
  { induction pre as [|[result forked] pre IH]; intros acc msgs s0 Hpre.
    - cbn [app]. destruct without_y as [|[rnone fnone] rest]; [congruence|].
      inversion Hwithout as [|r l Hy Hrest]; subst. cbn [fst] in Hy.
      cbn [ExecuteSpec.exec_results map fst snd].
      rewrite consolidate_cons. cbv zeta. rewrite Hy.
      fold (ExecuteSpec.exec_results rest).
      rewrite consolidate_absent by exact Hrest.
      f_equal.
      + cbn [flat_map fst]. now rewrite <- app_assoc.
      + apply (join_returned_cons (rnone, fnone)).
    - inversion Hpre as [|r l Hy Hrest]; subst. cbn [fst] in Hy.
      cbn [app ExecuteSpec.exec_results map fst snd].
      rewrite consolidate_cons. cbv zeta. rewrite Hy.
      fold (ExecuteSpec.exec_results (pre ++ without_y)).
      rewrite IH by exact Hrest.
      f_equal.
      + cbn [flat_map fst]. now rewrite <- app_assoc.
      + apply (join_returned_cons (result, forked)). }
  rewrite Hgen by exact Hwith. reflexivity.
Qed.

Lemma consolidate_touches_flownode_only
      (results : list ParallelBiFlow.task_result) :
  forall acc msgs (s : flow_state),
  exists node',
    snd (ParallelBiFlow.consolidate results acc msgs s)
    = ParallelBiFlow.set_flownode node' s.
Proof.
  induction results as [|[forked|result forked] results IH];
    intros acc msgs s.
  - exists (ParallelBiFlow._flownode s). simpl. now rewrite set_flownode_same.
  - exists (ParallelBiFlow._flownode s). simpl. now rewrite set_flownode_same.
  - rewrite consolidate_cons. cbv zeta.
    destruct (is_None (ExecuteSpec.y_of result)).
    + destruct (IH None (msgs ++ ExecuteSpec.msg_of result)
                   match forked with
                   | Some f => ParallelBiFlow.set_flownode
                                 (join f (ParallelBiFlow._flownode s)) s
                   | None => s
                   end) as [node' Hnode].
      exists node'. rewrite Hnode. destruct forked; reflexivity.
    + destruct acc as [ys|].
      * destruct (IH (Some (ys ++ [ExecuteSpec.y_of result]))
                     (msgs ++ ExecuteSpec.msg_of result)
                     match forked with
                     | Some f => ParallelBiFlow.set_flownode
                                   (join f (ParallelBiFlow._flownode s)) s
                     | None => s
                     end) as [node' Hnode].
        exists node'. rewrite Hnode. destruct forked; reflexivity.
      * exists (ParallelBiFlow._flownode s). simpl.
        now rewrite set_flownode_same.
Qed.

(** X7.  The results of an execution can be used once.  In a flow that is
    not training, whatever a first call of [use_results] did (returned,
    or raised), a second call raises [BiFlowException] "It seems that
    there are no results to retrieve." *)
Theorem X7_results_are_used_once :
  forall (fuel fuel' : nat) (s : flow_state)
         (results results' : list ParallelBiFlow.task_result),
    ParallelBiFlow.is_parallel_training s = false ->
    fst (ParallelBiFlow.use_results get_message fuel' results'
           (snd (ParallelBiFlow.use_results get_message fuel results s)))
    = Raise (BiFlowException
               "It seems that there are no results to retrieve." None).
Proof.
  intros fuel fuel' s results results' Htraining.
  assert (Hidle : forall s0 : flow_state,
             ParallelBiFlow.is_parallel_training s0 = false ->
             ParallelBiFlow.is_parallel_executing s0 = false ->
             fst (ParallelBiFlow.use_results get_message fuel' results' s0)
             = Raise (BiFlowException
                        "It seems that there are no results to retrieve."
                        None)).
  { intros s0 Ht He. unfold ParallelBiFlow.use_results.
    unfold bind at 1. unfold gets at 1.
    unfold bind at 1. unfold gets at 1. now rewrite Ht, He. }
  destruct (ParallelBiFlow.is_parallel_executing s) eqn:Hexecuting.
  - rewrite (use_results_executing fuel results s Htraining Hexecuting).
    destruct (consolidate_touches_flownode_only
                results (Some []) []
                (ParallelBiFlow.set_exec_iterators None None None s))
      as [node' Hnode].
    destruct (ParallelBiFlow.consolidate
                results (Some []) []
                (ParallelBiFlow.set_exec_iterators None None None s))
      as [[[[ys|] msgs]|e|] s'] eqn:Hcons; cbn [snd] in Hnode; subst s';
      try destruct (numx_concatenate ys); cbn [snd];
      (apply Hidle; [exact Htraining|reflexivity]).
  - assert (Hsame : snd (ParallelBiFlow.use_results get_message fuel results s)
                    = s).
    { unfold ParallelBiFlow.use_results.
      unfold bind at 1. unfold gets at 1.
      unfold bind at 1. unfold gets at 1.
      now rewrite Htraining, Hexecuting. }
    rewrite Hsame. now apply Hidle.
Qed.
End ReassemblyFacts.


Lemma X5_witness :
  fst (ParallelBiFlow.use_results Counting.counting_get_message 1
         (ExecuteSpec.exec_results
            (CountingStates.present_results
             ++ (PyNone, None) :: CountingStates.present_results))
         CountingStates.executing_state)
  = Raise (BiFlowException ParallelBiFlow.err_some_y_None None).
Proof.
  assert (Hlater : Exists
                     (fun r : pyval * option Counting.flow =>
                        is_None (ExecuteSpec.y_of (fst r)) = false)
                     CountingStates.present_results)
    by (apply Exists_cons_hd; reflexivity).
  exact (@X5_None_before_present_is_rejected
           Counting.flow Counting.counting_node
           Counting.counting_get_message 1 CountingStates.executing_state
           CountingStates.present_results CountingStates.present_results
           (PyNone, None) eq_refl eq_refl eq_refl Hlater).
Defined.

Lemma X6_witness :
  ParallelBiFlow.use_results Counting.counting_get_message 1
    (ExecuteSpec.exec_results
       (CountingStates.present_results ++ CountingStates.absent_results))
    CountingStates.executing_state
  = (Ok (PyTuple [PyNone; PyTuple [PyDict []; PyDict []]]),
     ParallelBiFlow.__init__
       (Counting.mk_flow [Counting.mk_unit 2 0 true] 6 0 false [])).
Proof.
  assert (Hwith : Forall
                    (fun r : pyval * option Counting.flow =>
                       is_None (ExecuteSpec.y_of (fst r)) = false)
                    CountingStates.present_results)
    by (repeat constructor).
  assert (Hwithout : Forall
                       (fun r : pyval * option Counting.flow =>
                          is_None (ExecuteSpec.y_of (fst r)) = true)
                       CountingStates.absent_results)
    by (repeat constructor).
  assert (Hne : CountingStates.absent_results <> []) by discriminate.
  rewrite (@X6_trailing_None_drops_collected_results
             Counting.flow Counting.counting_node
             Counting.counting_get_message 1 CountingStates.executing_state
             CountingStates.present_results CountingStates.absent_results
             eq_refl eq_refl Hwith Hwithout Hne).
  reflexivity.
Defined.

Lemma X7_witness :
  ParallelBiFlow.is_parallel_training CountingStates.executing_state = false
  /\ fst (ParallelBiFlow.use_results Counting.counting_get_message 1
            (ExecuteSpec.exec_results CountingStates.present_results)
            (snd (ParallelBiFlow.use_results Counting.counting_get_message 1
                    (ExecuteSpec.exec_results CountingStates.present_results)
                    CountingStates.executing_state)))
     = Raise (BiFlowException
                "It seems that there are no results to retrieve." None).
Proof.
  split; [reflexivity|].
  exact (@X7_results_are_used_once
           Counting.flow Counting.counting_node
           Counting.counting_get_message 1 1 CountingStates.executing_state
           (ExecuteSpec.exec_results CountingStates.present_results)
           (ExecuteSpec.exec_results CountingStates.present_results)
           eq_refl).
Defined.

(** ** The search for the next training phase *)

Section MonadFacts.
Context {S A B : Type}.

Lemma bind_Ok (m : M S A) (k : A -> M S B) (s s' : S) (b : B) :
  bind m k s = (Ok b, s') ->
  exists a s1, m s = (Ok a, s1) /\ k a s1 = (Ok b, s').
Proof.
  unfold bind. destruct (m s) as [[a|e|] s1]; intros Hrun;
    try discriminate.
  now exists a, s1.
Qed.
End MonadFacts.

Section NextPhaseFacts.
Context {Node : Type} `{BiFlowNode Node}.

Local Abbreviation flow_state := (ParallelBiFlow.t (Node := Node)).

Lemma skip_trained_units (k : nat) :
  forall (s : flow_state) (i fuel : nat),
    ParallelBiFlow._i_train_node s = Some i ->
    flow_len (ParallelBiFlow._flownode s) <= i + k ->
    (forall j, i <= j -> j < flow_len (ParallelBiFlow._flownode s) ->
               flow_is_training (ParallelBiFlow._flownode s) j = false) ->
    k < fuel ->
    ParallelBiFlow._next_train_phase fuel s
    = (Ok tt, ParallelBiFlow.set_i_train_node None s).
Proof.
  induction k as [|k IH]; intros s i fuel Hcursor Hlen Hdone Hfuel;
    (destruct fuel as [|fuel]; [lia|]);
    cbn [ParallelBiFlow._next_train_phase];
    unfold ParallelBiFlow.i_train_node at 1;
    unfold bind at 1; unfold bind at 1; unfold gets at 1; rewrite Hcursor;
    unfold ret at 1; unfold bind at 1; unfold gets at 1.
  - assert (Hout : (i <? flow_len (ParallelBiFlow._flownode s)) = false)
      by (apply Nat.ltb_ge; lia).
    rewrite Hout. reflexivity.
  - destruct (i <? flow_len (ParallelBiFlow._flownode s)) eqn:Hin;
      [|reflexivity].
    apply Nat.ltb_lt in Hin.
    rewrite (Hdone i (le_n i) Hin). cbn [negb].
    unfold bind at 1. unfold modify at 1.
    rewrite (IH (ParallelBiFlow.set_i_train_node (Some (i + 1)) s)
                (i + 1) fuel).
    + reflexivity.
    + reflexivity.
    + cbn. lia.
    + intros j Hj Hjlen. apply Hdone; [lia|exact Hjlen].
    + lia.
Qed.

(** X8.  When no unit from the cursor on is training, the search for the
    next phase ends the training: with more fuel than there are units left
    it returns with the cursor unset, and changes nothing else; no fork is
    tried and no iterator is opened. *)
Theorem X8_no_trainable_unit_ends_training :
  forall (s : flow_state) (i fuel : nat),
    ParallelBiFlow._i_train_node s = Some i ->
    (forall j, i <= j -> j < flow_len (ParallelBiFlow._flownode s) ->
               flow_is_training (ParallelBiFlow._flownode s) j = false) ->
    flow_len (ParallelBiFlow._flownode s) - i < fuel ->
    ParallelBiFlow._next_train_phase fuel s
    = (Ok tt, ParallelBiFlow.set_i_train_node None s).
Proof.
  intros s i fuel Hcursor Hdone Hfuel.
  apply skip_trained_units
    with (k := flow_len (ParallelBiFlow._flownode s) - i) (i := i);
    [exact Hcursor|lia|exact Hdone|exact Hfuel].
Qed.

(** What the [try] body leaves behind when it succeeds. *)
Lemma prepare_parallel_phase_Ok (iterable msg_iterable : list pyval)
      (s s' : flow_state) :
  ParallelBiFlow.prepare_parallel_phase iterable msg_iterable s
  = (Ok tt, s') ->
  exists x msg xs msgs cls forked,
    iterable = x :: xs /\ msg_iterable = msg :: msgs
    /\ fork (ParallelBiFlow._flownode s) = Some forked
    /\ ParallelBiFlow._train_callable_class s = Some cls
    /\ s' = ParallelBiFlow.set_next_task
              (Some (ParallelBiFlow.TrainData x msg,
                     Some (ParallelBiFlow.TrainCallable cls forked true)))
              (ParallelBiFlow.set_train_iterators (Some xs) (Some msgs) s).
Proof.
  unfold ParallelBiFlow.prepare_parallel_phase,
    ParallelBiFlow.fork_flownode, ParallelBiFlow._create_train_task,
    ParallelBiFlow.i_train_node, ParallelBiFlow.next.
  destruct s as [node d m st di mi ed em et cursor task cls ecls].
  unfold_monad. cbn -[Nat.eqb].
  destruct (fork node) as [forked|] eqn:Hfork; cbn -[Nat.eqb];
    [|discriminate].
  destruct iterable as [|x xs]; cbn -[Nat.eqb].
  - destruct cursor as [i|]; cbn -[Nat.eqb]; [|discriminate].
    destruct (flow_get_current_train_phase node i =? 1); discriminate.
  - destruct msg_iterable as [|msg msgs]; cbn -[Nat.eqb].
    + destruct cursor as [i|]; cbn -[Nat.eqb]; [|discriminate].
      destruct (flow_get_current_train_phase node i =? 1); discriminate.
    + rewrite Hfork. cbn. destruct cls as [cls|]; cbn; [|discriminate].
      intros Hrun. injection Hrun as <-.
      exists x, msg, xs, msgs, cls, forked. repeat split; reflexivity.
Qed.

(** X9.  Whenever the search for the next phase returns, the flow is ready:
    either the training is over (the cursor is unset), or the cursor is on
    a unit inside the flow that is training, the fork succeeded, the first
    data chunk and message of that unit's iterables are buffered as a task
    with a new callable on a fork (purging on), and the iterators hold the
    remaining chunks.  A phase that is underway has a task to hand out. *)
Theorem X9_next_phase_leaves_flow_ready :
  forall (fuel : nat) (s s' : flow_state),
    ParallelBiFlow._next_train_phase fuel s = (Ok tt, s') ->
    PhaseInvariant.ready s'.
Proof.
  induction fuel as [|fuel IH]; intros s s' Hrun.
  - discriminate.
  - cbn [ParallelBiFlow._next_train_phase] in Hrun.
    apply bind_Ok in Hrun. destruct Hrun as (i & s1 & Hi & Hrun).
    assert (Hs1 : s1 = s /\ ParallelBiFlow._i_train_node s = Some i).
    { unfold ParallelBiFlow.i_train_node in Hi. unfold_monad.
      destruct (ParallelBiFlow._i_train_node s); [|discriminate].
      injection Hi as -> ->. now split. }
    destruct Hs1 as [-> Hcursor].
    apply bind_Ok in Hrun. destruct Hrun as (node & s1 & Hnode & Hrun).
    unfold gets in Hnode. injection Hnode as <- <-.
    destruct (i <? flow_len (ParallelBiFlow._flownode s)) eqn:Hin.
    + destruct (flow_is_training (ParallelBiFlow._flownode s) i)
        eqn:Htraining; cbn [negb] in Hrun.
      * apply bind_Ok in Hrun. destruct Hrun as (d & s1 & Hd & Hrun).
        unfold gets in Hd. injection Hd as <- <-.
        apply bind_Ok in Hrun.
        destruct Hrun as (iterable & s1 & Hiterable & Hrun).
        unfold ParallelBiFlow.getitem in Hiterable.
        destruct (nth_error (ParallelBiFlow._train_data_iterables s) i)
          as [it|] eqn:Hdata; [|discriminate].
        unfold ret in Hiterable. injection Hiterable as -> <-.
        apply bind_Ok in Hrun. destruct Hrun as (m & s1 & Hm & Hrun).
        unfold gets in Hm. injection Hm as <- <-.
        apply bind_Ok in Hrun.
        destruct Hrun as (msg_iterable & s1 & Hmsgs & Hrun).
        unfold ParallelBiFlow.getitem in Hmsgs.
        destruct (nth_error (ParallelBiFlow._train_msg_iterables s) i)
          as [mit|] eqn:Hmsg; [|discriminate].
        unfold ret in Hmsgs. injection Hmsgs as -> <-.
        cbn [ParallelBiFlow._sanitize_iterables] in Hrun.
        apply bind_Ok in Hrun. destruct Hrun as (found & s1 & Htry & Hrun).
        destruct found.
        -- unfold ret in Hrun. injection Hrun as <-.
           unfold try_except in Htry.
           destruct ((ParallelBiFlow.prepare_parallel_phase iterable
                        msg_iterable;; ret true) s)
             as [[b|e|] s2] eqn:Hbody.
           ++ injection Htry as Hb Hs2.
              apply bind_Ok in Hbody.
              destruct Hbody as ([] & s3 & Hprep & Hret).
              unfold ret in Hret. injection Hret as Hb' Hs3.
              apply prepare_parallel_phase_Ok in Hprep.
              destruct Hprep as (x & msg & xs & msgs & cls & forked
                                 & Hit & Hmit & Hfork & Hcls & Hs').
              subst.
              apply Nat.ltb_lt in Hin.
              unfold PhaseInvariant.ready.
              destruct s as [node d0 m0 st di mi ed em et cursor task c ec].
              simpl in *. subst cursor. simpl.
              split; [exact Hin|]. split; [exact Htraining|].
              exists x, msg, xs, msgs, cls, forked.
              repeat split; assumption.
           ++ destruct (ParallelBiFlow.is_TrainingPhaseNotParallelException e);
                [|discriminate].
              apply bind_Ok in Htry. destruct Htry as (? & ? & _ & Htry).
              apply bind_Ok in Htry. destruct Htry as (? & ? & _ & Htry).
              apply bind_Ok in Htry. destruct Htry as (? & ? & _ & Htry).
              apply bind_Ok in Htry. destruct Htry as (? & ? & _ & Htry).
              discriminate.
           ++ discriminate.
        -- now apply IH in Hrun.
      * apply bind_Ok in Hrun. destruct Hrun as ([] & s1 & _ & Hrun).
        now apply IH in Hrun.
    + unfold modify in Hrun. injection Hrun as <-.
      unfold PhaseInvariant.ready. now destruct s.
Qed.
End NextPhaseFacts.

Lemma X8_witness :
  ParallelBiFlow._next_train_phase 3 CountingStates.trained_state
  = (Ok tt,
     ParallelBiFlow.set_i_train_node None CountingStates.trained_state).
Proof.
  assert (Hdone : forall j,
             0 <= j ->
             j < flow_len (ParallelBiFlow._flownode
                             CountingStates.trained_state) ->
             flow_is_training
               (ParallelBiFlow._flownode CountingStates.trained_state) j
             = false).
  { intros j _ Hj. change (j < 2) in Hj.
    destruct j as [|[|j]]; [reflexivity|reflexivity|lia]. }
  assert (Hfuel : flow_len (ParallelBiFlow._flownode
                              CountingStates.trained_state) - 0 < 3)
    by (vm_compute; lia).
  exact (@X8_no_trainable_unit_ends_training
           Counting.flow Counting.counting_node CountingStates.trained_state
           0 3 eq_refl Hdone Hfuel).
Defined.

Lemma X9_witness :
  fst (ParallelBiFlow._next_train_phase 2 Counting.example_state) = Ok tt
  /\ PhaseInvariant.ready
       (snd (ParallelBiFlow._next_train_phase 2 Counting.example_state)).
Proof.
  assert (Hrun : ParallelBiFlow._next_train_phase 2 Counting.example_state
                 = (Ok tt,
                    snd (ParallelBiFlow._next_train_phase
                           2 Counting.example_state)))
    by (vm_compute; reflexivity).
  split; [vm_compute; reflexivity|].
  exact (@X9_next_phase_leaves_flow_ready
           Counting.flow Counting.counting_node 2 Counting.example_state
           (snd (ParallelBiFlow._next_train_phase 2 Counting.example_state))
           Hrun).
Defined.

(** ** Handing the tasks of a phase to the scheduler *)

Section SubmitFacts.
Context {Node : Type} `{BiFlowNode Node}.
Context {Pool Handle : Type} `{ParallelBiFlow.Scheduler Node Pool Handle}.

Local Abbreviation flow_state := (ParallelBiFlow.t (Node := Node)).

Lemma submit_tasks_turn (fuel : nat) (f : ParallelBiFlow.frame) :
  ParallelBiFlow.submit_tasks (S fuel) f
  = (available <- ParallelBiFlow.on_self
                    (gets (@ParallelBiFlow.task_available Node)) ;;
     if available then
       task <- ParallelBiFlow.on_self ParallelBiFlow.get_task ;;
       current <- gets (@ParallelBiFlow.scheduler Node Pool Handle) ;;
       match current with
       | ParallelBiFlow.RefScheduler h =>
           ParallelBiFlow.on_pool (ParallelBiFlow.add_task h task) ;;
           ParallelBiFlow.submit_tasks fuel
       | _ => raise AttributeError
       end
     else ret tt) f.
Proof. reflexivity. Qed.

Lemma submit_training_tasks (xs : list pyval) :
  forall (msgs : list pyval) (first : ParallelBiFlow.task) (s : flow_state)
         (p : Pool) (h : Handle) (remaining : option (list (option Handle)))
         (last : option nat) (fuel : nat),
    ParallelBiFlow.is_parallel_training s = true ->
    ParallelBiFlow._next_task s = Some first ->
    ParallelBiFlow._train_data_iterator s = Some xs ->
    ParallelBiFlow._train_msg_iterator s = Some msgs ->
    length (combine xs msgs) + 1 < fuel ->
    exists xs' msgs',
      ParallelBiFlow.submit_tasks
        fuel (ParallelBiFlow.mk_frame s p (ParallelBiFlow.RefScheduler h)
                                      remaining last)
      = (Ok tt,
         ParallelBiFlow.mk_frame
           (ParallelBiFlow.set_next_task
              None
              (ParallelBiFlow.set_train_iterators (Some xs') (Some msgs') s))
           (fold_left (fun pool task => ParallelBiFlow.add_task h task pool)
                      (PhaseInvariant.train_tasks first xs msgs) p)
           (ParallelBiFlow.RefScheduler h) remaining last).
Proof.
  induction xs as [|x xs IH];
    intros msgs first s p h remaining last fuel
           Htraining Hfirst Hdata Hmsgs Hfuel;
    (destruct fuel as [|[|fuel]]; [simpl in Hfuel; lia|simpl in Hfuel; lia|]);
    destruct s as [node d m st di mi ed em et cursor task cls ecls];
    simpl in Htraining, Hfirst, Hdata, Hmsgs; subst;
    (destruct cursor as [i|]; [|discriminate]).
  - exists [], msgs. reflexivity.
  - destruct msgs as [|msg msgs].
    + exists xs, []. reflexivity.
    + destruct (IH msgs (ParallelBiFlow.TrainData x msg, None)
                   (ParallelBiFlow.mk
                      node d m st (Some xs) (Some msgs) ed em et (Some i)
                      (Some (ParallelBiFlow.TrainData x msg, None)) cls ecls)
                   (ParallelBiFlow.add_task h first p) h remaining last
                   (S fuel) eq_refl eq_refl eq_refl eq_refl)
        as (xs' & msgs' & Hrest).
      { simpl in Hfuel |- *. lia. }
      exists xs', msgs'.
      rewrite submit_tasks_turn.
      unfold ParallelBiFlow.on_self, ParallelBiFlow.on_pool,
        ParallelBiFlow.get_task, ParallelBiFlow._create_train_task,
        ParallelBiFlow.next.
      unfold_monad.
      cbv -[ParallelBiFlow.submit_tasks PhaseInvariant.train_tasks fold_left
            ParallelBiFlow.add_task].
      cbv -[ParallelBiFlow.submit_tasks PhaseInvariant.train_tasks fold_left
            ParallelBiFlow.add_task] in Hrest.
      rewrite Hrest. reflexivity.
Qed.

(** X10.  In a phase that is underway, with the first task buffered and the
    scheduler at hand, the submission loop ends (more fuel than tasks is
    enough) and hands the scheduler exactly the tasks of the phase, in
    order: the buffered task with its callable, then one task without
    callable for every further (data chunk, message) pair, as long as both
    iterators give one.  Afterwards no task is available; the units, the
    cursor and the scheduler variables are as before. *)
Theorem X10_submission_hands_out_every_chunk_once :
  forall (f : ParallelBiFlow.frame) (h : Handle)
         (first : ParallelBiFlow.task) (xs msgs : list pyval) (fuel : nat),
    ParallelBiFlow.is_parallel_training (ParallelBiFlow.self f) = true ->
    ParallelBiFlow._next_task (ParallelBiFlow.self f) = Some first ->
    ParallelBiFlow._train_data_iterator (ParallelBiFlow.self f) = Some xs ->
    ParallelBiFlow._train_msg_iterator (ParallelBiFlow.self f) = Some msgs ->
    ParallelBiFlow.scheduler f = ParallelBiFlow.RefScheduler h ->
    length (combine xs msgs) + 1 < fuel ->
    exists f',
      ParallelBiFlow.submit_tasks fuel f = (Ok tt, f')
      /\ ParallelBiFlow.pool f'
         = fold_left (fun pool task => ParallelBiFlow.add_task h task pool)
                     (PhaseInvariant.train_tasks first xs msgs)
                     (ParallelBiFlow.pool f)
      /\ ParallelBiFlow.task_available (ParallelBiFlow.self f') = false
      /\ ParallelBiFlow._flownode (ParallelBiFlow.self f')
         = ParallelBiFlow._flownode (ParallelBiFlow.self f)
      /\ ParallelBiFlow._i_train_node (ParallelBiFlow.self f')
         = ParallelBiFlow._i_train_node (ParallelBiFlow.self f)
      /\ ParallelBiFlow.scheduler f' = ParallelBiFlow.scheduler f
      /\ ParallelBiFlow.schedulers f' = ParallelBiFlow.schedulers f
      /\ ParallelBiFlow.last_trained_node f'
         = ParallelBiFlow.last_trained_node f.
Proof.
  intros [s p current remaining last] h first xs msgs fuel
         Htraining Hfirst Hdata Hmsgs Hsched Hfuel.
  simpl in *. subst current.
  destruct (@submit_training_tasks xs msgs first s p h remaining last fuel
              Htraining Hfirst Hdata Hmsgs Hfuel) as (xs' & msgs' & Hrun).
  eexists. split; [exact Hrun|].
  repeat split.
Qed.
End SubmitFacts.

Lemma X10_witness :
  exists f',
    ParallelBiFlow.submit_tasks 4 Counting.ready_frame = (Ok tt, f')
    /\ ParallelBiFlow.task_available (ParallelBiFlow.self f') = false.
Proof.
  pose (first := match ParallelBiFlow._next_task
                          (ParallelBiFlow.self Counting.ready_frame) with
                  | Some task => task
                  | None => (ParallelBiFlow.TrainData PyNone PyNone, None)
                  end).
  assert (Hfirst : ParallelBiFlow._next_task
                     (ParallelBiFlow.self Counting.ready_frame)
                   = Some first) by (vm_compute; reflexivity).
  assert (Hdata : ParallelBiFlow._train_data_iterator
                    (ParallelBiFlow.self Counting.ready_frame)
                  = Some [PyArray [[2%Z]]; PyArray [[3%Z]]])
    by (vm_compute; reflexivity).
  assert (Hmsgs : ParallelBiFlow._train_msg_iterator
                    (ParallelBiFlow.self Counting.ready_frame)
                  = Some [PyNone; PyNone]) by (vm_compute; reflexivity).
  assert (Hfuel : length (combine [PyArray [[2%Z]]; PyArray [[3%Z]]]
                                  [PyNone; PyNone]) + 1 < 4)
    by (vm_compute; lia).
  destruct (@X10_submission_hands_out_every_chunk_once
              Counting.flow Counting.pool unit Counting.counting_scheduler
              Counting.ready_frame tt first
              [PyArray [[2%Z]]; PyArray [[3%Z]]] [PyNone; PyNone] 4
              eq_refl Hfirst Hdata Hmsgs eq_refl Hfuel)
    as (f' & Hrun & _ & Hnone & _).
  exists f'. split; assumption.
Defined.

(** ** Setting up, and leaving, [train] and [execute] *)

Section SetupFacts.
Context {Node : Type} `{BiFlowNode Node}.

Local Abbreviation flow_state := (ParallelBiFlow.t (Node := Node)).

(** X11.  [setup_parallel_training] and [setup_parallel_execution], called
    while a parallel training is underway, raise [ParallelBiFlowException];
    but the bidirectional buffers of the flow are reset before the test, so
    the rejected call has changed the units. *)
Theorem X11_setup_rejects_after_reset :
  forall (fuel : nat) (data_iterables msg_iterables : list (list pyval))
         (stop_messages : option (list pyval))
         (train_callable_class : ParallelBiFlow.train_callable_class)
         (iterable msg_iterable target_iterable : list pyval)
         (execute_callable_class : ParallelBiFlow.execute_callable_class)
         (s : flow_state),
    ParallelBiFlow.is_parallel_training s = true ->
    ParallelBiFlow.setup_parallel_training
      fuel data_iterables msg_iterables stop_messages train_callable_class s
    = (Raise (ParallelBiFlowException
                "Parallel training is already underway."),
       ParallelBiFlow.set_flownode (bi_reset (ParallelBiFlow._flownode s)) s)
    /\ ParallelBiFlow.setup_parallel_execution
         iterable msg_iterable target_iterable execute_callable_class s
       = (Raise (ParallelBiFlowException "Parallel training is underway."),
          ParallelBiFlow.set_flownode
            (bi_reset (ParallelBiFlow._flownode s)) s).
Proof.
  intros fuel d m st cls it mit tit ecls s Htraining.
  unfold ParallelBiFlow.setup_parallel_training,
    ParallelBiFlow.setup_parallel_execution, ParallelBiFlow._bi_reset,
    ParallelBiFlow.on_flownode.
  unfold_monad.
  assert (Hkept : ParallelBiFlow.is_parallel_training
                    (ParallelBiFlow.set_flownode
                       (bi_reset (ParallelBiFlow._flownode s)) s) = true)
    by exact Htraining.
  rewrite Hkept. split; reflexivity.
Qed.

(** X12.  In the local fallback an exhausted iterator is no error.  When
    the data iterable or the message iterable of the unit is empty, no
    callable is run: the phase is closed at once with [stop_training] (and
    its check) and the reset of the buffers. *)
Theorem X12_local_phase_accepts_empty_iterator :
  forall (fuel : nat) (iterable msg_iterable : list pyval) (s : flow_state)
         (i : nat) (stop_message : pyval)
         (cls : ParallelBiFlow.train_callable_class),
    ParallelBiFlow._i_train_node s = Some i ->
    nth_error (ParallelBiFlow._stop_messages s) i = Some stop_message ->
    ParallelBiFlow._train_callable_class s = Some cls ->
    iterable = [] \/ msg_iterable = [] ->
    ParallelBiFlow._local_train_phase fuel iterable msg_iterable s
    = match stop_training stop_message (ParallelBiFlow._flownode s) with
      | (TupleResult fields, stopped) =>
          (Raise (BiFlowException ParallelBiFlow.err_stop_message
                                  (Some (TupleResult fields))),
           ParallelBiFlow.set_flownode stopped s)
      | (_, stopped) =>
          (Ok tt, ParallelBiFlow.set_flownode (bi_reset stopped) s)
      end.
Proof.
  intros fuel iterable msg_iterable s i stop_message cls
         Hcursor Hstop Hcls Hempty.
  rewrite (local_train_phase_eq fuel iterable msg_iterable s
                                Hcursor Hstop Hcls).
  assert (Hpairs : combine iterable msg_iterable = []).
  { destruct Hempty as [-> | ->]; [reflexivity|].
    now destruct iterable. }
  rewrite Hpairs. reflexivity.
Qed.
End SetupFacts.

Lemma X11_witness :
  ParallelBiFlow.is_parallel_training Counting.example_state = true
  /\ fst (ParallelBiFlow.setup_parallel_training
            4 Counting.chunks Counting.no_messages None
            BiFlowTrainCallable.__call__ Counting.example_state)
     = Raise (ParallelBiFlowException
                "Parallel training is already underway.")
  /\ Counting.resets
       (ParallelBiFlow._flownode
          (snd (ParallelBiFlow.setup_parallel_training
                  4 Counting.chunks Counting.no_messages None
                  BiFlowTrainCallable.__call__ Counting.example_state)))
     = 1.
Proof.
  split; [reflexivity|].
  rewrite (proj1 (@X11_setup_rejects_after_reset
                    Counting.flow Counting.counting_node
                    4 Counting.chunks Counting.no_messages None
                    BiFlowTrainCallable.__call__ [] [] []
                    BiFlowExecuteCallable.__call__ Counting.example_state
                    eq_refl)).
  split; reflexivity.
Defined.

Lemma X12_witness :
  ParallelBiFlow._local_train_phase 2 [] [PyNone] (Counting.exhausted_state 0)
  = (Ok tt,
     ParallelBiFlow.set_flownode
       (Counting.mk_flow [Counting.mk_unit 0 1 true] 0 1 false [PyNone])
       (Counting.exhausted_state 0)).
Proof.
  rewrite (@X12_local_phase_accepts_empty_iterator
             Counting.flow Counting.counting_node 2 [] [PyNone]
             (Counting.exhausted_state 0) 0 PyNone
             BiFlowTrainCallable.__call__
             eq_refl eq_refl eq_refl (or_introl eq_refl)).
  reflexivity.
Defined.

Section ExitFacts.
Context {Node : Type} `{BiFlowNode Node}.
Context {Pool Handle : Type} `{ParallelBiFlow.Scheduler Node Pool Handle}.
Variable BiFlow_train :
  list (list pyval) -> list (list pyval) -> option (list pyval)
  -> M (ParallelBiFlow.t (Node := Node)) unit.
Variable BiFlow_execute :
  list pyval -> list pyval -> list pyval
  -> M (ParallelBiFlow.t (Node := Node)) pyval.
Variable get_message : list pyval -> pyval.

Local Abbreviation flow_state := (ParallelBiFlow.t (Node := Node)).

Lemma on_self_gets_Ok {A : Type} (g : flow_state -> A)
      (f f1 : @ParallelBiFlow.frame Node Pool Handle) (a : A) :
  ParallelBiFlow.on_self (gets g) f = (Ok a, f1) ->
  a = g (ParallelBiFlow.self f) /\ f1 = f.
Proof.
  unfold ParallelBiFlow.on_self, zoom, gets. destruct f.
  intros Hrun. injection Hrun as <- <-. now split.
Qed.

(** The phase loop returns only when no training is underway any more. *)
Lemma train_phases_Ok (fuel : nat) :
  forall (overwrite : bool) (f f1 : ParallelBiFlow.frame),
    ParallelBiFlow.train_phases get_message fuel overwrite f = (Ok tt, f1) ->
    ParallelBiFlow.is_parallel_training (ParallelBiFlow.self f1) = false.
Proof.
  induction fuel as [|fuel IH]; intros overwrite f f1 Hrun.
  - discriminate.
  - cbn [ParallelBiFlow.train_phases] in Hrun.
    apply bind_Ok in Hrun. destruct Hrun as (training & f0 & Ht & Hrun).
    apply on_self_gets_Ok in Ht. destruct Ht as [-> ->].
    destruct (ParallelBiFlow.is_parallel_training (ParallelBiFlow.self f))
      eqn:Htraining.
    + do 7 (apply bind_Ok in Hrun; destruct Hrun as (? & ? & _ & Hrun)).
      now apply IH in Hrun.
    + unfold ret in Hrun. injection Hrun as <-. exact Htraining.
Qed.

Lemma train_finally_self (f : ParallelBiFlow.frame) :
  ParallelBiFlow.self (snd (ParallelBiFlow.train_finally f))
  = ParallelBiFlow.set_train_iterators None None (ParallelBiFlow.self f).
Proof.
  unfold ParallelBiFlow.train_finally, ParallelBiFlow.shutdown_scheduler,
    ParallelBiFlow.on_self, ParallelBiFlow.on_pool.
  unfold_monad. destruct f as [s p current remaining last]. simpl.
  destruct remaining; [destruct current|]; reflexivity.
Qed.

(** X13.  However a parallel [train] (one that was given a scheduler and
    was not rejected at its entry) ends, by returning or by raising, the
    two training iterators of the flow are dropped; and when it returns,
    no training is underway any more: the phase cursor is unset. *)
Theorem X13_train_drops_iterators_and_ends_idle :
  forall (fuel : nat) (data_iterables msg_iterables : list (list pyval))
         (stop_messages : option (list pyval))
         (scheduler : ParallelBiFlow.scheduler_arg)
         (train_callable_class : option ParallelBiFlow.train_callable_class)
         (overwrite_result_container : bool)
         (w : flow_state * Pool),
    ParallelBiFlow.is_parallel_training (fst w) = false ->
    scheduler <> ParallelBiFlow.NoScheduler ->
    let r := ParallelBiFlow.train BiFlow_train get_message fuel
               data_iterables msg_iterables stop_messages scheduler
               train_callable_class overwrite_result_container w in
    ParallelBiFlow._train_data_iterator (fst (snd r)) = None
    /\ ParallelBiFlow._train_msg_iterator (fst (snd r)) = None
    /\ (fst r = Ok tt ->
        ParallelBiFlow.is_parallel_training (fst (snd r)) = false).
Proof.
  intros fuel d m st sched tcc ow [s p] Htraining Hsched r.
  simpl in Htraining.
  assert (Hr : exists res f1 f2 cleanup,
             ParallelBiFlow.train_parallel
               get_message fuel d m st sched
               match tcc with
               | Some cls => cls
               | None => BiFlowTrainCallable.__call__
               end ow
               (ParallelBiFlow.mk_frame
                  s p match sched with
                      | ParallelBiFlow.OneScheduler h =>
                          ParallelBiFlow.RefScheduler h
                      | _ => ParallelBiFlow.RefIterable
                      end None None)
             = (res, f1)
             /\ ParallelBiFlow.train_finally f1 = (cleanup, f2)
             /\ r = (match cleanup with
                     | Ok _ => res
                     | Raise e => Raise e
                     | OutOfFuel => OutOfFuel
                     end,
                     (ParallelBiFlow.self f2, ParallelBiFlow.pool f2))).
  { subst r. unfold ParallelBiFlow.train.
    unfold bind at 1. unfold ParallelBiFlow.on_flow at 1. unfold zoom at 1.
    unfold gets at 1. cbn [fst snd]. rewrite Htraining.
    destruct sched as [|h|hs]; [congruence| |];
      unfold ParallelBiFlow.with_frame, try_finally; cbn [fst snd];
      match goal with
      | |- context [ParallelBiFlow.train_parallel
                      ?g ?a ?b ?c ?d0 ?e ?c0 ?o ?f0] =>
          destruct (ParallelBiFlow.train_parallel g a b c d0 e c0 o f0)
            as [res f1] eqn:Hbody
      end;
      destruct (ParallelBiFlow.train_finally f1) as [cleanup f2] eqn:Hfin;
      exists res, f1, f2, cleanup;
      (split; [reflexivity|]); (split; [exact Hfin|]);
      destruct cleanup as [[]|e|]; reflexivity. }
  destruct Hr as (res & f1 & f2 & cleanup & Hbody & Hfin & Hr).
  clearbody r. subst r. cbn [fst snd].
  pose proof (train_finally_self f1) as Hself.
  rewrite Hfin in Hself. cbn [snd] in Hself. rewrite Hself.
  split; [reflexivity|]. split; [reflexivity|].
  intros Hok. destruct cleanup as [[]|e|]; try discriminate. subst res.
  unfold ParallelBiFlow.train_parallel in Hbody.
  do 3 (apply bind_Ok in Hbody; destruct Hbody as (? & ? & _ & Hbody)).
  apply train_phases_Ok in Hbody.
  destruct (ParallelBiFlow.self f1); exact Hbody.
Qed.

(** X14.  However a parallel [execute] (one that was given a scheduler and
    was not rejected at its entry) ends, by returning or by raising, the
    three execution iterators of the flow are dropped: no execution is
    underway afterwards. *)
Theorem X14_execute_ends_idle :
  forall (fuel : nat) (iterable msg_iterable target_iterable : list pyval)
         (h : Handle)
         (execute_callable_class :
            option ParallelBiFlow.execute_callable_class)
         (overwrite_result_container : bool)
         (w : flow_state * Pool),
    ParallelBiFlow.is_parallel_training (fst w) = false ->
    let r := ParallelBiFlow.execute BiFlow_execute get_message fuel
               iterable msg_iterable target_iterable (Some h)
               execute_callable_class overwrite_result_container w in
    ParallelBiFlow._exec_data_iterator (fst (snd r)) = None
    /\ ParallelBiFlow._exec_msg_iterator (fst (snd r)) = None
    /\ ParallelBiFlow._exec_target_iterator (fst (snd r)) = None
    /\ ParallelBiFlow.is_parallel_executing (fst (snd r)) = false.
Proof.
  intros fuel it mit tit h ecc ow [s p] Htraining r.
  simpl in Htraining.
  assert (Hr : exists (res : Res pyval)
                      (f2 : @ParallelBiFlow.frame Node Pool Handle),
             r = (res, (ParallelBiFlow.self f2, ParallelBiFlow.pool f2))
             /\ ParallelBiFlow._exec_data_iterator
                  (ParallelBiFlow.self f2) = None
             /\ ParallelBiFlow._exec_msg_iterator
                  (ParallelBiFlow.self f2) = None
             /\ ParallelBiFlow._exec_target_iterator
                  (ParallelBiFlow.self f2) = None).
  { subst r. unfold ParallelBiFlow.execute.
    unfold bind at 1. unfold ParallelBiFlow.on_flow at 1. unfold zoom at 1.
    unfold gets at 1. cbn [fst snd]. rewrite Htraining.
    unfold ParallelBiFlow.with_frame. cbn [fst snd].
    unfold bind at 1.
    unfold ParallelBiFlow.check_result_container,
      ParallelBiFlow.on_pool.
    unfold bind at 1. unfold gets at 1. cbn [ParallelBiFlow.scheduler].
    unfold bind at 1. unfold gets at 1. cbn [ParallelBiFlow.pool].
    match goal with
    | |- context [when ?c ?m ?f0] =>
        destruct (when c m f0) as [res0 f0'] eqn:Hcheck
    end.
    assert (Hres0 : res0 = Ok tt).
    { unfold when, modify, ret in Hcheck.
      destruct (_ && _); now injection Hcheck as <- _. }
    subst res0.
    unfold try_finally.
    match goal with
    | |- context [let (r, s') := ?body f0' in _] =>
        destruct (body f0') as [res f1]
    end.
    unfold ParallelBiFlow.on_self, zoom, modify. destruct f1 as [s1 p1 r1 rs1 l1].
    cbn [fst snd ParallelBiFlow.self ParallelBiFlow.pool].
    eexists _, (ParallelBiFlow.mk_frame _ p1 r1 rs1 l1).
    cbn [ParallelBiFlow.self ParallelBiFlow.pool].
    split; [reflexivity|]. destruct s1. repeat split. }
  destruct Hr as (res & f2 & Hr & Hdata & Hmsg & Htarget).
  clearbody r. subst r. cbn [fst snd].
  repeat split; try assumption.
  unfold ParallelBiFlow.is_parallel_executing.
  destruct (ParallelBiFlow.self f2); simpl in *; subst; reflexivity.
Qed.
End ExitFacts.

Lemma X13_witness :
  let r := ParallelBiFlow.train
             Counting.counting_BiFlow_train Counting.counting_get_message 6
             Counting.chunks Counting.no_messages None
             (ParallelBiFlow.OneScheduler tt) None true
             (ParallelBiFlow.__init__ Counting.fresh_flow,
              Counting.working_pool) in
  ParallelBiFlow._train_data_iterator (fst (snd r)) = None
  /\ ParallelBiFlow._train_msg_iterator (fst (snd r)) = None
  /\ (fst r = Ok tt ->
      ParallelBiFlow.is_parallel_training (fst (snd r)) = false).
Proof.
  assert (Hsched : ParallelBiFlow.OneScheduler tt
                   <> @ParallelBiFlow.NoScheduler unit) by discriminate.
  exact (@X13_train_drops_iterators_and_ends_idle
           Counting.flow Counting.counting_node Counting.pool unit
           Counting.counting_scheduler Counting.counting_BiFlow_train
           Counting.counting_get_message 6 Counting.chunks
           Counting.no_messages None (ParallelBiFlow.OneScheduler tt) None
           true
           (ParallelBiFlow.__init__ Counting.fresh_flow,
            Counting.working_pool)
           eq_refl Hsched).
Defined.

Lemma X14_witness :
  let r := ParallelBiFlow.execute
             Counting.counting_BiFlow_execute Counting.counting_get_message 6
             [PyArray [[1%Z]]; PyArray [[2%Z]]] [PyNone; PyNone]
             [PyNone; PyNone] (Some tt) None true
             (ParallelBiFlow.__init__ Counting.fresh_flow,
              Counting.working_pool) in
  ParallelBiFlow._exec_data_iterator (fst (snd r)) = None
  /\ ParallelBiFlow._exec_msg_iterator (fst (snd r)) = None
  /\ ParallelBiFlow._exec_target_iterator (fst (snd r)) = None
  /\ ParallelBiFlow.is_parallel_executing (fst (snd r)) = false.
Proof.
  exact (@X14_execute_ends_idle
           Counting.flow Counting.counting_node Counting.pool unit
           Counting.counting_scheduler Counting.counting_BiFlow_execute
           Counting.counting_get_message 6
           [PyArray [[1%Z]]; PyArray [[2%Z]]] [PyNone; PyNone]
           [PyNone; PyNone] tt None true
           (ParallelBiFlow.__init__ Counting.fresh_flow,
            Counting.working_pool)
           eq_refl).
Defined.

(** ** Setting up a parallel execution and handing out its tasks *)

Section ExecutionSetupFacts.
Context {Node : Type} `{BiFlowNode Node}.

Local Abbreviation flow_state := (ParallelBiFlow.t (Node := Node)).

(** X15.  On a flow that is not training, with three iterables that each
    give a first item, [setup_parallel_execution] resets the buffers of the
    units, remembers the callable class, buffers the first triple as the
    next task together with a new callable (purging on) that works on a
    fork of the flow when the flow is training bidirectionally and on a
    copy otherwise, and keeps the remaining items in the three iterators:
    an execution is underway and a task is available. *)
Theorem X15_setup_execution_buffers_first_triple :
  forall (x msg target : pyval) (xs msgs targets : list pyval)
         (cls : ParallelBiFlow.execute_callable_class)
         (s : flow_state) (task_flownode : Node),
    ParallelBiFlow.is_parallel_training s = false ->
    (if is_bi_training (bi_reset (ParallelBiFlow._flownode s))
     then fork (bi_reset (ParallelBiFlow._flownode s)) = Some task_flownode
     else task_flownode = copy (bi_reset (ParallelBiFlow._flownode s))) ->
    ParallelBiFlow.setup_parallel_execution
      (x :: xs) (msg :: msgs) (target :: targets) cls s
    = (Ok tt,
       ParallelBiFlow.set_next_task
         (Some (ParallelBiFlow.ExecuteData x msg target,
                Some (ParallelBiFlow.ExecuteCallable cls task_flownode true)))
         (ParallelBiFlow.set_exec_iterators
            (Some xs) (Some msgs) (Some targets)
            (ParallelBiFlow.set_execute_callable_class
               (Some cls)
               (ParallelBiFlow.set_flownode
                  (bi_reset (ParallelBiFlow._flownode s)) s)))).
Proof.
  intros x msg target xs msgs targets cls s task_flownode Htraining Hunit.
  destruct s as [node d m st di mi ed em et cursor task c ec].
  simpl in Htraining, Hunit.
  destruct cursor as [i|]; [discriminate|].
  unfold ParallelBiFlow.setup_parallel_execution, ParallelBiFlow._bi_reset,
    ParallelBiFlow.on_flownode, ParallelBiFlow.fork_flownode,
    ParallelBiFlow._create_execute_task, ParallelBiFlow.next.
  unfold_monad. cbn.
  destruct (is_bi_training (bi_reset node)); cbn.
  - rewrite Hunit. reflexivity.
  - rewrite Hunit. reflexivity.
Qed.

(** X16.  On a flow that is not training whose units can be copied or
    forked, [setup_parallel_execution] with an iterable that gives no item
    (data, message or target) raises [FlowException] "The execute data
    iterable is empty."; the exception leaves the iterators in place, so
    the flow counts as executing, and buffers no task. *)
Theorem X16_empty_execution_iterable_is_rejected :
  forall (iterable msg_iterable target_iterable : list pyval)
         (cls : ParallelBiFlow.execute_callable_class) (s : flow_state),
    ParallelBiFlow.is_parallel_training s = false ->
    (is_bi_training (bi_reset (ParallelBiFlow._flownode s)) = true ->
     fork (bi_reset (ParallelBiFlow._flownode s)) <> None) ->
    iterable = [] \/ msg_iterable = [] \/ target_iterable = [] ->
    let r := ParallelBiFlow.setup_parallel_execution
               iterable msg_iterable target_iterable cls s in
    fst r = Raise (FlowException "The execute data iterable is empty.")
    /\ ParallelBiFlow.is_parallel_executing (snd r) = true
    /\ ParallelBiFlow._next_task (snd r) = ParallelBiFlow._next_task s.
Proof.
  intros iterable msg_iterable target_iterable cls s Htraining Hunit Hempty r.
  subst r.
  destruct s as [node d m st di mi ed em et cursor task c ec].
  simpl in Htraining, Hunit.
  destruct cursor as [i|]; [discriminate|].
  unfold ParallelBiFlow.setup_parallel_execution, ParallelBiFlow._bi_reset,
    ParallelBiFlow.on_flownode, ParallelBiFlow.fork_flownode,
    ParallelBiFlow._create_execute_task, ParallelBiFlow.next.
  unfold_monad. cbn.
  destruct (is_bi_training (bi_reset node)); cbn.
  - destruct (fork (bi_reset node)) as [forked|]; [|now destruct Hunit].
    cbn.
    destruct iterable as [|x xs]; cbn; [repeat split|].
    destruct msg_iterable as [|msg msgs]; cbn; [repeat split|].
    destruct target_iterable as [|target targets]; cbn; [repeat split|].
    destruct Hempty as [Hempty|[Hempty|Hempty]]; discriminate.
  - destruct iterable as [|x xs]; cbn; [repeat split|].
    destruct msg_iterable as [|msg msgs]; cbn; [repeat split|].
    destruct target_iterable as [|target targets]; cbn; [repeat split|].
    destruct Hempty as [Hempty|[Hempty|Hempty]]; discriminate.
Qed.
End ExecutionSetupFacts.

Lemma X15_witness :
  ParallelBiFlow.setup_parallel_execution
    [PyArray [[1%Z]]; PyArray [[2%Z]]] [PyNone; PyNone] [PyNone; PyNone]
    BiFlowExecuteCallable.__call__
    (ParallelBiFlow.__init__ Counting.fresh_flow)
  = (Ok tt, ParallelBiFlow.self CountingStates.execution_ready_frame).
Proof.
  rewrite (@X15_setup_execution_buffers_first_triple
             Counting.flow Counting.counting_node
             (PyArray [[1%Z]]) PyNone PyNone [PyArray [[2%Z]]] [PyNone]
             [PyNone] BiFlowExecuteCallable.__call__
             (ParallelBiFlow.__init__ Counting.fresh_flow)
             (copy (bi_reset Counting.fresh_flow)) eq_refl eq_refl).
  reflexivity.
Defined.

Lemma X16_witness :
  let r := ParallelBiFlow.setup_parallel_execution
             [PyArray [[1%Z]]] [] [PyNone] BiFlowExecuteCallable.__call__
             (ParallelBiFlow.__init__ Counting.fresh_flow) in
  fst r = Raise (FlowException "The execute data iterable is empty.")
  /\ ParallelBiFlow.is_parallel_executing (snd r) = true
  /\ ParallelBiFlow._next_task (snd r) = None.
Proof.
  assert (Hunit : is_bi_training
                    (bi_reset (ParallelBiFlow._flownode
                                 (ParallelBiFlow.__init__
                                    Counting.fresh_flow))) = true ->
                  fork (bi_reset (ParallelBiFlow._flownode
                                    (ParallelBiFlow.__init__
                                       Counting.fresh_flow))) <> None)
    by (intros Hbi; discriminate Hbi).
  exact (@X16_empty_execution_iterable_is_rejected
           Counting.flow Counting.counting_node
           [PyArray [[1%Z]]] [] [PyNone] BiFlowExecuteCallable.__call__
           (ParallelBiFlow.__init__ Counting.fresh_flow)
           eq_refl Hunit (or_intror (or_introl eq_refl))).
Defined.

Section ExecutionSubmitFacts.
Context {Node : Type} `{BiFlowNode Node}.
Context {Pool Handle : Type} `{ParallelBiFlow.Scheduler Node Pool Handle}.

Local Abbreviation flow_state := (ParallelBiFlow.t (Node := Node)).

Lemma submit_execution_tasks (xs : list pyval) :
  forall (msgs targets : list pyval) (first : ParallelBiFlow.task)
         (s : flow_state) (p : Pool) (h : Handle)
         (remaining : option (list (option Handle))) (last : option nat)
         (fuel : nat),
    ParallelBiFlow.is_parallel_training s = false ->
    ParallelBiFlow._next_task s = Some first ->
    ParallelBiFlow._exec_data_iterator s = Some xs ->
    ParallelBiFlow._exec_msg_iterator s = Some msgs ->
    ParallelBiFlow._exec_target_iterator s = Some targets ->
    length (combine xs (combine msgs targets)) + 1 < fuel ->
    exists xs' msgs' targets',
      ParallelBiFlow.submit_tasks
        fuel (ParallelBiFlow.mk_frame s p (ParallelBiFlow.RefScheduler h)
                                      remaining last)
      = (Ok tt,
         ParallelBiFlow.mk_frame
           (ParallelBiFlow.set_next_task
              None
              (ParallelBiFlow.set_exec_iterators
                 (Some xs') (Some msgs') (Some targets') s))
           (fold_left (fun pool task => ParallelBiFlow.add_task h task pool)
                      (PhaseInvariant.execute_tasks first xs msgs targets) p)
           (ParallelBiFlow.RefScheduler h) remaining last).
Proof.
  induction xs as [|x xs IH];
    intros msgs targets first s p h remaining last fuel
           Htraining Hfirst Hdata Hmsgs Htargets Hfuel;
    (destruct fuel as [|[|fuel]]; [simpl in Hfuel; lia|simpl in Hfuel; lia|]);
    destruct s as [node d m st di mi ed em et cursor task cls ecls];
    simpl in Htraining, Hfirst, Hdata, Hmsgs, Htargets; subst;
    (destruct cursor as [i|]; [discriminate|]).
  - exists [], msgs, targets. reflexivity.
  - destruct msgs as [|msg msgs].
    + exists xs, [], targets. reflexivity.
    + destruct targets as [|target targets].
      * exists xs, msgs, []. reflexivity.
      * destruct (IH msgs targets
                     (ParallelBiFlow.ExecuteData x msg target, None)
                     (ParallelBiFlow.mk
                        node d m st di mi (Some xs) (Some msgs)
                        (Some targets) None
                        (Some (ParallelBiFlow.ExecuteData x msg target, None))
                        cls ecls)
                     (ParallelBiFlow.add_task h first p) h remaining last
                     (S fuel) eq_refl eq_refl eq_refl eq_refl eq_refl)
          as (xs' & msgs' & targets' & Hrest).
        { simpl in Hfuel |- *. lia. }
        exists xs', msgs', targets'.
        rewrite submit_tasks_turn.
        unfold ParallelBiFlow.on_self, ParallelBiFlow.on_pool,
          ParallelBiFlow.get_task, ParallelBiFlow._create_execute_task,
          ParallelBiFlow.next.
        unfold_monad.
        cbv -[ParallelBiFlow.submit_tasks PhaseInvariant.execute_tasks
              fold_left ParallelBiFlow.add_task].
        cbv -[ParallelBiFlow.submit_tasks PhaseInvariant.execute_tasks
              fold_left ParallelBiFlow.add_task] in Hrest.
        rewrite Hrest. reflexivity.
Qed.

(** X17.  In an execution with the first task buffered and the scheduler at
    hand, the submission loop ends (more fuel than tasks is enough) and
    hands the scheduler exactly the tasks of the execution, in order: the
    buffered task with its callable, then one task without callable for
    every further triple of a data chunk, a message and a target, as long
    as all three iterators give one.  Afterwards no task is available, and
    the flow still counts as executing until the results are used. *)
Theorem X17_execution_hands_out_every_triple_once :
  forall (f : ParallelBiFlow.frame) (h : Handle)
         (first : ParallelBiFlow.task) (xs msgs targets : list pyval)
         (fuel : nat),
    ParallelBiFlow.is_parallel_training (ParallelBiFlow.self f) = false ->
    ParallelBiFlow._next_task (ParallelBiFlow.self f) = Some first ->
    ParallelBiFlow._exec_data_iterator (ParallelBiFlow.self f) = Some xs ->
    ParallelBiFlow._exec_msg_iterator (ParallelBiFlow.self f) = Some msgs ->
    ParallelBiFlow._exec_target_iterator (ParallelBiFlow.self f)
    = Some targets ->
    ParallelBiFlow.scheduler f = ParallelBiFlow.RefScheduler h ->
    length (combine xs (combine msgs targets)) + 1 < fuel ->
    exists f',
      ParallelBiFlow.submit_tasks fuel f = (Ok tt, f')
      /\ ParallelBiFlow.pool f'
         = fold_left (fun pool task => ParallelBiFlow.add_task h task pool)
                     (PhaseInvariant.execute_tasks first xs msgs targets)
                     (ParallelBiFlow.pool f)
      /\ ParallelBiFlow.task_available (ParallelBiFlow.self f') = false
      /\ ParallelBiFlow.is_parallel_executing (ParallelBiFlow.self f') = true
      /\ ParallelBiFlow._flownode (ParallelBiFlow.self f')
         = ParallelBiFlow._flownode (ParallelBiFlow.self f)
      /\ ParallelBiFlow.scheduler f' = ParallelBiFlow.scheduler f.
Proof.
  intros [s p current remaining last] h first xs msgs targets fuel
         Htraining Hfirst Hdata Hmsgs Htargets Hsched Hfuel.
  simpl in *. subst current.
  destruct (@submit_execution_tasks xs msgs targets first s p h remaining
              last fuel Htraining Hfirst Hdata Hmsgs Htargets Hfuel)
    as (xs' & msgs' & targets' & Hrun).
  eexists. split; [exact Hrun|].
  repeat split.
Qed.
End ExecutionSubmitFacts.

Lemma X17_witness :
  exists f',
    ParallelBiFlow.submit_tasks 3 CountingStates.execution_ready_frame
    = (Ok tt, f')
    /\ ParallelBiFlow.task_available (ParallelBiFlow.self f') = false
    /\ ParallelBiFlow.is_parallel_executing (ParallelBiFlow.self f') = true.
Proof.
  pose (first := match ParallelBiFlow._next_task
                         (ParallelBiFlow.self
                            CountingStates.execution_ready_frame) with
                 | Some task => task
                 | None => (ParallelBiFlow.ExecuteData PyNone PyNone PyNone,
                            None)
                 end).
  assert (Hfirst : ParallelBiFlow._next_task
                     (ParallelBiFlow.self
                        CountingStates.execution_ready_frame)
                   = Some first) by (vm_compute; reflexivity).
  assert (Hdata : ParallelBiFlow._exec_data_iterator
                    (ParallelBiFlow.self
                       CountingStates.execution_ready_frame)
                  = Some [PyArray [[2%Z]]]) by (vm_compute; reflexivity).
  assert (Hmsgs : ParallelBiFlow._exec_msg_iterator
                    (ParallelBiFlow.self
                       CountingStates.execution_ready_frame)
                  = Some [PyNone]) by (vm_compute; reflexivity).
  assert (Htargets : ParallelBiFlow._exec_target_iterator
                       (ParallelBiFlow.self
                          CountingStates.execution_ready_frame)
                     = Some [PyNone]) by (vm_compute; reflexivity).
  assert (Hfuel : length (combine [PyArray [[2%Z]]]
                                  (combine [PyNone] [PyNone])) + 1 < 3)
    by (vm_compute; lia).
  destruct (@X17_execution_hands_out_every_triple_once
              Counting.flow Counting.pool unit Counting.counting_scheduler
              CountingStates.execution_ready_frame tt first
              [PyArray [[2%Z]]] [PyNone] [PyNone] 3
              eq_refl Hfirst Hdata Hmsgs Htargets eq_refl Hfuel)
    as (f' & Hrun & _ & Hnone & Hexecuting & _).
  exists f'. repeat split; assumption.
Defined.

Section ExecuteFacts.
Context {Node : Type} `{BiFlowNode Node}.
Context {Pool Handle : Type} `{ParallelBiFlow.Scheduler Node Pool Handle}.
Variable BiFlow_execute :
  list pyval -> list pyval -> list pyval
  -> M (ParallelBiFlow.t (Node := Node)) pyval.
Variable get_message : list pyval -> pyval.

Local Abbreviation flow_state := (ParallelBiFlow.t (Node := Node)).

(** X18.  A parallel [execute] on a flow that is not training, with three
    iterables that each give a first item, is: replace the scheduler's
    result container when asked to and it is of another kind; hand the
    scheduler one task for every triple of a data chunk, a message and a
    target, in order, the first with a new callable on a copy (or a fork,
    when the flow is training bidirectionally) of the reset flow; take the
    scheduler's results once; and return what [use_results] makes of them,
    with the execution iterators dropped. *)
Theorem X18_execute_submits_then_uses_results :
  forall (fuel : nat) (x msg target : pyval) (xs msgs targets : list pyval)
         (h : Handle)
         (execute_callable_class :
            option ParallelBiFlow.execute_callable_class)
         (overwrite_result_container : bool)
         (s : flow_state) (p : Pool) (task_flownode : Node),
    ParallelBiFlow.is_parallel_training s = false ->
    (if is_bi_training (bi_reset (ParallelBiFlow._flownode s))
     then fork (bi_reset (ParallelBiFlow._flownode s)) = Some task_flownode
     else task_flownode = copy (bi_reset (ParallelBiFlow._flownode s))) ->
    length (combine xs (combine msgs targets)) + 1 < fuel ->
    let cls := match execute_callable_class with
               | Some cls => cls
               | None => BiFlowExecuteCallable.__call__
               end in
    let checked :=
      if overwrite_result_container
         && negb (ParallelBiFlow.container_kind_eqb
                    (ParallelBiFlow.result_container h p)
                    ParallelBiFlow.OrderedBiExecuteContainer)
      then ParallelBiFlow.set_result_container
             h ParallelBiFlow.OrderedBiExecuteContainer p
      else p in
    let first :=
      (ParallelBiFlow.ExecuteData x msg target,
       Some (ParallelBiFlow.ExecuteCallable cls task_flownode true)) in
    let submitted :=
      fold_left (fun pool task => ParallelBiFlow.add_task h task pool)
                (PhaseInvariant.execute_tasks first xs msgs targets)
                checked in
    let results := fst (ParallelBiFlow.get_results h submitted) in
    exists waiting : flow_state,
      ParallelBiFlow._flownode waiting
      = bi_reset (ParallelBiFlow._flownode s)
      /\ ParallelBiFlow.is_parallel_training waiting = false
      /\ ParallelBiFlow.is_parallel_executing waiting = true
      /\ ParallelBiFlow.execute
           BiFlow_execute get_message fuel
           (x :: xs) (msg :: msgs) (target :: targets) (Some h)
           execute_callable_class overwrite_result_container (s, p)
         = (fst (ParallelBiFlow.use_results get_message fuel results waiting),
            (ParallelBiFlow.set_exec_iterators
               None None None
               (snd (ParallelBiFlow.use_results
                       get_message fuel results waiting)),
             snd (ParallelBiFlow.get_results h submitted))).
Proof.
  intros fuel x msg target xs msgs targets h ecc ow s p task_flownode
         Htraining Hunit Hfuel cls checked first submitted results.
  assert (Hsetup :
            ParallelBiFlow.setup_parallel_execution
              (x :: xs) (msg :: msgs) (target :: targets) cls s
            = (Ok tt,
               ParallelBiFlow.set_next_task
                 (Some first)
                 (ParallelBiFlow.set_exec_iterators
                    (Some xs) (Some msgs) (Some targets)
                    (ParallelBiFlow.set_execute_callable_class
                       (Some cls)
                       (ParallelBiFlow.set_flownode
                          (bi_reset (ParallelBiFlow._flownode s)) s))))).
  { clear Hfuel. subst first.
    destruct s as [node d m st di mi ed em et cursor task c ec].
    simpl in Htraining, Hunit.
    destruct cursor as [i|]; [discriminate|].
    unfold ParallelBiFlow.setup_parallel_execution,
      ParallelBiFlow._bi_reset, ParallelBiFlow.on_flownode,
      ParallelBiFlow.fork_flownode, ParallelBiFlow._create_execute_task,
      ParallelBiFlow.next.
    unfold_monad. cbn.
    destruct (is_bi_training (bi_reset node)); cbn;
      rewrite Hunit; reflexivity. }
  set (ready := ParallelBiFlow.set_next_task
                  (Some first)
                  (ParallelBiFlow.set_exec_iterators
                     (Some xs) (Some msgs) (Some targets)
                     (ParallelBiFlow.set_execute_callable_class
                        (Some cls)
                        (ParallelBiFlow.set_flownode
                           (bi_reset (ParallelBiFlow._flownode s)) s)))) in *.
  assert (Hready : ParallelBiFlow.is_parallel_training ready = false)
    by (destruct s; exact Htraining).
  destruct (@submit_execution_tasks
              Node Pool Handle _ xs msgs targets first ready checked h
              None None fuel Hready)
    as (xs' & msgs' & targets' & Hsubmit);
    [destruct s; reflexivity|destruct s; reflexivity|destruct s; reflexivity
    |destruct s; reflexivity|exact Hfuel|].
  change (fold_left (fun pool task => ParallelBiFlow.add_task h task pool)
                    (PhaseInvariant.execute_tasks first xs msgs targets)
                    checked)
    with submitted in Hsubmit.
  subst results.
  destruct (ParallelBiFlow.get_results h submitted) as [rs p3] eqn:Hresults.
  clearbody submitted. cbn [fst snd].
  exists (ParallelBiFlow.set_next_task
            None
            (ParallelBiFlow.set_exec_iterators
               (Some xs') (Some msgs') (Some targets') ready)).
  split; [destruct s; reflexivity|].
  split; [destruct s; exact Htraining|].
  split; [destruct s; reflexivity|].
  unfold ParallelBiFlow.execute.
  unfold bind at 1. unfold ParallelBiFlow.on_flow at 1. unfold zoom at 1.
  unfold gets at 1. cbn [fst snd]. rewrite Htraining.
  unfold ParallelBiFlow.with_frame. cbn [fst snd].
  unfold bind at 1.
  unfold ParallelBiFlow.check_result_container, ParallelBiFlow.on_pool.
  unfold bind at 1. unfold gets at 1. cbn [ParallelBiFlow.scheduler].
  unfold bind at 1. unfold gets at 1. cbn [ParallelBiFlow.pool].
  fold cls.
  assert (Hcheck :
            when (ow && negb (ParallelBiFlow.container_kind_eqb
                                (ParallelBiFlow.result_container h p)
                                ParallelBiFlow.OrderedBiExecuteContainer))
                 (modify
                    (fun f : ParallelBiFlow.frame =>
                       ParallelBiFlow.mk_frame
                         (ParallelBiFlow.self f)
                         (ParallelBiFlow.set_result_container
                            h ParallelBiFlow.OrderedBiExecuteContainer
                            (ParallelBiFlow.pool f))
                         (ParallelBiFlow.scheduler f)
                         (ParallelBiFlow.schedulers f)
                         (ParallelBiFlow.last_trained_node f)))
                 (ParallelBiFlow.mk_frame
                    s p (ParallelBiFlow.RefScheduler h) None None)
            = (Ok tt,
               ParallelBiFlow.mk_frame
                 s checked (ParallelBiFlow.RefScheduler h) None None)).
  { subst checked. unfold when, modify, ret.
    destruct (ow && _); reflexivity. }
  rewrite Hcheck.
  unfold try_finally.
  unfold bind at 1. unfold ParallelBiFlow.on_self at 1. unfold zoom at 1.
  cbn [ParallelBiFlow.self ParallelBiFlow.pool ParallelBiFlow.scheduler
       ParallelBiFlow.schedulers ParallelBiFlow.last_trained_node].
  rewrite Hsetup.
  unfold bind at 1. unfold ready, first in Hsubmit |- *. rewrite Hsubmit.
  unfold bind at 1. unfold ParallelBiFlow.scheduler_get_results.
  unfold bind at 1. unfold gets at 1. cbn [ParallelBiFlow.scheduler].
  unfold bind at 1. unfold gets at 1. cbn [ParallelBiFlow.pool].
  rewrite Hresults.
  unfold bind at 1. unfold ParallelBiFlow.on_pool at 1. unfold modify at 1.
  unfold ret at 1.
  unfold ParallelBiFlow.on_self at 1. unfold zoom at 1.
  cbn [ParallelBiFlow.self ParallelBiFlow.pool ParallelBiFlow.scheduler
       ParallelBiFlow.schedulers ParallelBiFlow.last_trained_node].
  destruct (ParallelBiFlow.use_results get_message fuel rs _) as [r s'].
  unfold ParallelBiFlow.on_self, zoom, modify. cbn.
  reflexivity.
Qed.
End ExecuteFacts.

Lemma X18_witness :
  exists waiting submitted,
    ParallelBiFlow.is_parallel_executing waiting = true
    /\ ParallelBiFlow.execute
         Counting.counting_BiFlow_execute Counting.counting_get_message 3
         [PyArray [[1%Z]]; PyArray [[2%Z]]] [PyNone; PyNone]
         [PyNone; PyNone] (Some tt) None true
         (ParallelBiFlow.__init__ Counting.fresh_flow, Counting.working_pool)
       = (fst (ParallelBiFlow.use_results
                 Counting.counting_get_message 3
                 (fst (ParallelBiFlow.get_results tt submitted)) waiting),
          (ParallelBiFlow.set_exec_iterators
             None None None
             (snd (ParallelBiFlow.use_results
                     Counting.counting_get_message 3
                     (fst (ParallelBiFlow.get_results tt submitted))
                     waiting)),
           snd (ParallelBiFlow.get_results tt submitted))).
Proof.
  assert (Hfuel : length (combine [PyArray [[2%Z]]]
                                  (combine [PyNone] [PyNone])) + 1 < 3)
    by (vm_compute; lia).
  destruct (@X18_execute_submits_then_uses_results
              Counting.flow Counting.counting_node Counting.pool unit
              Counting.counting_scheduler Counting.counting_BiFlow_execute
              Counting.counting_get_message 3
              (PyArray [[1%Z]]) PyNone PyNone [PyArray [[2%Z]]] [PyNone]
              [PyNone] tt None true
              (ParallelBiFlow.__init__ Counting.fresh_flow)
              Counting.working_pool (copy (bi_reset Counting.fresh_flow))
              eq_refl eq_refl Hfuel)
    as (waiting & _ & _ & Hexecuting & Hrun).
  exists waiting. eexists. split; [exact Hexecuting|exact Hrun].
Defined.

(** ** What the polynomial expansion computes *)

Section ExpansionContentFacts.
Variable R : Type.
Variable rzero : R.
Variable rmul : R -> R -> R.
Variable comb : nat -> nat -> nat.

Local Abbreviation col xs j :=
  (map (fun row : list R => nth j row rzero) xs).
Local Abbreviation columns xs n :=
  (map (fun j => col xs j) (seq 0 n)).
Local Abbreviation products xs n j0 cnt :=
  (flat_map (fun j => map (Expansion.zip_mul rmul (col xs j))
                          (skipn j (columns xs n)))
            (seq j0 cnt)).

Lemma column_Ok {St : Type} (j : nat) (xs : list (list R)) (s : St) :
  Forall (fun row => j < length row) xs ->
  Expansion.column j xs s = (Ok (col xs j), s).
Proof.
  induction 1 as [|row xs Hrow Hxs IH]; cbn [Expansion.column map].
  - reflexivity.
  - destruct (nth_error row j) as [v|] eqn:Hv.
    + unfold bind. rewrite IH. unfold ret.
      now rewrite (nth_error_nth row j rzero Hv).
    + apply nth_error_None in Hv. lia.
Qed.

Lemma transpose_Ok {St : Type} (k : nat) (xs : list (list R)) (s : St) :
  Forall (fun row => k <= length row) xs ->
  Expansion.transpose k xs s = (Ok (columns xs k), s).
Proof.
  induction k as [|k IH]; intros Hall; cbn [Expansion.transpose].
  - reflexivity.
  - unfold bind at 1.
    rewrite IH by (eapply Forall_impl; [|exact Hall]; simpl; intros; lia).
    unfold bind at 1.
    rewrite column_Ok
      by (eapply Forall_impl; [|exact Hall]; simpl; intros; lia).
    unfold ret. now rewrite seq_S, map_app.
Qed.

Lemma map_nth_seq {A : Type} (d : A) (l : list A) :
  map (fun j => nth j l d) (seq 0 (length l)) = l.
Proof.
  induction l as [|a l IH]; simpl; [reflexivity|].
  f_equal. rewrite <- seq_shift, map_map. exact IH.
Qed.

Lemma nth_col (xs : list (list R)) (i j : nat) :
  nth i (col xs j) rzero = nth j (nth i xs []) rzero.
Proof.
  transitivity (nth i (col xs j) ((fun row : list R => nth j row rzero) [])).
  - f_equal. now destruct j.
  - apply (map_nth (fun row : list R => nth j row rzero)).
Qed.

(** Row [i] of the transposed data is row [i] of the data. *)
Lemma row_of_columns (xs : list (list R)) (n i : nat) :
  length (nth i xs []) = n ->
  map (fun c => nth i c rzero) (columns xs n) = nth i xs [].
Proof.
  intros Hlen. rewrite map_map.
  rewrite (map_ext _ (fun j => nth j (nth i xs []) rzero))
    by (intros j; apply nth_col).
  rewrite <- Hlen. apply map_nth_seq.
Qed.

Lemma nth_zip_mul (a b : list R) (i : nat) :
  i < length a -> i < length b ->
  nth i (Expansion.zip_mul rmul a b) rzero
  = rmul (nth i a rzero) (nth i b rzero).
Proof.
  revert b i. induction a as [|x a IH]; intros [|y b] [|i] Ha Hb;
    simpl in *; try lia; [reflexivity|].
  apply IH; lia.
Qed.

Lemma length_zip_mul (a b : list R) :
  length a = length b ->
  length (Expansion.zip_mul rmul a b) = length a.
Proof.
  revert b. induction a as [|x a IH]; intros [|y b] Hlen; simpl in *;
    try discriminate; [reflexivity|].
  f_equal. apply IH. lia.
Qed.

(** Row [i] of the columns of products holds the quadratic monomials of
    row [i] of the data. *)
Lemma row_of_products (xs : list (list R)) (n i : nat) :
  i < length xs ->
  length (nth i xs []) = n ->
  forall cnt j0,
    map (fun c => nth i c rzero) (products xs n j0 cnt)
    = flat_map (fun j => map (rmul (nth j (nth i xs []) rzero))
                             (skipn j (nth i xs [])))
               (seq j0 cnt).
Proof.
  intros Hi Hlen cnt.
  induction cnt as [|cnt IH]; intros j0; [reflexivity|].
  cbn [seq flat_map]. rewrite map_app, IH. f_equal.
  rewrite map_map.
  rewrite <- (row_of_columns xs i Hlen) at 2.
  rewrite <- skipn_map, map_map.
  rewrite <- !skipn_map. f_equal.
  rewrite !map_map. apply map_ext. intros j.
  rewrite nth_zip_mul by (rewrite length_map; exact Hi).
  now rewrite !nth_col.
Qed.

Lemma length_set_nth (i v : nat) (l : list nat) :
  length (Expansion.set_nth i v l) = length l.
Proof.
  revert i. induction l as [|h l IH]; intros [|i]; simpl; auto.
Qed.

Lemma cumsum_ones (n a : nat) :
  Expansion.cumsum a (repeat 1 n) = seq (a + 1) n.
Proof.
  revert a. induction n as [|n IH]; intros a; simpl; [reflexivity|].
  f_equal. rewrite IH. f_equal. lia.
Qed.

Lemma removelast_repeat {A : Type} (a : A) (n : nat) :
  removelast (repeat a (S n)) = repeat a n.
Proof.
  induction n as [|n IH]; [reflexivity|].
  change (repeat a (S (S n))) with (a :: repeat a (S n)).
  cbn [removelast]. now rewrite IH.
Qed.

(** [lens] in the pass for degree [2]: [0, 1, ..., dim - 1]. *)
Lemma lens_of_ones (n : nat) :
  Expansion.cumsum 0 (removelast (0 :: repeat 1 n)) = seq 0 n.
Proof.
  destruct n as [|n]; [reflexivity|].
  change (removelast (0 :: repeat 1 (S n)))
    with (0 :: removelast (repeat 1 (S n))).
  rewrite removelast_repeat. cbn [Expansion.cumsum Nat.add].
  now rewrite cumsum_ones.
Qed.

Lemma length_products (xs : list (list R)) (n : nat) :
  forall cnt j0,
    j0 + cnt = n ->
    2 * length (products xs n j0 cnt) = cnt * (cnt + 1).
Proof.
  induction cnt as [|cnt IH]; intros j0 Hn; [reflexivity|].
  cbn [seq flat_map]. rewrite length_app, length_map, length_skipn.
  rewrite length_map, length_seq.
  specialize (IH (S j0) ltac:(lia)). nia.
Qed.

(** The loop over [j] of the pass for degree [2] writes, from row [k] of
    [dexp] on, the products of every data column with the columns from
    itself on. *)
Lemma inner_loop_products {St : Type} (x : Expansion.ndarray R) :
  ExpansionSpec.well_shaped x ->
  forall (cnt j0 : nat) (pre rest : list (list R)) (k0 : nat)
         (lens : list nat) (s : St),
    j0 + cnt = Expansion.shape1 x ->
    k0 = length pre ->
    length lens = Expansion.shape1 x + 1 ->
    length (products (Expansion.rows x) (Expansion.shape1 x) j0 cnt)
    <= length rest ->
    exists lens',
      Expansion.inner_loop
        rmul (seq j0 cnt) x
        (columns (Expansion.rows x) (Expansion.shape1 x))
        (seq 0 (Expansion.shape1 x))
        (Expansion.mk_locals (pre ++ rest) k0 lens) s
      = (Ok (Expansion.mk_locals
               ((pre ++ products (Expansion.rows x) (Expansion.shape1 x)
                                 j0 cnt)
                ++ skipn (length (products (Expansion.rows x)
                                           (Expansion.shape1 x) j0 cnt))
                         rest)
               (k0 + length (products (Expansion.rows x)
                                      (Expansion.shape1 x) j0 cnt))
               lens'),
         s).
Proof.
  intros Hshape. unfold ExpansionSpec.well_shaped in Hshape.
  set (n := Expansion.shape1 x) in *. set (xs := Expansion.rows x) in *.
  induction cnt as [|cnt IH];
    intros j0 pre rest k0 lens s Hn Hk Hlens Hroom.
  - exists lens. cbn [seq flat_map Expansion.inner_loop length skipn].
    unfold ret. now rewrite !app_nil_r, Nat.add_0_r.
  - cbn [seq flat_map] in Hroom |- *.
    set (new := map (Expansion.zip_mul rmul (col xs j0))
                    (skipn j0 (columns xs n))) in *.
    rewrite length_app in Hroom.
    cbn [Expansion.inner_loop Expansion.k Expansion.dexp
         Expansion.next_lens].
    unfold bind at 1. unfold Expansion.getitem_nat at 1.
    rewrite nth_error_seq.
    assert (Hj0 : (j0 <? n) = true) by (apply Nat.ltb_lt; lia).
    rewrite Hj0. cbn [Nat.add]. unfold ret at 1.
    unfold bind at 1. fold xs.
    rewrite column_Ok
      by (eapply Forall_impl; [|exact Hshape]; simpl; intros row Hrow;
          apply Nat.ltb_lt in Hj0; lia).
    unfold bind at 1. unfold Expansion.assign_rows at 1. fold new.
    assert (Hfits : (k0 + length new <=? length (pre ++ rest)) = true)
      by (apply Nat.leb_le; rewrite length_app; lia).
    rewrite Hfits. unfold ret at 1.
    unfold bind at 1.
    assert (Hslot : (j0 + 1 <? length lens) = true)
      by (apply Nat.ltb_lt; apply Nat.ltb_lt in Hj0; lia).
    rewrite Hslot. unfold ret at 1.
    assert (Hdexp : firstn k0 (pre ++ rest) ++ new
                    ++ skipn (k0 + length new) (pre ++ rest)
                    = (pre ++ new) ++ skipn (length new) rest).
    { subst k0. rewrite firstn_app, Nat.sub_diag, firstn_all.
      cbn [firstn]. rewrite app_nil_r.
      rewrite skipn_app, skipn_all2 by lia.
      replace (length pre + length new - length pre) with (length new)
        by lia.
      cbn [app]. now rewrite app_assoc. }
    rewrite Hdexp.
    assert (Hnew : length (skipn j0 (columns xs n)) = length new)
      by (unfold new; now rewrite length_map).
    rewrite Hnew.
    destruct (IH (S j0) (pre ++ new) (skipn (length new) rest)
                 (k0 + length new)
                 (Expansion.set_nth (j0 + 1) (length new) lens) s)
      as [lens' Hrest].
    + lia.
    + rewrite length_app. lia.
    + now rewrite length_set_nth.
    + rewrite length_skipn. lia.
    + exists lens'. rewrite Hrest.
      rewrite skipn_skipn, !length_app, <- !app_assoc.
      rewrite (Nat.add_comm (length (products xs n (S j0) cnt))
                            (length new)).
      now rewrite Nat.add_assoc.
Qed.

Lemma rows_of_columns (xs : list (list R)) (n : nat) :
  Forall (fun row => length row = n) xs ->
  map (fun i => map (fun c => nth i c rzero) (columns xs n))
      (seq 0 (length xs))
  = xs.
Proof.
  intros Hall.
  transitivity (map (fun i => nth i xs []) (seq 0 (length xs)));
    [|apply map_nth_seq].
  apply map_ext_in. intros i Hi. apply in_seq in Hi.
  apply row_of_columns.
  apply (proj1 (Forall_forall _ xs) Hall). apply nth_In. lia.
Qed.

(** X19.  A polynomial expansion of degree [1] returns its input: on an
    array whose rows all have [input_dim] elements, [_execute] of
    [PolynomialExpansionNode(1)] gives back the same array and leaves the
    node as it is ([comb(n + 1, 1)] being [n + 1]). *)
Theorem X19_degree_one_expansion_is_identity :
  forall (x : Expansion.ndarray R) (dtype : option string),
    ExpansionSpec.well_shaped x ->
    comb (Expansion.shape1 x + 1) 1 = Expansion.shape1 x + 1 ->
    Expansion._execute
      rzero rmul comb x
      (Expansion.PolynomialExpansionNode
         comb 1 (Some (Expansion.shape1 x)) dtype)
    = (Ok x,
       Expansion.PolynomialExpansionNode
         comb 1 (Some (Expansion.shape1 x)) dtype).
Proof.
  intros [n xs] dtype Hshape Hcomb.
  unfold ExpansionSpec.well_shaped in Hshape.
  cbn [Expansion.shape1 Expansion.rows] in *.
  unfold Expansion._execute, Expansion.PolynomialExpansionNode,
    Expansion.PolynomialExpansionNode___init__, Expansion.Node___init__,
    Expansion._set_input_dim, Expansion.expanded_dim_method.
  cbn [Expansion.__class__ Expansion._degree Expansion._input_dim
       Expansion._output_dim Expansion._dtype].
  f_equal.
  unfold Expansion.expanded_dim. rewrite Hcomb.
  unfold Expansion.expand.
  cbn [Expansion.shape1 Expansion.rows].
  assert (Hsign : (Z.of_nat (n + 1) - 1 <? 0)%Z = false)
    by (apply Z.ltb_ge; lia).
  rewrite Hsign.
  assert (Hdim : Z.to_nat (Z.of_nat (n + 1) - 1) = n) by lia.
  rewrite Hdim.
  unfold bind at 1.
  rewrite transpose_Ok
    by (eapply Forall_impl; [|exact Hshape]; simpl; intros; lia).
  unfold bind at 1. unfold Expansion.assign_rows at 1.
  rewrite length_map, length_seq, repeat_length.
  cbn [Nat.add]. rewrite Nat.leb_refl. unfold ret at 1.
  cbn [firstn app].
  rewrite skipn_all2 by (rewrite repeat_length; lia).
  rewrite app_nil_r.
  cbn [Nat.sub seq Expansion.outer_loop].
  unfold bind at 1. unfold ret at 1.
  cbn [Expansion.dexp].
  unfold bind at 1. unfold Expansion.shape0. cbn [Expansion.rows].
  rewrite transpose_Ok
    by (apply Forall_forall; intros c Hc; apply in_map_iff in Hc;
        destruct Hc as [j [<- _]]; now rewrite length_map).
  unfold ret. cbn [fst].
  now rewrite rows_of_columns.
Qed.

(** X20.  What the quadratic expansion computes.  On an array whose rows
    all have [input_dim] elements, [_execute] of [QuadraticExpansionNode]
    returns, for every row [r] of the input, the row [r] itself followed by
    the products [r_j * r_k] with [j <= k], ordered by [j] and then by [k];
    the rows of the result have [comb(n + 2, 2) - 1] elements and the node
    is left as it is ([comb] being the binomial coefficient at
    [(n, 1)] and [(n + 2, 2)]). *)
Theorem X20_quadratic_expansion_content :
  forall (x : Expansion.ndarray R) (dtype : option string),
    ExpansionSpec.well_shaped x ->
    comb (Expansion.shape1 x) 1 = Expansion.shape1 x ->
    2 * comb (Expansion.shape1 x + 2) 2
    = (Expansion.shape1 x + 1) * (Expansion.shape1 x + 2) ->
    Expansion._execute
      rzero rmul comb x
      (Expansion.QuadraticExpansionNode
         comb (Some (Expansion.shape1 x)) dtype)
    = (Ok (Expansion.mk_array
             (comb (Expansion.shape1 x + 2) 2 - 1)
             (map (fun row =>
                     row ++ ExpansionSpec.quadratic_terms rzero rmul row)
                  (Expansion.rows x))),
       Expansion.QuadraticExpansionNode
         comb (Some (Expansion.shape1 x)) dtype).
Proof.
  intros x dtype Hshape Hlinear Hquadratic.
  pose proof Hshape as Hrows. unfold ExpansionSpec.well_shaped in Hrows.
  pose proof (@length_products (Expansion.rows x) (Expansion.shape1 x)
                (Expansion.shape1 x) 0 eq_refl) as Hcount.
  set (n := Expansion.shape1 x) in *. set (xs := Expansion.rows x) in *.
  set (Q := products xs n 0 n) in *.
  assert (Hout : comb (n + 2) 2 - 1 = n + length Q) by nia.
  unfold Expansion._execute, Expansion.QuadraticExpansionNode,
    Expansion.PolynomialExpansionNode___init__, Expansion.Node___init__,
    Expansion._set_input_dim, Expansion.expanded_dim_method.
  cbn [Expansion.__class__ Expansion._degree Expansion._input_dim
       Expansion._output_dim Expansion._dtype].
  f_equal.
  unfold Expansion.expanded_dim, Expansion.expand.
  fold n. fold xs.
  assert (Hsign : (Z.of_nat (comb (n + 2) 2) - 1 <? 0)%Z = false)
    by (apply Z.ltb_ge; nia).
  rewrite Hsign.
  assert (Hdim : Z.to_nat (Z.of_nat (comb (n + 2) 2) - 1)
                 = comb (n + 2) 2 - 1) by lia.
  rewrite Hdim, Hout.
  unfold bind at 1.
  rewrite transpose_Ok
    by (eapply Forall_impl; [|exact Hrows]; simpl; intros; lia).
  unfold bind at 1. unfold Expansion.assign_rows at 1.
  rewrite length_map, length_seq, repeat_length. cbn [Nat.add].
  assert (Hfits : (n <=? n + length Q) = true) by (apply Nat.leb_le; lia).
  rewrite Hfits. unfold ret at 1. cbn [firstn app].
  unfold bind at 1.
  change (seq 2 (2 - 1)) with [2].
  cbn [Expansion.outer_loop Expansion.dexp Expansion.k Expansion.next_lens].
  unfold bind at 1.
  unfold Expansion.nmonomials.
  replace (n + (2 - 1) - 1) with n by lia.
  change (2 - 1) with 1. rewrite Hlinear.
  unfold Expansion.slice.
  cbn [Nat.add skipn]. rewrite Nat.sub_0_r.
  rewrite firstn_app, length_map, length_seq, Nat.sub_diag.
  cbn [firstn]. rewrite app_nil_r.
  rewrite firstn_all2 by (rewrite length_map, length_seq; lia).
  rewrite lens_of_ones.
  destruct (@inner_loop_products
              unit x Hshape n 0 (columns xs n)
              (skipn n (repeat (repeat rzero (Expansion.shape0 x))
                               (n + length Q)))
              n (repeat 0 (n + 1)) tt)
    as [lens' Hloop].
  - reflexivity.
  - now rewrite length_map, length_seq.
  - apply repeat_length.
  - fold n. fold xs. fold Q. rewrite length_skipn, repeat_length. lia.
  - fold n in Hloop. fold xs in Hloop. fold Q in Hloop.
    rewrite Hloop. unfold ret at 1.
    cbn [Expansion.dexp].
    rewrite skipn_all2 by (rewrite length_skipn, repeat_length; lia).
    rewrite app_nil_r.
    unfold bind at 1. unfold Expansion.shape0. fold xs.
    rewrite transpose_Ok.
    + unfold ret. cbn [fst]. f_equal. f_equal.
      transitivity (map (fun i => nth i xs []
                                  ++ ExpansionSpec.quadratic_terms
                                       rzero rmul (nth i xs []))
                        (seq 0 (length xs))).
      * apply map_ext_in. intros i Hi. apply in_seq in Hi.
        assert (Hlen : length (nth i xs []) = n).
        { apply (proj1 (Forall_forall _ xs) Hrows). apply nth_In. lia. }
        rewrite map_app. f_equal.
        -- now apply row_of_columns.
        -- unfold Q. rewrite row_of_products by (lia || exact Hlen).
           unfold ExpansionSpec.quadratic_terms. now rewrite Hlen.
      * rewrite <- (map_map (fun i => nth i xs [])
                            (fun row => row ++ ExpansionSpec.quadratic_terms
                                                 rzero rmul row)).
        now rewrite map_nth_seq.
    + apply Forall_app. split.
      * apply Forall_forall. intros c Hc. apply in_map_iff in Hc.
        destruct Hc as [j [<- _]]. now rewrite length_map.
      * apply Forall_forall. intros c Hc. unfold Q in Hc.
        apply in_flat_map in Hc. destruct Hc as [j [_ Hc]].
        apply in_map_iff in Hc. destruct Hc as [c' [<- Hc']].
        assert (Hin : In c' (columns xs n))
          by (rewrite <- (firstn_skipn j); apply in_or_app; now right).
        clear Hc'. rename Hin into Hc'. apply in_map_iff in Hc'.
        destruct Hc' as [j' [<- _]].
        rewrite length_zip_mul by now rewrite !length_map.
        now rewrite length_map.
Qed.
End ExpansionContentFacts.

Lemma X19_witness :
  Expansion._execute
    0%Z Z.mul Expansion.binomial CountingStates.example_array
    (Expansion.PolynomialExpansionNode Expansion.binomial 1 (Some 3) None)
  = (Ok CountingStates.example_array,
     Expansion.PolynomialExpansionNode Expansion.binomial 1 (Some 3) None).
Proof.
  assert (Hshape : ExpansionSpec.well_shaped CountingStates.example_array)
    by (repeat constructor).
  exact (@X19_degree_one_expansion_is_identity
           Z 0%Z Z.mul Expansion.binomial CountingStates.example_array None
           Hshape eq_refl).
Defined.

Lemma X20_witness :
  fst (Expansion._execute
         0%Z Z.mul Expansion.binomial CountingStates.example_array
         (Expansion.QuadraticExpansionNode Expansion.binomial (Some 3) None))
  = Ok (Expansion.mk_array 9 [[2; 3; 5; 4; 6; 10; 9; 15; 25];
                              [1; 0; 7; 1; 0; 7; 0; 0; 49]]%Z).
Proof.
  assert (Hshape : ExpansionSpec.well_shaped CountingStates.example_array)
    by (repeat constructor).
  exact (f_equal fst
           (@X20_quadratic_expansion_content
              Z 0%Z Z.mul Expansion.binomial CountingStates.example_array
              None Hshape eq_refl eq_refl)).
Defined.

(** ** The caller's scheduler *)

Section ShutdownFacts.
Context {Node : Type} `{BiFlowNode Node}.
Context {Pool Handle : Type}.
Variable sched : @ParallelBiFlow.Scheduler Node Pool Handle.
Variable shutdown' : Handle -> Pool -> Pool.
Variable BiFlow_train :
  list (list pyval) -> list (list pyval) -> option (list pyval)
  -> M (ParallelBiFlow.t (Node := Node)) unit.
Variable BiFlow_execute :
  list pyval -> list pyval -> list pyval
  -> M (ParallelBiFlow.t (Node := Node)) pyval.
Variable get_message : list pyval -> pyval.

Local Abbreviation sched' := (SchedulerSpec.with_shutdown shutdown' sched).
Local Abbreviation frame := (@ParallelBiFlow.frame Node Pool Handle).

Lemma bind_cong {S A B : Type} (m1 m2 : M S A) (k1 k2 : A -> M S B) (s : S) :
  m1 s = m2 s ->
  (forall a s', m1 s = (Ok a, s') -> k1 a s' = k2 a s') ->
  bind m1 k1 s = bind m2 k2 s.
Proof.
  intros Hm Hk. unfold bind. rewrite <- Hm.
  destruct (m1 s) as [[a|e|] s']; auto.
Qed.

Lemma keeps_schedulers_Ok {A : Type} (m : M frame A) (f f' : frame) (a : A) :
  SchedulerSpec.keeps_schedulers m ->
  m f = (Ok a, f') ->
  ParallelBiFlow.schedulers f' = ParallelBiFlow.schedulers f.
Proof. intros Hkeeps Hrun. specialize (Hkeeps f). now rewrite Hrun in Hkeeps. Qed.

Lemma keeps_schedulers_bind {A B : Type} (m : M frame A) (k : A -> M frame B) :
  SchedulerSpec.keeps_schedulers m ->
  (forall a, SchedulerSpec.keeps_schedulers (k a)) ->
  SchedulerSpec.keeps_schedulers (bind m k).
Proof.
  intros Hm Hk f. unfold bind. specialize (Hm f).
  destruct (m f) as [[a|e|] f1]; cbn [snd] in *; try exact Hm.
  now rewrite Hk.
Qed.

Lemma keeps_schedulers_on_self {A : Type}
      (m : M (ParallelBiFlow.t (Node := Node)) A) :
  SchedulerSpec.keeps_schedulers
    (@ParallelBiFlow.on_self Node Pool Handle A m).
Proof.
  intros f. unfold ParallelBiFlow.on_self, zoom.
  now destruct (m (ParallelBiFlow.self f)).
Qed.

Lemma keeps_schedulers_submit_tasks (fuel : nat) :
  SchedulerSpec.keeps_schedulers
    (@ParallelBiFlow.submit_tasks Node Pool Handle sched fuel).
Proof.
  induction fuel as [|fuel IH]; [intros f; reflexivity|].
  cbn [ParallelBiFlow.submit_tasks].
  apply keeps_schedulers_bind; [apply keeps_schedulers_on_self|].
  intros [|]; [|intros f; reflexivity].
  apply keeps_schedulers_bind; [apply keeps_schedulers_on_self|].
  intros task.
  apply keeps_schedulers_bind; [intros f; reflexivity|].
  intros [|h|]; try (intros f; reflexivity).
  apply keeps_schedulers_bind; [intros f; reflexivity|].
  intros _. exact IH.
Qed.

Lemma keeps_schedulers_get_results :
  SchedulerSpec.keeps_schedulers
    (@ParallelBiFlow.scheduler_get_results Node Pool Handle sched).
Proof.
  intros f. unfold ParallelBiFlow.scheduler_get_results,
    ParallelBiFlow.on_pool.
  unfold_monad.
  destruct (ParallelBiFlow.scheduler f) as [|h|]; try reflexivity.
  now destruct (ParallelBiFlow.get_results h (ParallelBiFlow.pool f)).
Qed.

Lemma keeps_schedulers_check_result_container
      (wanted : ParallelBiFlow.container_kind) (overwrite : bool) :
  SchedulerSpec.keeps_schedulers
    (@ParallelBiFlow.check_result_container
       Node Pool Handle sched wanted overwrite).
Proof.
  intros f. unfold ParallelBiFlow.check_result_container,
    ParallelBiFlow.on_pool.
  unfold_monad.
  destruct (ParallelBiFlow.scheduler f) as [|h|]; try reflexivity.
  - now destruct (overwrite && _).
  - now destruct overwrite.
Qed.

(** Without an iterator over schedulers the phase loop never reaches
    [shutdown]. *)
Lemma train_phases_without_shutdown (fuel : nat) :
  forall (overwrite : bool) (f : frame),
    ParallelBiFlow.schedulers f = None ->
    @ParallelBiFlow.train_phases Node _ get_message Pool Handle sched
                                 fuel overwrite f
    = @ParallelBiFlow.train_phases Node _ get_message Pool Handle sched'
                                   fuel overwrite f.
Proof.
  induction fuel as [|fuel IH]; intros overwrite f Hnone; [reflexivity|].
  cbn [ParallelBiFlow.train_phases].
  apply bind_cong; [reflexivity|]. intros training f0 Hf0.
  assert (Hnone0 : ParallelBiFlow.schedulers f0 = None).
  { rewrite (@keeps_schedulers_Ok _ _ _ _ _
               (@keeps_schedulers_on_self _ _) Hf0). exact Hnone. }
  destruct training; [|reflexivity].
  apply bind_cong; [reflexivity|]. intros [] f1 Hf1.
  assert (Hnone1 : ParallelBiFlow.schedulers f1 = None).
  { rewrite (@keeps_schedulers_Ok _ _ _ _ _
               (keeps_schedulers_submit_tasks fuel) Hf1). exact Hnone0. }
  apply bind_cong; [reflexivity|]. intros results f2 Hf2.
  assert (Hnone2 : ParallelBiFlow.schedulers f2 = None).
  { rewrite (@keeps_schedulers_Ok _ _ _ _ _
               keeps_schedulers_get_results Hf2).
    exact Hnone1. }
  apply bind_cong; [reflexivity|]. intros [] f3 Hf3.
  assert (Hnone3 : ParallelBiFlow.schedulers f3 = None).
  { destruct results as [|result results]; [discriminate|].
    apply bind_Ok in Hf3. destruct Hf3 as (a & f3' & Huse & Hret).
    unfold ret in Hret. injection Hret as <-.
    rewrite (@keeps_schedulers_Ok _ _ _ _ _
               (@keeps_schedulers_on_self _ _) Huse).
    exact Hnone2. }
  apply bind_cong; [reflexivity|]. intros remaining f4 Hf4.
  unfold gets in Hf4. injection Hf4 as <- <-. rewrite Hnone3.
  apply bind_cong; [reflexivity|]. intros cursor f5 Hf5.
  assert (Hnone5 : ParallelBiFlow.schedulers f5 = None).
  { rewrite (@keeps_schedulers_Ok _ _ _ _ _
               (@keeps_schedulers_on_self _ _) Hf5). exact Hnone3. }
  apply bind_cong; [reflexivity|]. intros last f6 Hf6.
  unfold gets in Hf6. injection Hf6 as <- <-.
  apply bind_cong; [reflexivity|]. intros [] f7 Hf7.
  unfold ret in Hf7. injection Hf7 as <-.
  now apply IH.
Qed.

Lemma bind_no_schedulers {A B : Type} (m : M frame A) (k : A -> M frame B)
      (f : frame) :
  ParallelBiFlow.schedulers (snd (m f)) = None ->
  (forall a f', m f = (Ok a, f') ->
                ParallelBiFlow.schedulers (snd (k a f')) = None) ->
  ParallelBiFlow.schedulers (snd (bind m k f)) = None.
Proof.
  intros Hm Hk. unfold bind.
  destruct (m f) as [[a|e|] f1]; cbn [snd] in *; auto.
Qed.

Lemma train_phases_no_schedulers (fuel : nat) :
  forall (overwrite : bool) (f : frame),
    ParallelBiFlow.schedulers f = None ->
    ParallelBiFlow.schedulers
      (snd (@ParallelBiFlow.train_phases Node _ get_message Pool Handle sched
                                         fuel overwrite f))
    = None.
Proof.
  induction fuel as [|fuel IH]; intros overwrite f Hnone; [exact Hnone|].
  cbn [ParallelBiFlow.train_phases].
  apply bind_no_schedulers;
    [now rewrite keeps_schedulers_on_self|]. intros training f0 Hf0.
  assert (Hnone0 : ParallelBiFlow.schedulers f0 = None).
  { rewrite (@keeps_schedulers_Ok _ _ _ _ _
               (@keeps_schedulers_on_self _ _) Hf0). exact Hnone. }
  destruct training; [|exact Hnone0].
  apply bind_no_schedulers;
    [now rewrite keeps_schedulers_submit_tasks|]. intros [] f1 Hf1.
  assert (Hnone1 : ParallelBiFlow.schedulers f1 = None).
  { rewrite (@keeps_schedulers_Ok _ _ _ _ _
               (keeps_schedulers_submit_tasks fuel) Hf1). exact Hnone0. }
  apply bind_no_schedulers;
    [now rewrite keeps_schedulers_get_results|]. intros results f2 Hf2.
  assert (Hnone2 : ParallelBiFlow.schedulers f2 = None).
  { rewrite (@keeps_schedulers_Ok _ _ _ _ _
               keeps_schedulers_get_results Hf2).
    exact Hnone1. }
  assert (Huse : SchedulerSpec.keeps_schedulers
                   match results with
                   | [] => raise (PyException ParallelBiFlow.err_no_results)
                   | _ :: _ =>
                       @ParallelBiFlow.on_self
                         Node Pool Handle _
                         (ParallelBiFlow.use_results get_message fuel
                                                     results) ;;
                       ret tt
                   end).
  { destruct results; [intros f'; reflexivity|].
    apply keeps_schedulers_bind; [apply keeps_schedulers_on_self|].
    intros _ f'. reflexivity. }
  apply bind_no_schedulers; [now rewrite Huse|]. intros [] f3 Hf3.
  assert (Hnone3 : ParallelBiFlow.schedulers f3 = None).
  { rewrite (@keeps_schedulers_Ok _ _ _ _ _ Huse Hf3). exact Hnone2. }
  apply bind_no_schedulers; [exact Hnone3|]. intros remaining f4 Hf4.
  unfold gets in Hf4. injection Hf4 as <- <-. rewrite Hnone3.
  apply bind_no_schedulers;
    [now rewrite keeps_schedulers_on_self|]. intros cursor f5 Hf5.
  assert (Hnone5 : ParallelBiFlow.schedulers f5 = None).
  { rewrite (@keeps_schedulers_Ok _ _ _ _ _
               (@keeps_schedulers_on_self _ _) Hf5). exact Hnone3. }
  apply bind_no_schedulers; [exact Hnone5|]. intros last f6 Hf6.
  unfold gets in Hf6. injection Hf6 as <- <-.
  apply bind_no_schedulers; [exact Hnone5|]. intros [] f7 Hf7.
  unfold ret in Hf7. injection Hf7 as <-.
  now apply IH.
Qed.

(** X21.  A scheduler that is passed to [train] or [execute] directly (not
    in an iterable) is never shut down by the call: whatever [shutdown]
    would do, the result, the flow and the pools are the same.  Shutting
    the scheduler down stays with the caller. *)
Theorem X21_single_scheduler_is_never_shut_down :
  forall (fuel : nat) (data_iterables msg_iterables : list (list pyval))
         (stop_messages : option (list pyval)) (h : Handle)
         (train_callable_class : option ParallelBiFlow.train_callable_class)
         (iterable msg_iterable target_iterable : list pyval)
         (execute_callable_class :
            option ParallelBiFlow.execute_callable_class)
         (overwrite_result_container : bool)
         (w : ParallelBiFlow.t (Node := Node) * Pool),
    @ParallelBiFlow.train
      Node _ BiFlow_train get_message Pool Handle sched fuel
      data_iterables msg_iterables stop_messages
      (ParallelBiFlow.OneScheduler h) train_callable_class
      overwrite_result_container w
    = @ParallelBiFlow.train
        Node _ BiFlow_train get_message Pool Handle sched' fuel
        data_iterables msg_iterables stop_messages
        (ParallelBiFlow.OneScheduler h) train_callable_class
        overwrite_result_container w
    /\ @ParallelBiFlow.execute
         Node _ BiFlow_execute get_message Pool Handle sched fuel
         iterable msg_iterable target_iterable (Some h)
         execute_callable_class overwrite_result_container w
       = @ParallelBiFlow.execute
           Node _ BiFlow_execute get_message Pool Handle sched' fuel
           iterable msg_iterable target_iterable (Some h)
           execute_callable_class overwrite_result_container w.
Proof.
  intros fuel d m st h tcc it mit tit ecc ow w.
  split; [|reflexivity].
  unfold ParallelBiFlow.train.
  apply bind_cong; [reflexivity|]. intros training w0 _.
  destruct training; [reflexivity|].
  unfold ParallelBiFlow.with_frame, try_finally.
  set (f0 := ParallelBiFlow.mk_frame
               (fst w0) (snd w0) (ParallelBiFlow.RefScheduler h) None None).
  assert (Hbody :
            @ParallelBiFlow.train_parallel
              Node _ get_message Pool Handle sched fuel d m st
              (ParallelBiFlow.OneScheduler h)
              match tcc with
              | Some cls => cls
              | None => BiFlowTrainCallable.__call__
              end ow f0
            = @ParallelBiFlow.train_parallel
                Node _ get_message Pool Handle sched' fuel d m st
                (ParallelBiFlow.OneScheduler h)
                match tcc with
                | Some cls => cls
                | None => BiFlowTrainCallable.__call__
                end ow f0).
  { unfold ParallelBiFlow.train_parallel.
    apply bind_cong; [reflexivity|]. intros [] f1 _.
    apply bind_cong; [reflexivity|]. intros [] f2 Hf2.
    unfold modify in Hf2. injection Hf2 as <-.
    apply bind_cong; [reflexivity|]. intros [] f3 Hf3.
    apply train_phases_without_shutdown.
    rewrite (@keeps_schedulers_Ok _ _ _ _ _
               (keeps_schedulers_check_result_container
                  ParallelBiFlow.TrainResultContainer ow) Hf3).
    reflexivity. }
  rewrite <- Hbody.
  assert (Hnone :
            ParallelBiFlow.schedulers
              (snd (@ParallelBiFlow.train_parallel
                      Node _ get_message Pool Handle sched fuel d m st
                      (ParallelBiFlow.OneScheduler h)
                      match tcc with
                      | Some cls => cls
                      | None => BiFlowTrainCallable.__call__
                      end ow f0))
            = None).
  { unfold ParallelBiFlow.train_parallel.
    apply bind_no_schedulers;
      [now rewrite keeps_schedulers_on_self|]. intros [] f1 _.
    apply bind_no_schedulers; [reflexivity|]. intros [] f2 Hf2.
    unfold modify in Hf2. injection Hf2 as <-.
    apply bind_no_schedulers;
      [now rewrite keeps_schedulers_check_result_container|].
    intros [] f3 Hf3.
    apply train_phases_no_schedulers.
    rewrite (@keeps_schedulers_Ok _ _ _ _ _
               (keeps_schedulers_check_result_container
                  ParallelBiFlow.TrainResultContainer ow) Hf3).
    reflexivity. }
  destruct (ParallelBiFlow.train_parallel _ _ _ _ _ _ _ _ f0) as [r f1].
  cbn [snd] in Hnone.
  assert (Hfinally :
            @ParallelBiFlow.train_finally Node Pool Handle sched f1
            = @ParallelBiFlow.train_finally Node Pool Handle sched' f1).
  { unfold ParallelBiFlow.train_finally.
    apply bind_cong; [reflexivity|]. intros [] f2 Hf2.
    apply bind_cong; [reflexivity|]. intros remaining f3 Hf3.
    unfold gets in Hf3. injection Hf3 as <- <-.
    rewrite (@keeps_schedulers_Ok _ _ _ _ _
               (@keeps_schedulers_on_self _ _) Hf2), Hnone.
    reflexivity. }
  now rewrite Hfinally.
Qed.
End ShutdownFacts.
